(** * Deep Q-learning on Atari frames: the notebook's environment wrappers,
      replay buffer and training loop, embedded and verified.

    The development follows [lecture_notebook.ipynb]: the gym wrappers of
    cell 4 ([FireResetEnv], [MaxAndSkipEnv], [ProcessFrame84],
    [ImageToPyTorch], [ScaledFloatFrame], [BufferWrapper]) and their
    composition [make_env], the shapes of the [DQN] of cell 19, the
    [ReplayBuffer] of cell 20, the hyperparameters of cell 21 and the
    training loop of cell 23.

    Conventions.
    - Python [int]s are [Z]; [len(...)] is [Z.of_nat (length ...)].
    - Python [float]s are IEEE binary64 and NumPy/PyTorch [float32]s are IEEE
      binary32; both are values of [spec_float] with the operations of the
      Standard Library's [SpecFloat] at the corresponding precision.
      Where a statement is checked at every frame of the loop, the binary64
      operations run on Rocq's primitive floats, which [FloatAxioms]
      specifies by the operations of [SpecFloat].
    - A raised exception is a [Raise] of the [result] monad.
    - NumPy arrays and PyTorch parameters that the code mutates in place live
      in a store ([gmap loc _]); a Python reference is a [loc].
    - Calls into libraries whose results are not determined by the notebook
      (the simulator, the random generator, [cv2.resize], the network's
      forward and backward passes, Adam's update rule) are fields of a class
      or arguments of the function that makes the call. *)

From Stdlib Require Import ZArith Lia SpecFloat.
From stdpp Require Import base option list gmap strings.
From Stdlib Require Floats Uint63.

Open Scope Z_scope.

(* ===================================================================== *)
(** * Part I: the model                                                    *)
(* ===================================================================== *)

(** ** Exceptions *)

Inductive exn : Type :=
  | ValueError
  | IndexError
  | AttributeError
  | AssertionError
  | NameError
  | RuntimeError.

Inductive result (A : Type) : Type :=
  | Ok (a : A)
  | Raise (e : exn).
Arguments Ok {A} a.
Arguments Raise {A} e.

#[global] Instance result_ret : MRet result := fun A a => Ok a.
#[global] Instance result_bind : MBind result := fun A B f m =>
  match m with
  | Ok a => f a
  | Raise e => Raise e
  end.

Definition is_Ok {A} (r : result A) : Prop := exists a, r = Ok a.
Definition raises {A} (r : result A) : Prop := exists e, r = Raise e.

(** ** Floating point formats *)

Module Float64.
Definition prec : Z := 53.
Definition emax : Z := 1024.
Definition add : spec_float -> spec_float -> spec_float := SFadd prec emax.
Definition ltb : spec_float -> spec_float -> bool := SFltb.
Definition of_Z (z : Z) : spec_float := binary_normalize prec emax z 0 false.
Definition zero : spec_float := S754_zero false.
End Float64.

Module Float32.
Definition prec : Z := 24.
Definition emax : Z := 128.
Definition add : spec_float -> spec_float -> spec_float := SFadd prec emax.
Definition mul : spec_float -> spec_float -> spec_float := SFmul prec emax.
Definition div : spec_float -> spec_float -> spec_float := SFdiv prec emax.
Definition of_Z (z : Z) : spec_float := binary_normalize prec emax z 0 false.
Definition zero : spec_float := S754_zero false.

(** A binary64 value converted to binary32 (a C cast, as [np.array(...,
    dtype=np.float32)] and a Python scalar meeting a float32 array do):
    round to nearest even. *)
Definition of_float64 (x : spec_float) : spec_float :=
  match x with
  | S754_finite s m e => binary_round prec emax s m e
  | _ => x
  end.

(** The decimal literal [n / 10^k] as Python reads it and NumPy or PyTorch
    narrows it: the correctly rounded binary64 quotient, then [of_float64]. *)
Definition literal (n : Z) (pow10 : Z) : spec_float :=
  of_float64 (SFdiv Float64.prec Float64.emax (Float64.of_Z n) (Float64.of_Z pow10)).

(** [max] of two values as [torch.max] reduces: a NaN wins. *)
Definition max (x y : spec_float) : spec_float :=
  match SFcompare x y with
  | None => S754_nan
  | Some Lt => y
  | Some _ => x
  end.
End Float32.

(** ** [collections.deque] with a [maxlen] *)

Module Deque.
Record deque (A : Type) : Type := mk {
  items : list A;          (* left end first *)
  maxlen : Z
}.
Arguments mk {A} items maxlen.
Arguments items {A} _.
Arguments maxlen {A} _.

(** [deque(maxlen=n)]: a negative [maxlen] is refused. *)
Definition new {A} (n : Z) : result (deque A) :=
  if n <? 0 then Raise ValueError else Ok (mk [] n).

Definition len {A} (d : deque A) : Z := Z.of_nat (length (items d)).

(** [d.append(x)]: CPython appends on the right, then pops one item from the
    left when the length exceeds [maxlen]. *)
Definition append {A} (d : deque A) (x : A) : deque A :=
  let l := items d ++ [x] in
  mk (if maxlen d <? Z.of_nat (length l) then drop 1 l else l) (maxlen d).

Definition clear {A} (d : deque A) : deque A := mk [] (maxlen d).

(** [d[idx]] for a non-negative index. *)
Definition getitem {A} (d : deque A) (idx : nat) : result A :=
  match items d !! idx with
  | Some x => Ok x
  | None => Raise IndexError
  end.
End Deque.

(** ** NumPy arrays *)

(** A [uint8] array: its shape and its elements in row-major order. *)
Record ndarray : Type := mk_ndarray {
  shape : list nat;
  data : list Z
}.

#[global] Instance ndarray_eq_dec : EqDecision ndarray.
Proof. solve_decision. Defined.

(** [a.size] *)
Definition ndarray_size (a : ndarray) : Z := Z.of_nat (foldr Nat.mul 1%nat (shape a)).

(** [np.max(np.stack(arrays), axis=0)]: [np.stack] needs at least one array
    and equal shapes; the maximum is taken element by element. *)
Definition np_max_stack (arrays : list ndarray) : result ndarray :=
  match arrays with
  | [] => Raise ValueError
  | a :: rest =>
      if forallb (fun b => bool_decide (shape b = shape a)) rest
      then Ok (mk_ndarray (shape a) (foldl (zip_with Z.max) (data a) (map data rest)))
      else Raise ValueError
  end.

(** [l[start:stop]] for [0 <= start <= stop]; Python clips at the end. *)
Definition pyslice {A} (start stop : nat) (l : list A) : list A :=
  take (stop - start) (drop start l).

(** Row-major reshape of a flat list into [n] rows of [k] items. *)
Definition chunks {A} (n k : nat) (l : list A) : list (list A) :=
  map (fun i => take k (drop (i * k) l)) (seq 0 n).

(** Element-wise maps over two and three dimensions. *)
Definition map2d {A B} (f : A -> B) : list (list A) -> list (list B) := map (map f).
Definition map3d {A B} (f : A -> B) : list (list (list A)) -> list (list (list B)) :=
  map (map (map f)).

(** A float32 image (rows of pixels) and a stack of such planes. *)
Abbreviation plane := (list (list spec_float)).
Abbreviation planes := (list plane).

(** ** [MaxAndSkipEnv] *)

(** The wrapped simulator: [reset() -> frame] and
    [step(action) -> (frame, reward, done, info)]. *)
Class RawEnv : Type := {
  env_state : Type;
  env_info : Type;
  raw_reset : env_state -> env_state * ndarray;
  raw_step : env_state -> Z -> env_state * (ndarray * spec_float * bool * env_info)
}.

Module MaxAndSkipEnv.
Section Wrapper.
Context `{RawEnv}.

Record t : Type := mk {
  env : env_state;
  _obs_buffer : Deque.deque ndarray;
  _skip : nat
}.

(** [__init__(env, skip=4)] *)
Definition init (e : env_state) (skip : nat) : t :=
  mk e (Deque.mk [] 2) skip.

(** The body of [for _ in range(self._skip)], with the loop variables
    [total_reward] and [(done, info)] ([None] before the first pass). *)
Fixpoint step_loop (n : nat) (action : Z) (e : env_state)
    (buf : Deque.deque ndarray) (total_reward : spec_float)
    (last : option (bool * env_info))
    : env_state * Deque.deque ndarray * spec_float * option (bool * env_info) :=
  match n with
  | O => (e, buf, total_reward, last)
  | S n' =>
      let '(e', (obs, reward, done, info)) := raw_step e action in
      let buf' := Deque.append buf obs in
      let total_reward' := Float64.add total_reward reward in
      if done then (e', buf', total_reward', Some (done, info))
      else step_loop n' action e' buf' total_reward' (Some (done, info))
  end.

(** [step(action)]; with [skip = 0] the name [info] is unbound at the
    [return]. *)
Definition step (self : t) (action : Z)
    : result (t * (ndarray * spec_float * bool * env_info)) :=
  let '(e, buf, total_reward, last) :=
    step_loop (_skip self) action (env self) (_obs_buffer self) Float64.zero None in
  max_frame ← np_max_stack (Deque.items buf);
  match last with
  | None => Raise NameError
  | Some (done, info) => Ok (mk e buf (_skip self), (max_frame, total_reward, done, info))
  end.

(** [reset()] *)
Definition reset (self : t) : t * ndarray :=
  let buf := Deque.clear (_obs_buffer self) in
  let '(e, obs) := raw_reset (env self) in
  (mk e (Deque.append buf obs) (_skip self), obs).
End Wrapper.
End MaxAndSkipEnv.

(** ** [ProcessFrame84] *)

(** The two library calls of [process] whose results the notebook does not
    determine: [cv2.resize(img, (width, height), interpolation=INTER_AREA)]
    and the C cast behind [astype(np.uint8)]. *)
Class ImageLib : Type := {
  cv2_resize_area : plane -> nat -> nat -> plane;
  astype_uint8 : spec_float -> Z
}.

Module ProcessFrame84.
Section Process.
Context `{ImageLib}.

(** The weights as float32 scalars. *)
Definition w_red : spec_float := Float32.literal 299 1000.
Definition w_green : spec_float := Float32.literal 587 1000.
Definition w_blue : spec_float := Float32.literal 114 1000.

(** [np.reshape(frame, [h, w, 3]).astype(np.float32)] *)
Definition reshape_float32 (h w : nat) (frame : ndarray) : list (list (list spec_float)) :=
  chunks h w (chunks (h * w) 3 (map Float32.of_Z (data frame))).

(** [img[:, :, 0] * 0.299 + img[:, :, 1] * 0.587 + img[:, :, 2] * 0.114]
    at one pixel. *)
Definition luminance (px : list spec_float) : spec_float :=
  Float32.add
    (Float32.add (Float32.mul (nth 0 px S754_nan) w_red)
                 (Float32.mul (nth 1 px S754_nan) w_green))
    (Float32.mul (nth 2 px S754_nan) w_blue).

Definition grayscale (img : list (list (list spec_float))) : plane :=
  map2d luminance img.

(** [resized_screen[18:102, :]] *)
Definition crop (resized_screen : plane) : plane := pyslice 18 102 resized_screen.

(** [np.reshape(x_t, [84, 84, 1])]: refused unless [x_t] has 84 * 84 items. *)
Definition reshape_84_84_1 (x_t : plane) : result (list (list (list spec_float))) :=
  let flat := concat x_t in
  if bool_decide (length flat = (84 * 84 * 1)%nat)
  then Ok (chunks 84 84 (chunks (84 * 84) 1 flat))
  else Raise ValueError.

(** [ProcessFrame84.process(frame)] *)
Definition process (frame : ndarray) : result (list (list (list Z))) :=
  img ← (if ndarray_size frame =? 210 * 160 * 3 then Ok (reshape_float32 210 160 frame)
         else if ndarray_size frame =? 250 * 160 * 3 then Ok (reshape_float32 250 160 frame)
         else Raise AssertionError);
  let img := grayscale img in
  let resized_screen := cv2_resize_area img 84 110 in
  let x_t := crop resized_screen in
  x_t ← reshape_84_84_1 x_t;
  Ok (map3d astype_uint8 x_t).

End Process.
End ProcessFrame84.

(** ** The store of NumPy arrays, [BufferWrapper] and [ScaledFloatFrame] *)

Definition loc : Type := nat.

(** Arrays of [dtype=np.float32] and three dimensions, by reference. *)
Abbreviation heap := (gmap loc planes).

Definition alloc (h : heap) (a : planes) : heap * loc :=
  let l := fresh (dom h) in (<[l := a]> h, l).

(** The shape [(rows, columns)] of a plane. *)
Definition plane_shape (p : plane) : nat * nat := (length p, length (hd [] p)).

(** A value of shape [(1, rows, columns)], [(1, 1, columns)], [(1, rows, 1)]
    or [(1, 1, 1)] broadcast to [(rows, columns)], as an assignment to
    [buffer[-1]] does; other shapes are refused. *)
Definition broadcast_plane (rows cols : nat) (value : planes) : result plane :=
  match value with
  | [p] =>
      let '(r, c) := plane_shape p in
      if bool_decide ((r = rows \/ r = 1%nat) /\ (c = cols \/ c = 1%nat))
      then
        let widen (row : list spec_float) :=
          if bool_decide (c = cols) then row else replicate cols (hd S754_nan row) in
        let p' := map widen p in
        Ok (if bool_decide (r = rows) then p' else replicate rows (hd [] p'))
      else Raise ValueError
  | _ => Raise ValueError
  end.

(** [observation.astype(np.float32)], the cast of an assignment into a
    float32 buffer. *)
Definition astype_float32 (a : list (list (list Z))) : planes :=
  map3d Float32.of_Z a.

Module BufferWrapper.

Record t : Type := mk {
  observation_space_low : planes;
  buffer : option loc             (* unset until the first [reset] *)
}.

(** [old_space.low.repeat(n_steps, axis=0)] *)
Definition repeat_axis0 (n_steps : nat) (low : planes) : planes :=
  low ≫= replicate n_steps.

(** [__init__(env, n_steps, dtype=np.float32)] *)
Definition init (old_space_low : planes) (n_steps : nat) : t :=
  mk (repeat_axis0 n_steps old_space_low) None.

(** [np.zeros_like(a, dtype=np.float32)] *)
Definition zeros_like (a : planes) : planes :=
  map3d (fun _ => Float32.zero) a.

(** [buffer[:-1] = buffer[1:]] *)
Definition shift_left (buf : planes) : planes :=
  drop 1 buf ++ drop (length buf - 1) buf.

(** [buffer[-1] = observation] *)
Definition set_last (buf : planes) (observation : planes) : result planes :=
  match last buf with
  | None => Raise IndexError
  | Some slot =>
      p ← broadcast_plane (plane_shape slot).1 (plane_shape slot).2 observation;
      Ok (take (length buf - 1) buf ++ [p])
  end.

(** [observation(observation)]: the buffer is updated in place and the
    reference to it is returned. *)
Definition observation (h : heap) (self : t) (obs : list (list (list Z)))
    : result (heap * loc) :=
  match buffer self with
  | None => Raise AttributeError
  | Some l =>
      match h !! l with
      | None => Raise AttributeError
      | Some buf =>
          buf' ← set_last (shift_left buf) (astype_float32 obs);
          Ok (<[l := buf']> h, l)
      end
  end.

(** [reset()], with the inner environment's first observation. *)
Definition reset (h : heap) (self : t) (first_obs : list (list (list Z)))
    : result (heap * t * loc) :=
  let '(h1, l) := alloc h (zeros_like (observation_space_low self)) in
  let self' := mk (observation_space_low self) (Some l) in
  '(h2, r) ← observation h1 self' first_obs;
  Ok (h2, self', r).

End BufferWrapper.

Module ScaledFloatFrame.

(** [np.array(obs).astype(np.float32) / 255.0]: a new array. *)
Definition scale (a : planes) : planes :=
  map3d (fun x => Float32.div x (Float32.of_float64 (Float64.of_Z 255))) a.

Definition observation (h : heap) (obs : loc) : result (heap * loc) :=
  match h !! obs with
  | None => Raise AttributeError
  | Some a => Ok (alloc h (scale a))
  end.

End ScaledFloatFrame.

(** The two outermost wrappers of [make_env], [ScaledFloatFrame(BufferWrapper(env, 4))],
    seen from the inner environment's observations. *)
Module Pipeline.

(** The observation space under [BufferWrapper] in [make_env]: the
    [(1, 84, 84)] box of [ImageToPyTorch], whose [low] is all zeros. *)
Definition inner_low : planes := [replicate 84 (replicate 84 Float32.zero)].

Definition init : BufferWrapper.t := BufferWrapper.init inner_low 4.

Definition reset (h : heap) (bw : BufferWrapper.t) (first_obs : list (list (list Z)))
    : result (heap * BufferWrapper.t * loc) :=
  '(h1, bw', r) ← BufferWrapper.reset h bw first_obs;
  '(h2, r') ← ScaledFloatFrame.observation h1 r;
  Ok (h2, bw', r').

Definition observation (h : heap) (bw : BufferWrapper.t) (obs : list (list (list Z)))
    : result (heap * loc) :=
  '(h1, r) ← BufferWrapper.observation h bw obs;
  ScaledFloatFrame.observation h1 r.

End Pipeline.

(** ** [Experience] and [ReplayBuffer] *)

Module Experience.
Record t (Obs : Type) : Type := mk {
  state : Obs;
  action : Z;
  reward : spec_float;      (* a Python float *)
  done : bool;
  new_state : Obs
}.
Arguments mk {Obs} state action reward done new_state.
Arguments state {Obs} _.
Arguments action {Obs} _.
Arguments reward {Obs} _.
Arguments done {Obs} _.
Arguments new_state {Obs} _.
End Experience.

(** [np.random.choice(a, size, replace=False)] for integers [a] and [size]:
    NumPy draws [permutation(a)] and returns its first [size] items.
    [permutation] is the generator's draw, a rearrangement of [range(a)]. *)
Definition np_random_choice (permutation : list nat) (a size : Z) : result (list nat) :=
  if (a <=? 0) && negb (size =? 0) then Raise ValueError
  else if a <? size then Raise ValueError
  else if size <? 0 then Raise ValueError
  else Ok (take (Z.to_nat size) permutation).

Module ReplayBuffer.
Section Buffer.
Context {Obs : Type}.

Record t : Type := mk {
  buffer : Deque.deque (Experience.t Obs)
}.

(** The five arrays [sample] returns. *)
Record Batch : Type := mk_batch {
  states : list Obs;
  actions : list Z;
  rewards : list spec_float;      (* dtype=np.float32 *)
  dones : list Z;                 (* dtype=np.uint8 *)
  next_states : list Obs
}.

(** [__init__(capacity)] *)
Definition init (capacity : Z) : result t :=
  d ← Deque.new capacity; Ok (mk d).

(** [__len__()] *)
Definition len (self : t) : Z := Deque.len (buffer self).

(** [append(experience)] *)
Definition append (self : t) (experience : Experience.t Obs) : t :=
  mk (Deque.append (buffer self) experience).

(** [[self.buffer[idx] for idx in indices]] *)
Fixpoint rows (self : t) (indices : list nat) : result (list (Experience.t Obs)) :=
  match indices with
  | [] => Ok []
  | idx :: indices' =>
      e ← Deque.getitem (buffer self) idx;
      es ← rows self indices';
      Ok (e :: es)
  end.

Definition uint8_of_bool (b : bool) : Z := if b then 1 else 0.

(** The transposition [zip] of the rows, unpacked into [states, actions,
    rewards, dones, next_states], and the five [np.array] conversions: with
    no row, [zip] yields nothing and the unpacking into five names fails. *)
Definition unzip (es : list (Experience.t Obs)) : result Batch :=
  match es with
  | [] => Raise ValueError
  | _ => Ok (mk_batch (map Experience.state es)
                      (map Experience.action es)
                      (map (fun e => Float32.of_float64 (Experience.reward e)) es)
                      (map (fun e => uint8_of_bool (Experience.done e)) es)
                      (map Experience.new_state es))
  end.

(** [sample(batch_size)], given the generator's draw. *)
Definition sample (self : t) (permutation : list nat) (batch_size : Z) : result Batch :=
  indices ← np_random_choice permutation (len self) batch_size;
  es ← rows self indices;
  unzip es.

End Buffer.
Arguments t Obs : clear implicits.
Arguments Batch Obs : clear implicits.
End ReplayBuffer.

(** ** Hyperparameters (cell 21) *)

Definition BATCH_SIZE : Z := 32.
Definition GAMMA : spec_float := Float32.literal 99 100.
Definition EPS_DECAY : Z := 100000.
Definition TARGET_UPDATE : Z := 1000.
Definition INITIAL_MEMORY : Z := 10000.
Definition REPLAY_MEMORY : Z := 10000.
Definition total_frames : Z := 1000000.

(** [1.0], [0.02] and the solved threshold [19.5] as Python floats. *)
Definition EPS_START : spec_float := Float64.of_Z 1.
Definition EPS_END : spec_float :=
  SFdiv Float64.prec Float64.emax (Float64.of_Z 2) (Float64.of_Z 100).
Definition SOLVED_REWARD : spec_float :=
  SFdiv Float64.prec Float64.emax (Float64.of_Z 195) (Float64.of_Z 10).

(** ** The temporal-difference target *)

Module TDTarget.

(** [.max(1)[0]] on one row of action values; an empty row is refused. *)
Definition row_max (row : list spec_float) : result spec_float :=
  match row with
  | [] => Raise IndexError
  | x :: xs => Ok (foldl Float32.max x xs)
  end.

Fixpoint max_dim1 (rows : list (list spec_float)) : result (list spec_float) :=
  match rows with
  | [] => Ok []
  | r :: rows' =>
      m ← row_max r;
      ms ← max_dim1 rows';
      Ok (m :: ms)
  end.

(** [values[done_mask] = 0.0] for a byte mask of the same length. *)
Definition masked_zero (values : list spec_float) (done_mask : list Z)
    : result (list spec_float) :=
  if bool_decide (length values = length done_mask)
  then Ok (zip_with (fun v d => if d =? 0 then v else Float32.zero) values done_mask)
  else Raise IndexError.

(** [a + b] for one-dimensional tensors: element by element when the
    lengths agree, a tensor of one element is broadcast, and other lengths
    are refused. *)
Definition tensor_add (a b : list spec_float) : result (list spec_float) :=
  if bool_decide (length a = length b) then Ok (zip_with Float32.add a b)
  else match a, b with
       | [x], _ => Ok (map (Float32.add x) b)
       | _, [y] => Ok (map (fun x => Float32.add x y) a)
       | _, _ => Raise RuntimeError
       end.

(** [next_state_values * GAMMA + rewards_v] *)
Definition discounted_plus (next_state_values rewards_v : list spec_float)
    : result (list spec_float) :=
  tensor_add (map (fun v => Float32.mul v GAMMA) next_state_values) rewards_v.

(** From [target_network(next_states_v)] to [expected_state_action_values]. *)
Definition expected_state_action_values
    (target_out : list (list spec_float)) (dones : list Z) (rewards_v : list spec_float)
    : result (list spec_float) :=
  next_state_values ← max_dim1 target_out;
  next_state_values ← masked_zero next_state_values dones;
  discounted_plus next_state_values rewards_v.

End TDTarget.

(** ** Networks, their parameters and the optimizer *)

(** What PyTorch and NumPy compute and the notebook only calls: the forward
    pass of the [DQN] architecture on one observation, the index
    [torch.max(..., dim=1)] selects, the gradient of the mean squared error
    between the taken actions' values and the targets, Adam's update, and
    [np.mean]. [T] is a parameter tensor. *)
Class Backend (T Obs : Type) : Type := {
  forward : list T -> Obs -> list spec_float;
  torch_argmax : list spec_float -> Z;
  backward : list T -> list Obs -> list Z -> list spec_float -> list T;
  adam_state : Type;
  adam : adam_state -> list T -> list T -> adam_state * list T;
  np_mean : list spec_float -> spec_float
}.

Module Net.

(** A [DQN] object: the references to its parameter tensors, in
    [state_dict] order. *)
Abbreviation net := (list loc).

(** [optim.Adam(net.parameters(), ...)]: the optimizer keeps the references. *)
Record optimizer (S : Type) : Type := mk_optimizer {
  opt_params : list loc;
  opt_state : S
}.
Arguments mk_optimizer {S} opt_params opt_state.
Arguments opt_params {S} _.
Arguments opt_state {S} _.

Section Params.
Context {T : Type}.

(** [DQN(...)]: fresh tensors holding the initial values. *)
Fixpoint new (st : gmap loc T) (init_values : list T) : gmap loc T * net :=
  match init_values with
  | [] => (st, [])
  | v :: vs =>
      let l := fresh (dom st) in
      let '(st', ls) := new (<[l := v]> st) vs in
      (st', l :: ls)
  end.

(** The tensors a network's parameters hold now. *)
Definition values (st : gmap loc T) (n : net) : list T :=
  omap (fun l => st !! l) n.

(** [self.load_state_dict(src.state_dict())]: each tensor of [src] is copied
    into the tensor of [self] with the same key; differing keys are refused. *)
Definition load_state_dict (st : gmap loc T) (self src : net) : result (gmap loc T) :=
  if bool_decide (length self = length src)
  then Ok (foldl (fun s '(t, q) => match s !! q with
                                   | Some v => <[t := v]> s
                                   | None => s
                                   end) st (zip self src))
  else Raise RuntimeError.

End Params.

Section Step.
Context {T Obs : Type} `{Backend T Obs}.

(** [optimizer.step()] after [loss.backward()] left [grads]: every tensor the
    optimizer holds is overwritten in place. *)
Definition step (st : gmap loc T) (opt : optimizer adam_state) (grads : list T)
    : gmap loc T * optimizer adam_state :=
  let '(s', new_values) := adam (opt_state opt) (values st (opt_params opt)) grads in
  (foldl (fun s '(l, v) => <[l := v]> s) st (zip (opt_params opt) new_values),
   mk_optimizer (opt_params opt) s').

End Step.
End Net.

(** ** The training loop (cells 21 and 23) *)

(** The environment [make_env] returns, as the loop uses it. *)
Class GymEnv (Obs : Type) : Type := {
  gym_state : Type;
  gym_reset : gym_state -> result (gym_state * Obs);
  gym_step : gym_state -> Z -> result (gym_state * (Obs * spec_float * bool))
}.

(** The random draws of one pass: [np.random.random()],
    [env.action_space.sample()] and the permutation behind
    [np.random.choice]. *)
Record Oracle : Type := mk_oracle {
  rnd_random : spec_float;
  rnd_action : Z;
  rnd_permutation : list nat
}.

(** Which of the gated statements ran, and at which [frame_idx]. *)
Inductive event : Type :=
  | TargetSync (frame_idx : Z)
  | LearnStep (frame_idx : Z).

#[global] Instance event_eq_dec : EqDecision event.
Proof. solve_decision. Defined.

Inductive flow : Type := Continue | Break.

Module TrainingLoop.
Section Loop.
Context {T Obs : Type} `{Backend T Obs} `{GymEnv Obs}.

(** The notebook's global variables, and [trace], a ghost record of the
    synchronizations and learning steps executed so far (newest last). *)
Record globals : Type := mk {
  env : gym_state;
  params : gmap loc T;
  q_network : Net.net;
  target_network : Net.net;
  optimizer : Net.optimizer adam_state;
  replay_buffer : ReplayBuffer.t Obs;
  total_rewards : list spec_float;
  total_reward : spec_float;
  frame_idx : Z;
  state : Obs;
  trace : list event
}.

(** Cell 21 and the first line of cell 23. *)
Definition setup (e0 : gym_state) (q_init target_init : list T) (adam0 : adam_state)
    : result globals :=
  let '(st1, q) := Net.new ∅ q_init in
  let '(st2, tgt) := Net.new st1 target_init in
  st3 ← Net.load_state_dict st2 tgt q;
  rb ← ReplayBuffer.init REPLAY_MEMORY;
  '(e, s) ← gym_reset e0;
  Ok (mk e st3 q tgt (Net.mk_optimizer q adam0) rb [] Float64.zero 0 s []).

(** [max(EPS_END, EPS_START - frame_idx / EPS_DECAY)] *)
Definition epsilon (frame_idx : Z) : spec_float :=
  let x := SFsub Float64.prec Float64.emax EPS_START
             (SFdiv Float64.prec Float64.emax (Float64.of_Z frame_idx) (Float64.of_Z EPS_DECAY)) in
  if Float64.ltb EPS_END x then x else EPS_END.

(** Epsilon-greedy selection, at the incremented [frame_idx]. *)
Definition select_action (g : globals) (o : Oracle) (frame_idx : Z) : Z :=
  if Float64.ltb (rnd_random o) (epsilon frame_idx) then rnd_action o
  else torch_argmax (forward (Net.values (params g) (q_network g)) (state g)).

(** [total_rewards[-100:]] *)
Definition last_100 (l : list spec_float) : list spec_float := drop (length l - 100) l.

(** From [frame_idx += 1] to the end of [if done: ...]: the environment
    step, the append to the replay buffer and the episode bookkeeping. *)
Definition collect (g : globals) (o : Oracle) : result (globals * flow) :=
  let frame_idx := frame_idx g + 1 in
  let action := select_action g o frame_idx in
  '(e, (next_state, reward, done)) ← gym_step (env g) action;
  let total_reward := Float64.add (total_reward g) reward in
  let exp := Experience.mk (state g) action reward done next_state in
  let rb := ReplayBuffer.append (replay_buffer g) exp in
  if done then
    let total_rewards := total_rewards g ++ [total_reward] in
    '(e', s) ← gym_reset e;
    let avg_reward := np_mean (last_100 total_rewards) in
    Ok (mk e' (params g) (q_network g) (target_network g) (optimizer g) rb
           total_rewards Float64.zero frame_idx s (trace g),
        if Float64.ltb SOLVED_REWARD avg_reward then Break else Continue)
  else
    Ok (mk e (params g) (q_network g) (target_network g) (optimizer g) rb
           (total_rewards g) total_reward frame_idx next_state (trace g),
        Continue).

(** [if frame_idx % TARGET_UPDATE == 0:
       target_network.load_state_dict(q_network.state_dict())] *)
Definition sync_target (g : globals) : result globals :=
  if frame_idx g mod TARGET_UPDATE =? 0 then
    st ← Net.load_state_dict (params g) (target_network g) (q_network g);
    Ok (mk (env g) st (q_network g) (target_network g) (optimizer g) (replay_buffer g)
           (total_rewards g) (total_reward g) (frame_idx g) (state g)
           (trace g ++ [TargetSync (frame_idx g)]))
  else Ok g.

(** From [optimizer.zero_grad()] to [optimizer.step()]. *)
Definition learn (g : globals) (o : Oracle) : result globals :=
  batch ← ReplayBuffer.sample (replay_buffer g) (rnd_permutation o) BATCH_SIZE;
  let q_values := Net.values (params g) (q_network g) in
  let target_values := Net.values (params g) (target_network g) in
  expected ← TDTarget.expected_state_action_values
               (map (forward target_values) (ReplayBuffer.next_states batch))
               (ReplayBuffer.dones batch) (ReplayBuffer.rewards batch);
  let grads := backward q_values (ReplayBuffer.states batch) (ReplayBuffer.actions batch) expected in
  let '(st, opt) := Net.step (params g) (optimizer g) grads in
  Ok (mk (env g) st (q_network g) (target_network g) opt (replay_buffer g)
         (total_rewards g) (total_reward g) (frame_idx g) (state g)
         (trace g ++ [LearnStep (frame_idx g)])).

(** One pass through the body of [while frame_idx < total_frames]. *)
Definition iteration (g : globals) (o : Oracle) : result (globals * flow) :=
  '(g1, fl) ← collect g o;
  match fl with
  | Break => Ok (g1, Break)
  | Continue =>
      if ReplayBuffer.len (replay_buffer g1) <? INITIAL_MEMORY then Ok (g1, Continue)
      else
        g2 ← sync_target g1;
        g3 ← learn g2 o;
        Ok (g3, Continue)
  end.

(** The loop, one oracle per pass. *)
Fixpoint run (os : list Oracle) (g : globals) : result globals :=
  match os with
  | [] => Ok g
  | o :: os' =>
      if frame_idx g <? total_frames then
        '(g', fl) ← iteration g o;
        match fl with
        | Continue => run os' g'
        | Break => Ok g'
        end
      else Ok g
  end.

End Loop.
End TrainingLoop.

(** ** [FireResetEnv] *)

(** The wrapper keeps no state of its own: it works on the wrapped
    environment [env], through that environment's [reset] and [step]. *)
Module FireResetEnv.
Section Wrapper.
Context {E Obs Info : Type}.
Variable env_reset : E -> result (E * Obs).
Variable env_step : E -> Z -> result (E * (Obs * spec_float * bool * Info)).

(** [__init__(env)], given [env.unwrapped.get_action_meanings()]: the two
    [assert]s, the first of which indexes the list. *)
Definition init (action_meanings : list string) (env : E) : result E :=
  match action_meanings !! 1%nat with
  | None => Raise IndexError
  | Some meaning =>
      if negb (String.eqb meaning "FIRE") then Raise AssertionError
      else if negb (3 <=? Z.of_nat (length action_meanings)) then Raise AssertionError
      else Ok env
  end.

(** [step(action)] *)
Definition step (env : E) (action : Z) : result (E * (Obs * spec_float * bool * Info)) :=
  env_step env action.

(** [if done: self.env.reset()] *)
Definition reset_if (done : bool) (env : E) : result E :=
  if done then '(env', _) ← env_reset env; Ok env' else Ok env.

(** [reset()] *)
Definition reset (env : E) : result (E * Obs) :=
  '(env, _) ← env_reset env;
  '(env, (obs, _, done, _)) ← env_step env 1;
  env ← reset_if done env;
  '(env, (obs, _, done, _)) ← env_step env 2;
  env ← reset_if done env;
  Ok (env, obs).

End Wrapper.
End FireResetEnv.

(** ** [gym.spaces.Box] and [ImageToPyTorch] *)

(** A box of three-dimensional float32 arrays: its two bounds. *)
Module Box.
Record t : Type := mk {
  low : planes;
  high : planes
}.

(** [np.full((d0, d1, d2), v)] *)
Definition np_full (d0 d1 d2 : nat) (v : spec_float) : planes :=
  replicate d0 (replicate d1 (replicate d2 v)).

(** [gym.spaces.Box(low=lo, high=hi, shape=(d0, d1, d2), dtype=np.float32)]
    with scalar bounds. *)
Definition full (lo hi : spec_float) (d0 d1 d2 : nat) : t :=
  mk (np_full d0 d1 d2 lo) (np_full d0 d1 d2 hi).

(** [a.shape] of a three-dimensional array. *)
Definition array_shape {A} (a : list (list (list A))) : list nat :=
  [length a; length (hd [] a); length (hd [] (hd [] a))].

(** [space.shape] *)
Definition shape (b : t) : list nat := array_shape (low b).
End Box.

Module ImageToPyTorch.

(** [__init__(env)], given [self.observation_space.shape] of the wrapped
    environment: the new space
    [Box(low=0.0, high=1.0, shape=(old_shape[-1], old_shape[0], old_shape[1]))]. *)
Definition init (old_shape : list nat) : result Box.t :=
  match last old_shape, old_shape !! 0%nat, old_shape !! 1%nat with
  | Some d_last, Some d0, Some d1 => Ok (Box.full Float32.zero (Float32.of_Z 1) d_last d0 d1)
  | _, _, _ => Raise IndexError
  end.

(** [np.moveaxis(a, 2, 0)] of a three-dimensional array: the item at
    [[i, j, c]] goes to [[c, i, j]]. *)
Definition moveaxis_2_0 {A} (a : list (list (list A))) : list (list (list A)) :=
  map (fun c => map (fun row => row ≫= (fun px => take 1 (drop c px))) a)
      (seq 0 (length (hd [] (hd [] a)))).

(** [observation(observation)] *)
Definition observation (observation : list (list (list Z))) : list (list (list Z)) :=
  moveaxis_2_0 observation.

End ImageToPyTorch.

(** [a.transpose(1, 2, 0)] of a three-dimensional array, as the notebook
    applies it to a stacked observation before [plt.imshow]: the item at
    [[c, i, j]] goes to [[i, j, c]]. *)
Definition transpose_1_2_0 {A} (a : list (list (list A))) : list (list (list A)) :=
  map (fun i =>
         map (fun j => a ≫= (fun p => take 1 (drop i p) ≫= (fun row => take 1 (drop j row))))
             (seq 0 (length (hd [] (hd [] a)))))
      (seq 0 (length (hd [] a))).

(** ** [make_env] *)

(** The environment [make_env] builds, innermost wrapper first:
    [MaxAndSkipEnv], [FireResetEnv], [ProcessFrame84], [ImageToPyTorch],
    [BufferWrapper(env, 4)] and [ScaledFloatFrame]. The three observation
    wrappers between [FireResetEnv] and the caller are
    [gym.ObservationWrapper]s: their [reset] and [step] pass the wrapped
    environment's observation through [observation]. *)
Module MakeEnv.
Section Env.
Context `{RawEnv} `{ImageLib}.

(** The state of the wrappers that have one, and the space the outermost
    wrapper shows ([ScaledFloatFrame] declares none and shows
    [BufferWrapper]'s). *)
Record t : Type := mk {
  env : MaxAndSkipEnv.t;
  frames : BufferWrapper.t;
  observation_space : Box.t
}.

(** The observation space [ProcessFrame84.__init__] declares has the shape
    [(84, 84, 1)]. *)
Definition ProcessFrame84_shape : list nat := [84; 84; 1]%nat.

(** [make_env(env_name)], given the simulator [gym.make] returns and its
    action meanings. *)
Definition make_env (action_meanings : list string) (e : env_state) : result t :=
  let env := MaxAndSkipEnv.init e 4 in
  env ← FireResetEnv.init action_meanings env;
  old_space ← ImageToPyTorch.init ProcessFrame84_shape;
  Ok (mk env
         (BufferWrapper.init (Box.low old_space) 4)
         (Box.mk (BufferWrapper.repeat_axis0 4 (Box.low old_space))
                 (BufferWrapper.repeat_axis0 4 (Box.high old_space)))).

(** [reset] and [step] of [FireResetEnv(MaxAndSkipEnv(env))]. *)
Definition fire_reset (env : MaxAndSkipEnv.t) : result (MaxAndSkipEnv.t * ndarray) :=
  FireResetEnv.reset (fun env => Ok (MaxAndSkipEnv.reset env)) MaxAndSkipEnv.step env.

Definition fire_step (env : MaxAndSkipEnv.t) (action : Z)
    : result (MaxAndSkipEnv.t * (ndarray * spec_float * bool * env_info)) :=
  FireResetEnv.step MaxAndSkipEnv.step env action.

(** [observation] of [ImageToPyTorch(ProcessFrame84(...))]. *)
Definition image (obs : ndarray) : result (list (list (list Z))) :=
  x_t ← ProcessFrame84.process obs;
  Ok (ImageToPyTorch.observation x_t).

(** [env.reset()] *)
Definition reset (h : heap) (self : t) : result (heap * t * loc) :=
  '(env, obs) ← fire_reset (env self);
  obs ← image obs;
  '(h, frames, obs) ← Pipeline.reset h (frames self) obs;
  Ok (h, mk env frames (observation_space self), obs).

(** [env.step(action)] *)
Definition step (h : heap) (self : t) (action : Z)
    : result (heap * t * (loc * spec_float * bool * env_info)) :=
  '(env, (obs, reward, done, info)) ← fire_step (env self) action;
  obs ← image obs;
  '(h, obs) ← Pipeline.observation h (frames self) obs;
  Ok (h, mk env (frames self) (observation_space self), (obs, reward, done, info)).

End Env.
End MakeEnv.

(** ** The shapes inside [DQN] *)

(** What [DQN.forward] does to the shape of its input, by PyTorch's rules
    for the layers it chains: the values are the backend's (class
    [Backend]), the shapes are fixed by the constructor's arguments. A
    layer that does not fit its input raises [RuntimeError]. *)
Module DQN.

Record t : Type := mk {
  in_channels : Z;
  n_actions : Z
}.

(** [nn.Conv2d(c_in, c_out, kernel_size=k, stride=s)] on an input of shape
    [(n, c, h, w)]: no padding, no dilation. *)
Definition conv2d (c_in c_out k s : Z) (x : list Z) : result (list Z) :=
  match x with
  | [n; c; h; w] =>
      if negb (c =? c_in) then Raise RuntimeError
      else if (h <? k) || (w <? k) then Raise RuntimeError
      else Ok [n; c_out; (h - k) / s + 1; (w - k) / s + 1]
  | _ => Raise RuntimeError
  end.

(** [x.view(x.size(0), -1)]: the second size cannot be inferred when the
    first is 0. *)
Definition view_rows (x : list Z) : result (list Z) :=
  match x with
  | [] => Raise IndexError
  | n :: rest =>
      if n =? 0 then Raise RuntimeError
      else Ok [n; foldr Z.mul 1 rest]
  end.

(** [nn.Linear(d_in, d_out)] on an input of shape [(n, d)]. *)
Definition linear (d_in d_out : Z) (x : list Z) : result (list Z) :=
  match x with
  | [n; d] => if d =? d_in then Ok [n; d_out] else Raise RuntimeError
  | _ => Raise RuntimeError
  end.

(** The shape of [forward(x)]; [F.relu] keeps shapes. *)
Definition forward (self : t) (x : list Z) : result (list Z) :=
  x ← conv2d (in_channels self) 32 8 4 x;
  x ← conv2d 32 64 4 2 x;
  x ← conv2d 64 64 3 1 x;
  x ← view_rows x;
  x ← linear (7 * 7 * 64) 512 x;
  linear 512 (n_actions self) x.

End DQN.

(** ** The environment under the training loop *)

(** The environment of [make_env] as the loop of cell 23 uses it. The loop
    reads an observation when it receives it ([torch.tensor] copies), and
    the arrays it keeps in [Experience]s are the new arrays of
    [ScaledFloatFrame], which nothing writes again: an observation is the
    value of the array returned. *)
Section Gym.
Context `{RawEnv} `{ImageLib}.

Definition make_env_reset (e : heap * MakeEnv.t) : result (heap * MakeEnv.t * planes) :=
  '(h', self', l) ← MakeEnv.reset e.1 e.2;
  match h' !! l with
  | Some obs => Ok ((h', self'), obs)
  | None => Raise AttributeError
  end.

Definition make_env_step (e : heap * MakeEnv.t) (action : Z)
    : result (heap * MakeEnv.t * (planes * spec_float * bool)) :=
  '(h', self', (l, reward, done, _)) ← MakeEnv.step e.1 e.2 action;
  match h' !! l with
  | Some obs => Ok ((h', self'), (obs, reward, done))
  | None => Raise AttributeError
  end.

Definition make_env_gym : GymEnv planes := {|
  gym_state := heap * MakeEnv.t;
  gym_reset := make_env_reset;
  gym_step := make_env_step
|}.

End Gym.

(* ===================================================================== *)
(** * Part II: the vocabulary of the statements                           *)
(* ===================================================================== *)

(** Predicates, the specification's own functions and small concrete
    instances used in the statements and examples of Part III. *)

(** ** Replay buffer *)

Section SampleSpec.
Context {Obs : Type}.

(** The batch [sample] builds from the rows it picked. *)
Definition batch_of (es : list (Experience.t Obs)) : ReplayBuffer.Batch Obs :=
  ReplayBuffer.mk_batch
    (map Experience.state es)
    (map Experience.action es)
    (map (fun e => Float32.of_float64 (Experience.reward e)) es)
    (map (fun e => ReplayBuffer.uint8_of_bool (Experience.done e)) es)
    (map Experience.new_state es).

End SampleSpec.

(** A transition over observations without content, told apart by its
    action. *)
Definition unit_experience (a : Z) : Experience.t unit :=
  Experience.mk tt a Float64.zero false tt.

(** A store of capacity 10000 that holds one transition. *)
Definition one_experience_buffer : ReplayBuffer.t unit :=
  ReplayBuffer.mk (Deque.mk [unit_experience 7] 10000).

(** ** Action repeat *)

Section MaxAndSkipSpec.
Context `{RawEnv}.

(** What one raw step returns, and its four components. *)
Definition raw_result : Type := (ndarray * spec_float * bool * env_info)%type.
Definition step_obs (r : raw_result) : ndarray := r.1.1.1.
Definition step_reward (r : raw_result) : spec_float := r.1.1.2.
Definition step_done (r : raw_result) : bool := r.1.2.
Definition step_info (r : raw_result) : env_info := r.2.

(** The specification's action repeat: the results of up to [k] consecutive
    raw steps with the same action, none after the first that reports
    termination, and the simulator's state after them. *)
Fixpoint raw_steps (k : nat) (e : env_state) (action : Z) : list raw_result * env_state :=
  match k with
  | O => ([], e)
  | S k' =>
      let '(e', r) := raw_step e action in
      if step_done r then ([r], e')
      else let '(rs, e'') := raw_steps k' e' action in (r :: rs, e'')
  end.

(** The wrapper has been reset: [skip] is 4 and the two-slot frame buffer
    holds one or two frames. *)
Definition ready (self : MaxAndSkipEnv.t) : Prop :=
  MaxAndSkipEnv._skip self = 4%nat /\
  Deque.maxlen (MaxAndSkipEnv._obs_buffer self) = 2 /\
  1 <= Deque.len (MaxAndSkipEnv._obs_buffer self) <= 2.

End MaxAndSkipSpec.

(** A simulator for examples: its state counts the steps of the episode,
    every reward is 1.0, the third step ends the episode, and the frame
    after [n] steps holds the two pixels [n] and [10 - n]. *)
Definition counter_frame (n : nat) : ndarray :=
  mk_ndarray [2%nat] [Z.of_nat n; 10 - Z.of_nat n].

(** The simulator itself. *)
Definition counter_env : RawEnv := {|
  env_state := nat;
  env_info := unit;
  raw_reset := fun _ => (0%nat, counter_frame 0);
  raw_step := fun n _ => (S n, (counter_frame (S n), Float64.of_Z 1, Nat.eqb (S n) 3, tt))
|}.

(** [MaxAndSkipEnv(env)] over it, after [reset()]. *)
Definition counter_self : @MaxAndSkipEnv.t counter_env :=
  (@MaxAndSkipEnv.reset counter_env (@MaxAndSkipEnv.init counter_env 0%nat 4)).1.

(** ** Frames, planes and stacks *)

(** A plane of [rows] rows and [cols] columns. *)
Definition rect (rows cols : nat) (p : plane) : Prop :=
  length p = rows /\ Forall (fun row => length row = cols) p.

(** An observation as [ImageToPyTorch] hands it on: one channel of 84 by 84
    bytes, channel first. *)
Definition is_frame (obs : list (list (list Z))) : Prop :=
  exists p, obs = [p] /\ length p = 84%nat /\
            Forall (fun row => length row = 84%nat /\ Forall (fun z => 0 <= z < 256) row) p.

(** The float32 plane a frame becomes in the buffer. *)
Definition plane_of (obs : list (list (list Z))) : plane :=
  map2d Float32.of_Z (hd [] obs).

(** The plane of zeros [reset] fills the buffer with. *)
Definition zero_plane : plane := replicate 84 (replicate 84 Float32.zero).

(** A buffer of four 84 by 84 planes. *)
Definition stack_ok (buf : planes) : Prop :=
  length buf = 4%nat /\ Forall (rect 84 84) buf.

(** A run of [observation] calls on the same wrapper. *)
Fixpoint push_all (h : heap) (bw : BufferWrapper.t) (fs : list (list (list (list Z))))
    : result heap :=
  match fs with
  | [] => Ok h
  | f :: fs' => '(h', _) ← BufferWrapper.observation h bw f; push_all h' bw fs'
  end.

(** The integer part of a float. *)
Definition float_trunc (x : spec_float) : Z :=
  match x with
  | S754_finite s m e =>
      let v := if 0 <=? e then Z.shiftl (Zpos m) e else Z.shiftr (Zpos m) (- e) in
      if s then - v else v
  | _ => 0
  end.

(** The frame whose 84 by 84 pixels all have the value [z]. *)
Definition constant_frame (z : Z) : list (list (list Z)) := [replicate 84 (replicate 84 z)].

(** A call of the environment, seen at its two outermost wrappers: [reset()]
    or [step(action)], with the observation the inner wrappers produce. *)
Inductive call : Type :=
  | CallReset (first_obs : list (list (list Z)))
  | CallStep (obs : list (list (list Z))).

(** One call, and a sequence of calls, on the store and the wrapper. *)
Definition do_call (h : heap) (bw : BufferWrapper.t) (c : call)
    : result (heap * BufferWrapper.t * loc) :=
  match c with
  | CallReset f => Pipeline.reset h bw f
  | CallStep f => '(h', l) ← Pipeline.observation h bw f; Ok (h', bw, l)
  end.

Fixpoint do_calls (h : heap) (bw : BufferWrapper.t) (cs : list call)
    : result (heap * BufferWrapper.t) :=
  match cs with
  | [] => Ok (h, bw)
  | c :: cs' => '(h', bw', _) ← do_call h bw c; do_calls h' bw' cs'
  end.

(** The first pixel of slot [i] of a stack. *)
Definition first_pixel (i : nat) (o : option planes) : option spec_float :=
  match o with
  | Some buf =>
      match buf !! i with
      | Some p => match p with (x :: _) :: _ => Some x | _ => None end
      | None => None
      end
  | None => None
  end.

(** ** Frame preprocessing *)

(** What [process] relies on from the two library calls: the resized image
    has the requested height and width, and a [uint8] holds a byte. *)
Class ImageLibSpec `{ImageLib} : Prop := {
  cv2_resize_shape : forall img width height,
    rect height width (cv2_resize_area img width height);
  astype_uint8_range : forall x, 0 <= astype_uint8 x < 256
}.

(** The specification's crop: the central [keep] rows of the screen. *)
Definition central_crop (keep : nat) (screen : plane) : plane :=
  take keep (drop ((length screen - keep) / 2) screen).

(** Library calls for examples: a resize that returns a black image of the
    requested size, and the cast that keeps the low byte of the integer
    part. *)
Definition flat_lib : ImageLib := {|
  cv2_resize_area := fun _ width height => replicate height (replicate width Float32.zero);
  astype_uint8 := fun x => float_trunc x mod 256
|}.

(** A resize for examples that returns, whatever the image, the screen
    whose row [i] is filled with the value [i]. *)
Definition ramp_lib : ImageLib := {|
  cv2_resize_area := fun _ width height =>
    map (fun i => replicate width (Float32.of_Z (Z.of_nat i))) (seq 0 height);
  astype_uint8 := fun x => float_trunc x mod 256
|}.

(** A raw frame of 210 by 160 black pixels. *)
Definition black_frame : ndarray :=
  mk_ndarray [210%nat; 160%nat; 3%nat] (replicate (210 * 160 * 3) 0).

(** The resized screen of [ramp_lib]: 110 rows of 84 columns. *)
Definition ramp_screen : plane :=
  map (fun i => replicate 84 (Float32.of_Z (Z.of_nat i))) (seq 0 110).

(** The first pixel of the first row of a plane. *)
Definition top_left (p : plane) : option spec_float :=
  match p with
  | (x :: _) :: _ => Some x
  | _ => None
  end.

(** ** Temporal-difference target *)

(** A float with the sign of a zero cleared: every float but [-0.0] is
    itself, and [-0.0] becomes [0.0], which IEEE equality does not tell
    from it. *)
Definition unsigned_zero (r : spec_float) : spec_float :=
  match r with
  | S754_zero _ => S754_zero false
  | _ => r
  end.

(** The largest action value of a row, as [.max(1)[0]] computes it. *)
Definition q_max (row : list spec_float) : spec_float :=
  match row with
  | [] => S754_nan
  | x :: xs => foldl Float32.max x xs
  end.

(** ** Parameters and the training loop *)

Section StoreSpec.
Context {T : Type}.
Implicit Types (st : gmap loc T).

(** The copy loop of [load_state_dict] and the write loop of
    [optimizer.step()]. *)
Definition copy_all st (pairs : list (loc * loc)) : gmap loc T :=
  foldl (fun s '(t, q) => match s !! q with
                          | Some v => <[t := v]> s
                          | None => s
                          end) st pairs.

Definition write_all st (pairs : list (loc * T)) : gmap loc T :=
  foldl (fun s '(l, v) => <[l := v]> s) st pairs.

End StoreSpec.

(** What the loop relies on from the network: it has at least one action. *)
Class BackendSpec {T Obs : Type} `{Backend T Obs} : Prop := {
  forward_nonempty : forall (ps : list T) (s : Obs), forward ps s <> []
}.

Section LoopSpec.
Context {T Obs : Type} `{Backend T Obs} `{GymEnv Obs}.
Implicit Types (g : TrainingLoop.globals).

(** The two networks are distinct objects of one architecture, their
    tensors exist, and the optimizer holds the online network's tensors. *)
Definition wf g : Prop :=
  NoDup (TrainingLoop.target_network g) /\
  (forall l, l ∈ TrainingLoop.target_network g -> l ∉ TrainingLoop.q_network g) /\
  length (TrainingLoop.target_network g) = length (TrainingLoop.q_network g) /\
  Forall (fun q => is_Some (TrainingLoop.params g !! q)) (TrainingLoop.q_network g) /\
  Net.opt_params (TrainingLoop.optimizer g) = TrainingLoop.q_network g.

(** QFunctionParameters, TargetParameters and the size of the store, read
    off the globals. *)
Definition q_values g : list T := Net.values (TrainingLoop.params g) (TrainingLoop.q_network g).
Definition target_values g : list T :=
  Net.values (TrainingLoop.params g) (TrainingLoop.target_network g).
Definition buffer_len g : Z := ReplayBuffer.len (TrainingLoop.replay_buffer g).

End LoopSpec.

(** A backend for examples: a tensor is one integer, the network has one
    action, every gradient is 1, the update subtracts the gradient, and the
    mean adds from the left and divides. *)
Definition toy_backend : Backend Z unit := {|
  forward := fun _ _ => [Float32.zero];
  torch_argmax := fun _ => 0;
  backward := fun ps _ _ _ => map (fun _ => 1) ps;
  adam_state := unit;
  adam := fun s ps gs => (s, zip_with Z.sub ps gs);
  np_mean := fun l =>
    SFdiv Float64.prec Float64.emax (foldl Float64.add Float64.zero l)
          (Float64.of_Z (Z.of_nat (length l)))
|}.

(** An environment for examples: its state says whether steps end the
    episode; every step pays 21. *)
Definition toy_env : GymEnv unit := {|
  gym_state := bool;
  gym_reset := fun e => Ok (e, tt);
  gym_step := fun e _ => Ok (e, (tt, Float64.of_Z 21, e))
|}.

(** Four tensors: 10 and 11 for the online network, 20 and 21 for the
    target. *)
Definition toy_params : gmap loc Z := <[0%nat := 10]> (<[1%nat := 11]> (<[2%nat := 20]> (<[3%nat := 21]> ∅))).

(** Globals with the online network at references 0 and 1 and the target
    network at 2 and 3. *)
Definition toy_globals (ending : bool) (rb : ReplayBuffer.t unit) (frame_idx : Z)
    : @TrainingLoop.globals Z unit toy_backend toy_env :=
  @TrainingLoop.mk Z unit toy_backend toy_env
    ending toy_params [0%nat; 1%nat] [2%nat; 3%nat]
    (Net.mk_optimizer [0%nat; 1%nat] tt) rb [] Float64.zero frame_idx tt [].

(** Draws: [random()] gives 0.0, the sampled action is 0, and [perm] is the
    permutation. *)
Definition toy_oracle (perm : list nat) : Oracle := mk_oracle Float64.zero 0 perm.

(** The store as cell 21 creates it, and a store filled to its capacity. *)
Definition empty_buffer : ReplayBuffer.t unit := ReplayBuffer.mk (Deque.mk [] REPLAY_MEMORY).

Definition full_buffer : ReplayBuffer.t unit :=
  ReplayBuffer.mk (Deque.mk (replicate (Z.to_nat INITIAL_MEMORY) (unit_experience 0)) REPLAY_MEMORY).

(** The transition a step of [toy_env] yields. *)
Definition toy_exp (ending : bool) : Experience.t unit :=
  Experience.mk tt 0 (Float64.of_Z 21) ending tt.

(** The globals after the collection phase of pass 1000 in an episode that
    goes on. *)
Definition toy_collected (rb : ReplayBuffer.t unit)
    : @TrainingLoop.globals Z unit toy_backend toy_env :=
  @TrainingLoop.mk Z unit toy_backend toy_env
    false toy_params [0%nat; 1%nat] [2%nat; 3%nat]
    (Net.mk_optimizer [0%nat; 1%nat] tt) (ReplayBuffer.append rb (toy_exp false))
    [] (Float64.of_Z 21) 1000 tt [].

(** The globals after pass 1000 when its step ends an episode of return 21. *)
Definition toy_solved (rb : ReplayBuffer.t unit)
    : @TrainingLoop.globals Z unit toy_backend toy_env :=
  @TrainingLoop.mk Z unit toy_backend toy_env
    true toy_params [0%nat; 1%nat] [2%nat; 3%nat]
    (Net.mk_optimizer [0%nat; 1%nat] tt) (ReplayBuffer.append rb (toy_exp true))
    [Float64.of_Z 21] Float64.zero 1000 tt [].

(** ** Examples for the learning step *)

(** A backend that shows what the learning code hands over: a tensor is one
    float32, the action values of any observation are [0.0] and the
    parameters, the gradient is the list of targets, and the update writes
    the gradients into the parameters. *)
Definition readout_backend : Backend spec_float unit := {|
  forward := fun ps _ => Float32.zero :: ps;
  torch_argmax := fun _ => 0;
  backward := fun _ _ _ expected => expected;
  adam_state := unit;
  adam := fun s _ gs => (s, gs);
  np_mean := fun _ => Float64.zero
|}.

(** A store holding one batch: a transition of reward 1 that goes on, one
    of reward -1 that ends the episode, and thirty more. *)
Definition batch_buffer : ReplayBuffer.t unit :=
  ReplayBuffer.mk
    (Deque.mk (Experience.mk tt 0 (Float64.of_Z 1) false tt ::
               Experience.mk tt 0 (Float64.of_Z (-1)) true tt ::
               replicate 30 (toy_exp false)) REPLAY_MEMORY).

(** Globals over [readout_backend]: the online network at references 0 and
    1 (values 10 and 11), the target network at 2 and 3 (values 3 and 5). *)
Definition readout_globals
    : @TrainingLoop.globals spec_float unit readout_backend toy_env :=
  @TrainingLoop.mk spec_float unit readout_backend toy_env
    false
    (<[0%nat := Float32.of_Z 10]> (<[1%nat := Float32.of_Z 11]>
       (<[2%nat := Float32.of_Z 3]> (<[3%nat := Float32.of_Z 5]> ∅))))
    [0%nat; 1%nat] [2%nat; 3%nat]
    (Net.mk_optimizer [0%nat; 1%nat] tt) batch_buffer [] Float64.zero 10000 tt [].

(** ** Scaled observations *)

(** What [ScaledFloatFrame] does to one item. *)
Definition scale_pixel (x : spec_float) : spec_float :=
  Float32.div x (Float32.of_float64 (Float64.of_Z 255)).

(** The 256 byte values, and the scaled value of each. *)
Definition bytes : list Z := map Z.of_nat (seq 0 256).
Definition scaled_bytes : list spec_float := map (fun z => scale_pixel (Float32.of_Z z)) bytes.

(** [R] holds from every item of a list to every later one. *)
Fixpoint all_pairs {A} (R : A -> A -> bool) (l : list A) : bool :=
  match l with
  | [] => true
  | x :: l' => forallb (R x) l' && all_pairs R l'
  end.

(** An array of bytes, of any shape. *)
Definition byte_array (a : list (list (list Z))) : Prop :=
  Forall (Forall (Forall (fun z => 0 <= z < 256))) a.

(** An array between [0.0] and [1.0], bounds included. *)
Definition unit_array (a : planes) : Prop :=
  Forall (Forall (Forall (fun x => SFleb Float32.zero x = true /\
                                   SFleb x (Float32.of_Z 1) = true))) a.

(** ** Array shapes *)

(** A three-dimensional array of shape [(d0, d1, d2)]. *)
Definition rect3 {A} (d0 d1 d2 : nat) (a : list (list (list A))) : Prop :=
  length a = d0 /\
  Forall (fun p => length p = d1 /\ Forall (fun row => length row = d2) p) a.

(** The item at [[i, j, k]], if there is one. *)
Definition item3 {A} (a : list (list (list A))) (i j k : nat) : option A :=
  match a !! i with
  | Some p => match p !! j with Some row => row !! k | None => None end
  | None => None
  end.

(** ** The composed environment *)

Section MakeEnvSpec.
Context `{RawEnv} `{ImageLib}.

(** Every frame of the simulator has the shape [s]. *)
Definition frames_of_shape (s : list nat) : Prop :=
  (forall e, shape (raw_reset e).2 = s) /\
  (forall e a, shape (step_obs (raw_step e a).2) = s).

(** A shape with as many items as one of the two resolutions
    [ProcessFrame84] knows. *)
Definition known_resolution (s : list nat) : Prop :=
  Z.of_nat (foldr Nat.mul 1%nat s) = 210 * 160 * 3 \/
  Z.of_nat (foldr Nat.mul 1%nat s) = 250 * 160 * 3.

(** [MaxAndSkipEnv(env)] as [make_env] builds it, at any time: [skip] is 4
    and the frame buffer, bounded by 2, holds frames of the shape [s]. *)
Definition made (s : list nat) (self : MaxAndSkipEnv.t) : Prop :=
  MaxAndSkipEnv._skip self = 4%nat /\
  Deque.maxlen (MaxAndSkipEnv._obs_buffer self) = 2 /\
  Deque.len (MaxAndSkipEnv._obs_buffer self) <= 2 /\
  Forall (fun f => shape f = s) (Deque.items (MaxAndSkipEnv._obs_buffer self)).

(** A float32 plane of 84 by 84 byte values, and a stack of four. *)
Definition byte_plane (p : plane) : Prop :=
  rect 84 84 p /\
  Forall (Forall (fun x => exists z, 0 <= z < 256 /\ x = Float32.of_Z z)) p.

Definition byte_stack (buf : planes) : Prop :=
  length buf = 4%nat /\ Forall byte_plane buf.

(** [Box(0.0, 1.0, (4, 84, 84), float32)] *)
Definition unit_box : Box.t := Box.full Float32.zero (Float32.of_Z 1) 4 84 84.

(** [space.contains(x)]: the shape of the bounds, and every item between
    them. *)
Definition in_box (b : Box.t) (x : planes) : Prop :=
  Forall2 (Forall2 (Forall2 (fun lo v => SFleb lo v = true))) (Box.low b) x /\
  Forall2 (Forall2 (Forall2 (fun v hi => SFleb v hi = true))) x (Box.high b).

(** The environment between calls: as [make_env] built it ([built]), and
    once [reset] has been called ([live]), when the stack exists in the
    store. *)
Definition built (s : list nat) (self : MakeEnv.t) : Prop :=
  made s (MakeEnv.env self) /\
  BufferWrapper.observation_space_low (MakeEnv.frames self) =
    BufferWrapper.observation_space_low Pipeline.init /\
  MakeEnv.observation_space self = unit_box.

Definition live (s : list nat) (h : heap) (self : MakeEnv.t) : Prop :=
  built s self /\
  exists (l : loc) (buf : planes),
    BufferWrapper.buffer (MakeEnv.frames self) = Some l /\ h !! l = Some buf /\ byte_stack buf.

End MakeEnvSpec.

(** A simulator for examples whose frames are all black, of 210 by 160
    pixels; its state tells whether steps end the episode. *)
Definition black_env : RawEnv := {|
  env_state := bool;
  env_info := unit;
  raw_reset := fun e => (e, black_frame);
  raw_step := fun e _ => (e, (black_frame, Float64.zero, e, tt))
|}.

(** The action meanings of Pong. *)
Definition pong_meanings : list string :=
  ["NOOP"; "FIRE"; "RIGHT"; "LEFT"; "RIGHTFIRE"; "LEFTFIRE"].

(** For examples: the environment [make_env] builds over [black_env], and
    a store in which its stack of frames exists and is all zeros. *)
Definition black_made : @MakeEnv.t black_env :=
  @MakeEnv.mk black_env (@MaxAndSkipEnv.init black_env false 4) Pipeline.init unit_box.

Definition black_live : @MakeEnv.t black_env :=
  @MakeEnv.mk black_env (@MaxAndSkipEnv.init black_env false 4)
    (BufferWrapper.mk (BufferWrapper.observation_space_low Pipeline.init) (Some 0%nat))
    unit_box.

Definition black_heap : heap := <[0%nat := replicate 4 zero_plane]> ∅.

(** ** Stored transitions *)

Section ChainSpec.
Context {Obs : Type}.

(** Each transition that does not end an episode is followed, in the
    store, by the transition that starts where it arrived. *)
Definition chained (es : list (Experience.t Obs)) : Prop :=
  forall (i : nat) (e e' : Experience.t Obs),
    es !! i = Some e -> es !! S i = Some e' ->
    Experience.done e = false -> Experience.state e' = Experience.new_state e.

(** The observation [s] is where the newest stored transition arrived,
    unless that transition ended an episode. *)
Definition follows (es : list (Experience.t Obs)) (s : Obs) : Prop :=
  match last es with
  | Some e => Experience.done e = false -> s = Experience.new_state e
  | None => True
  end.

End ChainSpec.

(** ** The schedule of the loop *)

(** What the loop's conditions allow: a learning step only at a frame
    count of at least [INITIAL_MEMORY], a synchronization only at such a
    count that is a multiple of [TARGET_UPDATE]. *)
Definition event_ok (ev : event) : Prop :=
  match ev with
  | LearnStep f => INITIAL_MEMORY <= f
  | TargetSync f => INITIAL_MEMORY <= f /\ f mod TARGET_UPDATE = 0
  end.

(** The toy instances at the start of the loop. *)
Definition toy_start : @TrainingLoop.globals Z unit toy_backend toy_env :=
  toy_globals false empty_buffer 0.

(** The draws for the passes that follow frame count [f]: each pass's
    permutation rearranges the positions of the store as it will be when
    that pass samples, one transition per frame up to the capacity. *)
Fixpoint draws_ok (f : Z) (os : list Oracle) : Prop :=
  match os with
  | [] => True
  | o :: os' =>
      rnd_permutation o ≡ₚ seq 0 (Z.to_nat (Z.min (f + 1) REPLAY_MEMORY)) /\
      draws_ok (f + 1) os'
  end.

(** The toy backend over stacked observations, and globals at the start of
    the loop over the environment [make_env] builds on [black_env]. *)
Definition toy_backend_planes : Backend Z planes := {|
  forward := fun _ _ => [Float32.zero];
  torch_argmax := fun _ => 0;
  backward := fun ps _ _ _ => map (fun _ => 1) ps;
  adam_state := unit;
  adam := fun s ps gs => (s, zip_with Z.sub ps gs);
  np_mean := fun l =>
    SFdiv Float64.prec Float64.emax (foldl Float64.add Float64.zero l)
          (Float64.of_Z (Z.of_nat (length l)))
|}.

Definition black_start
    : @TrainingLoop.globals Z planes toy_backend_planes (@make_env_gym black_env flat_lib) :=
  @TrainingLoop.mk Z planes toy_backend_planes (@make_env_gym black_env flat_lib)
    (black_heap, black_live) toy_params [0%nat; 1%nat] [2%nat; 3%nat]
    (Net.mk_optimizer [0%nat; 1%nat] tt)
    (ReplayBuffer.mk (Deque.mk [] REPLAY_MEMORY)) [] Float64.zero 0
    (replicate 4 zero_plane) [].

(** ** The exploration rate *)

(** The frame count from which the exploration rate stays at [EPS_END]. *)
Definition EPS_FLOOR_FRAME : Z := 98001.

(** [EPS_START - frame_idx / EPS_DECAY] on the machine's binary64 numbers,
    whose operations Rocq specifies by the operations of [SpecFloat]. *)
Definition decayed (frame_idx : Z) : PrimFloat.float :=
  PrimFloat.sub (PrimFloat.of_uint63 (Uint63.of_Z 1))
    (PrimFloat.div (PrimFloat.of_uint63 (Uint63.of_Z frame_idx))
                   (PrimFloat.of_uint63 (Uint63.of_Z EPS_DECAY))).

(** [EPS_END] on the machine's numbers. *)
Definition eps_end : PrimFloat.float :=
  PrimFloat.div (PrimFloat.of_uint63 (Uint63.of_Z 2)) (PrimFloat.of_uint63 (Uint63.of_Z 100)).

(** What is checked at every frame count: the decayed rate is below
    [EPS_START], it does not grow at the next frame, and it is above
    [EPS_END] exactly before [EPS_FLOOR_FRAME]. *)
Definition decay_step_ok (frame_idx : Z) : bool :=
  let x := decayed frame_idx in
  let x' := decayed (frame_idx + 1) in
  PrimFloat.ltb x (PrimFloat.of_uint63 (Uint63.of_Z 1)) &&
  PrimFloat.leb x' x &&
  (if frame_idx <? EPS_FLOOR_FRAME then PrimFloat.ltb eps_end x
   else negb (PrimFloat.ltb eps_end x) && negb (PrimFloat.ltb eps_end x')).

(** [p] holds at [lo], [lo + 1], ..., [lo + k - 1]. *)
Fixpoint all_from (k : nat) (p : Z -> bool) (lo : Z) : bool :=
  match k with
  | O => true
  | S k' => if p lo then all_from k' p (lo + 1) else false
  end.

(* ===================================================================== *)
(** * Part III: properties                                                *)
(* ===================================================================== *)

(** ** The [result] monad *)

Lemma bind_Ok {A B} (f : A -> result B) (m : result A) (b : B) :
  m ≫= f = Ok b -> exists a, m = Ok a /\ f a = Ok b.
Proof. destruct m as [a|e]; simpl; [eauto | discriminate]. Qed.

Lemma bind_Ok_l {A B} (f : A -> result B) (a : A) : Ok a ≫= f = f a.
Proof. reflexivity. Qed.

Ltac inv_bind H :=
  let a := fresh "a" in
  let E := fresh "E" in
  apply bind_Ok in H; destruct H as (a & E & H).

(** ** [Deque] *)

Section DequeFacts.
Context {A : Type}.
Implicit Types (d : Deque.deque A) (x : A) (xs : list A).

Lemma Deque_append_maxlen d x : Deque.maxlen (Deque.append d x) = Deque.maxlen d.
Proof. reflexivity. Qed.

Lemma Deque_appends_maxlen d xs : Deque.maxlen (foldl Deque.append d xs) = Deque.maxlen d.
Proof. revert d; induction xs as [|x xs IH]; intros d; simpl; [done | by rewrite IH]. Qed.

(** An append never shortens the deque. *)
Lemma Deque_append_len_ge d x : Deque.len d <= Deque.len (Deque.append d x).
Proof.
  unfold Deque.len, Deque.append; simpl.
  destruct (Z.ltb_spec (Deque.maxlen d) (Z.of_nat (length (Deque.items d ++ [x])))).
  - rewrite length_drop, length_app; simpl; lia.
  - rewrite length_app; simpl; lia.
Qed.

(** A deque within its bound stays within it. *)
Lemma Deque_append_len_le d x :
  Deque.len d <= Deque.maxlen d -> Deque.len (Deque.append d x) <= Deque.maxlen d.
Proof.
  unfold Deque.len, Deque.append; simpl; intros Hle.
  destruct (Z.ltb_spec (Deque.maxlen d) (Z.of_nat (length (Deque.items d ++ [x])))).
  - rewrite length_drop, length_app; simpl; lia.
  - lia.
Qed.

(** A full deque stays full. *)
Lemma Deque_append_len_full d x :
  Deque.len d = Deque.maxlen d -> Deque.len (Deque.append d x) = Deque.maxlen d.
Proof.
  unfold Deque.len, Deque.append; simpl; intros Hle.
  destruct (Z.ltb_spec (Deque.maxlen d) (Z.of_nat (length (Deque.items d ++ [x])))) as [_|Hge].
  - rewrite length_drop, length_app; simpl; lia.
  - rewrite length_app in Hge; simpl in Hge; lia.
Qed.

(** One append keeps the newest [maxlen] of the items. *)
Lemma Deque_append_items d x :
  Deque.len d <= Deque.maxlen d ->
  Deque.items (Deque.append d x) =
    drop (length (Deque.items d ++ [x]) - Z.to_nat (Deque.maxlen d)) (Deque.items d ++ [x]).
Proof.
  unfold Deque.len, Deque.append; simpl; intros Hle.
  destruct (Z.ltb_spec (Deque.maxlen d) (Z.of_nat (length (Deque.items d ++ [x])))) as [Hlt|Hge];
    rewrite length_app in *; simpl in *.
  - replace (length (Deque.items d) + 1 - Z.to_nat (Deque.maxlen d))%nat with 1%nat by lia.
    reflexivity.
  - replace (length (Deque.items d) + 1 - Z.to_nat (Deque.maxlen d))%nat with 0%nat by lia.
    reflexivity.
Qed.

(** Any run of appends keeps the newest [maxlen] of everything seen: the
    left end is evicted first, in insertion order. *)
Lemma Deque_appends_items d xs :
  Deque.len d <= Deque.maxlen d ->
  Deque.items (foldl Deque.append d xs) =
    drop (length (Deque.items d ++ xs) - Z.to_nat (Deque.maxlen d)) (Deque.items d ++ xs).
Proof.
  revert d; induction xs as [|x xs IH]; intros d Hle.
  - simpl. rewrite app_nil_r.
    replace (length (Deque.items d) - Z.to_nat (Deque.maxlen d))%nat with 0%nat
      by (unfold Deque.len in Hle; lia).
    reflexivity.
  - simpl.
    rewrite IH by (rewrite Deque_append_maxlen; by apply Deque_append_len_le).
    rewrite Deque_append_maxlen, (Deque_append_items d x Hle).
    set (L := Deque.items d ++ [x]).
    set (c := Z.to_nat (Deque.maxlen d)).
    replace (Deque.items d ++ x :: xs) with (L ++ xs)
      by (unfold L; by rewrite <- app_assoc).
    assert (Hk : (length L - c <= length L)%nat) by lia.
    rewrite <- (drop_app_le L xs (length L - c)) by exact Hk.
    rewrite drop_drop. f_equal.
    rewrite length_drop, !length_app. lia.
Qed.

Lemma Deque_appends_len_le d xs :
  Deque.len d <= Deque.maxlen d -> Deque.len (foldl Deque.append d xs) <= Deque.maxlen d.
Proof.
  revert d; induction xs as [|x xs IH]; intros d Hle; simpl; [done|].
  rewrite <- (Deque_append_maxlen d x).
  apply IH. rewrite Deque_append_maxlen. by apply Deque_append_len_le.
Qed.

End DequeFacts.

(** ** [ReplayBuffer]: capacity and eviction order *)

Section ReplayBufferFacts.
Context {Obs : Type}.
Implicit Types (rb : ReplayBuffer.t Obs) (e : Experience.t Obs).

Lemma ReplayBuffer_appends_buffer rb (xs : list (Experience.t Obs)) :
  ReplayBuffer.buffer (foldl ReplayBuffer.append rb xs) =
    foldl Deque.append (ReplayBuffer.buffer rb) xs.
Proof. revert rb; induction xs as [|x xs IH]; intros rb; simpl; [done | by rewrite IH]. Qed.

Lemma ReplayBuffer_init_inv (C : Z) rb :
  ReplayBuffer.init C = Ok rb -> 0 <= C /\ rb = ReplayBuffer.mk (Deque.mk [] C).
Proof.
  unfold ReplayBuffer.init, Deque.new.
  destruct (Z.ltb_spec C 0); simpl; [discriminate|].
  intros [= <-]. split; [lia | reflexivity].
Qed.

(** C6. A store created with capacity [C] never holds more than [C]
    transitions, whatever is appended and however often; after any run of
    appends it holds exactly the newest [C] of them in insertion order, so
    the oldest is always the one evicted (reading the store, as [sample]
    does, returns no new store and cannot change that order); and after
    [C + 1] appends it holds [C] transitions, all but the first one. *)
Theorem ReplayBuffer_append_capacity_fifo (C : Z) rb0 (xs : list (Experience.t Obs)) :
  ReplayBuffer.init C = Ok rb0 ->
  (forall n : nat, ReplayBuffer.len (foldl ReplayBuffer.append rb0 (take n xs)) <= C) /\
  Deque.items (ReplayBuffer.buffer (foldl ReplayBuffer.append rb0 xs)) =
    drop (length xs - Z.to_nat C) xs /\
  (Z.of_nat (length xs) = C + 1 ->
     ReplayBuffer.len (foldl ReplayBuffer.append rb0 xs) = C /\
     Deque.items (ReplayBuffer.buffer (foldl ReplayBuffer.append rb0 xs)) = drop 1 xs).
Proof.
  intros Hinit. apply ReplayBuffer_init_inv in Hinit as [HC ->].
  set (d0 := Deque.mk (@nil (Experience.t Obs)) C).
  assert (H0 : Deque.len d0 <= Deque.maxlen d0) by (unfold Deque.len; simpl; lia).
  assert (Hitems : forall ys : list (Experience.t Obs),
    Deque.items (ReplayBuffer.buffer (foldl ReplayBuffer.append (ReplayBuffer.mk d0) ys))
      = drop (length ys - Z.to_nat C) ys).
  { intros ys. rewrite ReplayBuffer_appends_buffer; simpl.
    rewrite (Deque_appends_items _ ys H0). reflexivity. }
  split; [|split].
  - intros n. unfold ReplayBuffer.len. rewrite ReplayBuffer_appends_buffer; simpl.
    apply (Deque_appends_len_le _ (take n xs) H0).
  - apply Hitems.
  - intros Hlen. unfold ReplayBuffer.len, Deque.len. rewrite Hitems.
    replace (length xs - Z.to_nat C)%nat with 1%nat by lia.
    split; [|reflexivity]. rewrite length_drop. lia.
Qed.

End ReplayBufferFacts.

Lemma ReplayBuffer_append_capacity_fifo_witness :
  ReplayBuffer.init 2 = Ok (ReplayBuffer.mk (Deque.mk (@nil (Experience.t unit)) 2)) /\
  Deque.items (ReplayBuffer.buffer
    (foldl ReplayBuffer.append (ReplayBuffer.mk (Deque.mk [] 2))
       [unit_experience 1; unit_experience 2; unit_experience 3])) =
  [unit_experience 2; unit_experience 3].
Proof.
  split; [reflexivity|].
  exact (proj1 (proj2 (ReplayBuffer_append_capacity_fifo 2
    (ReplayBuffer.mk (Deque.mk [] 2))
    [unit_experience 1; unit_experience 2; unit_experience 3] eq_refl))).
Defined.

(** ** [ReplayBuffer.sample] *)

Section SampleFacts.
Context {Obs : Type}.
Implicit Types (rb : ReplayBuffer.t Obs) (e : Experience.t Obs).

Lemma unzip_cons e es : ReplayBuffer.unzip (e :: es) = Ok (batch_of (e :: es)).
Proof. reflexivity. Qed.

Lemma rows_Ok rb (indices : list nat) :
  Forall (fun i => (i < length (Deque.items (ReplayBuffer.buffer rb)))%nat) indices ->
  exists es, ReplayBuffer.rows rb indices = Ok es /\
             Forall2 (fun i e => Deque.items (ReplayBuffer.buffer rb) !! i = Some e) indices es.
Proof.
  induction 1 as [|i indices Hi _ (es & Hes & Hall)].
  - exists []. split; [reflexivity | constructor].
  - apply lookup_lt_is_Some_2 in Hi as [e He].
    exists (e :: es). split.
    + simpl. unfold Deque.getitem. rewrite He. simpl. rewrite Hes. reflexivity.
    + by constructor.
Qed.

Lemma permutation_take_range (perm : list nat) (n k : nat) :
  perm ≡ₚ seq 0 n -> (k <= n)%nat ->
  NoDup (take k perm) /\ length (take k perm) = k /\ Forall (fun i => (i < n)%nat) (take k perm).
Proof.
  intros Hperm Hk.
  assert (Hnd : NoDup perm) by (rewrite Hperm; apply NoDup_seq).
  assert (Hlen : length perm = n) by (rewrite Hperm; apply length_seq).
  assert (Hlt : Forall (fun i => (i < n)%nat) perm).
  { rewrite Hperm. apply Forall_forall. intros i Hi%elem_of_seq. lia. }
  split; [|split].
  - eapply sublist_NoDup; [exact Hnd | apply sublist_take].
  - rewrite length_take. lia.
  - by apply Forall_take.
Qed.

(** With [1 <= batch_size <= len], [sample] returns the batch of the rows
    at the first [batch_size] positions of the draw. *)
Lemma sample_in_range rb (perm : list nat) (batch_size : Z) :
  perm ≡ₚ seq 0 (length (Deque.items (ReplayBuffer.buffer rb))) ->
  1 <= batch_size <= ReplayBuffer.len rb ->
  exists (indices : list nat) (es : list (Experience.t Obs)),
    NoDup indices /\ Z.of_nat (length indices) = batch_size /\
    Forall2 (fun i e => Deque.items (ReplayBuffer.buffer rb) !! i = Some e) indices es /\
    ReplayBuffer.sample rb perm batch_size = Ok (batch_of es).
Proof.
  intros Hperm. unfold ReplayBuffer.sample, np_random_choice, ReplayBuffer.len, Deque.len.
  set (n := length (Deque.items (ReplayBuffer.buffer rb))) in *.
  intros [Hk1 Hkn].
  destruct (permutation_take_range perm n (Z.to_nat batch_size) Hperm ltac:(lia))
    as (Hnd & Hlen & Hlt).
  destruct (rows_Ok rb _ Hlt) as (es & Hes & Hall).
  exists (take (Z.to_nat batch_size) perm), es.
  split; [exact Hnd|]. split; [lia|]. split; [exact Hall|].
  replace (Z.of_nat n <=? 0) with false by (symmetry; apply Z.leb_gt; lia).
  replace (Z.of_nat n <? batch_size) with false by (symmetry; apply Z.ltb_ge; lia).
  replace (batch_size <? 0) with false by (symmetry; apply Z.ltb_ge; lia).
  simpl. rewrite Hes. simpl.
  destruct es as [|e es]; [|apply unzip_cons].
  apply Forall2_length in Hall. simpl in Hall. lia.
Qed.

(** C7, as the code has it. Given the generator's draw (a rearrangement
    of the stored positions), [sample(batch_size)] with
    [1 <= batch_size <= len] returns the five parallel sequences of the
    transitions stored at [batch_size] pairwise distinct positions; with
    [batch_size > len], and likewise with [batch_size <= 0], it raises
    [ValueError]. *)
Theorem ReplayBuffer_sample_spec rb (perm : list nat) (batch_size : Z) :
  perm ≡ₚ seq 0 (length (Deque.items (ReplayBuffer.buffer rb))) ->
  (1 <= batch_size <= ReplayBuffer.len rb ->
     exists (indices : list nat) (es : list (Experience.t Obs)),
       NoDup indices /\ Z.of_nat (length indices) = batch_size /\
       Forall2 (fun i e => Deque.items (ReplayBuffer.buffer rb) !! i = Some e) indices es /\
       ReplayBuffer.sample rb perm batch_size = Ok (batch_of es)) /\
  (ReplayBuffer.len rb < batch_size ->
     ReplayBuffer.sample rb perm batch_size = Raise ValueError) /\
  (batch_size <= 0 ->
     ReplayBuffer.sample rb perm batch_size = Raise ValueError).
Proof.
  intros Hperm. split; [by apply sample_in_range|].
  unfold ReplayBuffer.sample, np_random_choice, ReplayBuffer.len, Deque.len.
  set (n := length (Deque.items (ReplayBuffer.buffer rb))) in *.
  split.
  - intros Hgt.
    replace (Z.of_nat n <? batch_size) with true by (symmetry; apply Z.ltb_lt; lia).
    destruct ((Z.of_nat n <=? 0) && negb (batch_size =? 0)); reflexivity.
  - intros Hle.
    destruct (Z.eq_dec batch_size 0) as [->|Hne].
    + replace (0 =? 0) with true by reflexivity. rewrite andb_false_r.
      destruct (Z.ltb_spec (Z.of_nat n) 0); [lia|]. simpl. reflexivity.
    + replace (batch_size <? 0) with true by (symmetry; apply Z.ltb_lt; lia).
      destruct ((Z.of_nat n <=? 0) && negb (batch_size =? 0)); [reflexivity|].
      destruct (Z.of_nat n <? batch_size); reflexivity.
Qed.

End SampleFacts.

Lemma ReplayBuffer_sample_spec_witness :
  [0%nat] ≡ₚ seq 0 (length (Deque.items (ReplayBuffer.buffer one_experience_buffer))) /\
  (exists (indices : list nat) (es : list (Experience.t unit)),
     NoDup indices /\ Z.of_nat (length indices) = 1 /\
     Forall2 (fun i e => Deque.items (ReplayBuffer.buffer one_experience_buffer) !! i = Some e)
       indices es /\
     ReplayBuffer.sample one_experience_buffer [0%nat] 1 = Ok (batch_of es)) /\
  ReplayBuffer.sample one_experience_buffer [0%nat] 2 = Raise ValueError.
Proof.
  assert (Hp : [0%nat] ≡ₚ seq 0 (length (Deque.items (ReplayBuffer.buffer one_experience_buffer))))
    by exact (Permutation_refl [0%nat]).
  split; [exact Hp|]. split.
  - apply (proj1 (ReplayBuffer_sample_spec one_experience_buffer [0%nat] 1 Hp)).
    unfold ReplayBuffer.len, Deque.len; simpl; lia.
  - apply (proj1 (proj2 (ReplayBuffer_sample_spec one_experience_buffer [0%nat] 2 Hp))).
    unfold ReplayBuffer.len, Deque.len; simpl; lia.
Defined.

(** C7 as stated fails at [batch_size = 0], which is at most the size of
    any store: [choice] returns no index, the transposition is empty and
    the unpacking into five names raises. *)
Lemma ReplayBuffer_sample_zero_raises :
  0 <= ReplayBuffer.len one_experience_buffer /\
  ReplayBuffer.sample one_experience_buffer [0%nat] 0 = Raise ValueError.
Proof. split; [vm_compute; discriminate | reflexivity]. Qed.

(** ** [MaxAndSkipEnv]: action repeat with max-pooling *)

Section MaxAndSkipFacts.
Context `{RawEnv}.

Lemma raw_steps_length k e action :
  (length (raw_steps k e action).1 <= k)%nat /\
  (k <> 0%nat -> (raw_steps k e action).1 <> []).
Proof.
  revert e; induction k as [|k IH]; intros e; simpl; [split; [lia | done]|].
  destruct (raw_step e action) as [e' r].
  destruct (step_done r); simpl; [split; [lia | done]|].
  specialize (IH e'). destruct (raw_steps k e' action) as [rs e'']; simpl in *.
  split; [lia | done].
Qed.

(** Every executed raw step but the last reported no termination, and the
    repeat is cut short only by a termination. *)
Lemma raw_steps_short_circuit k e action :
  Forall (fun r => step_done r = false)
    (take (length (raw_steps k e action).1 - 1) (raw_steps k e action).1) /\
  (length (raw_steps k e action).1 = k \/
   exists r, last (raw_steps k e action).1 = Some r /\ step_done r = true).
Proof.
  revert e; induction k as [|k IH]; intros e; simpl; [split; [constructor | by left]|].
  destruct (raw_step e action) as [e' r].
  destruct (step_done r) eqn:Hd; simpl.
  - split; [constructor | right; eauto].
  - specialize (IH e'). destruct (raw_steps k e' action) as [rs e'']; simpl in *.
    destruct IH as [IH1 IH2]. split.
    + destruct rs as [|r' rs]; [constructor|].
      replace (length (r' :: rs) - 0)%nat with (S (length (r' :: rs) - 1))
        by (simpl; lia).
      rewrite firstn_cons. constructor; [exact Hd | exact IH1].
    + destruct IH2 as [->|(r' & Hl & Hr')]; [by left|].
      right. exists r'. split; [|exact Hr'].
      destruct rs; [discriminate | exact Hl].
Qed.

(** The loop of [step] computes the specification's repeat, appending each
    frame to the buffer and adding each reward to the running total. *)
Lemma step_loop_raw_steps n action e buf total last0 :
  MaxAndSkipEnv.step_loop n action e buf total last0 =
    let rs := (raw_steps n e action).1 in
    ((raw_steps n e action).2,
     foldl Deque.append buf (map step_obs rs),
     foldl Float64.add total (map step_reward rs),
     match last rs with
     | Some r => Some (step_done r, step_info r)
     | None => last0
     end).
Proof.
  revert e buf total last0; induction n as [|n IH]; intros e buf total last0; simpl; [done|].
  destruct (raw_step e action) as [e' [[[obs reward] done] info]] eqn:Hstep.
  unfold step_done at 1; simpl.
  destruct done; simpl; [done|].
  rewrite IH. destruct (raw_steps n e' action) as [rs e'']; simpl.
  destruct rs as [|r rs]; [reflexivity|].
  change (last ((obs, reward, false, info) :: r :: rs)) with (last (r :: rs)).
  destruct (last (r :: rs)) eqn:Hl; [reflexivity|].
  apply last_None in Hl. discriminate.
Qed.

(** Every frame of a repeat has the simulator's frame shape. *)
Lemma raw_steps_shapes (s : list nat) action :
  (forall e a, shape (step_obs (raw_step e a).2) = s) ->
  forall k e rs e', raw_steps k e action = (rs, e') ->
  Forall (fun r => shape (step_obs r) = s) rs.
Proof.
  intros Henv. induction k as [|k IH]; intros e rs e' Hrs; simpl in Hrs.
  - injection Hrs as <- <-. constructor.
  - pose proof (Henv e action) as Hsh.
    destruct (raw_step e action) as [e1 r1]; simpl in Hsh.
    destruct (step_done r1).
    + injection Hrs as <- <-. by repeat constructor.
    + destruct (raw_steps k e1 action) as [rs1 e2] eqn:Hk.
      injection Hrs as <- <-. constructor; [exact Hsh | eauto].
Qed.

Lemma np_max_stack_pair (f g : ndarray) :
  shape g = shape f ->
  np_max_stack [f; g] = Ok (mk_ndarray (shape f) (zip_with Z.max (data f) (data g))).
Proof. intros Hs. unfold np_max_stack; simpl. by rewrite bool_decide_true. Qed.

(** C9. From a wrapper that has been reset, over a simulator whose frames
    all have one shape, [step(action)] executes the specification's repeat
    with [K = 4] (the same action at every raw step, at least one and at
    most four of them, stopping after the first that reports termination);
    its reward is the sum, from [0.0] and in order, of the executed steps'
    rewards; its frame is the element-wise maximum of the last two frames
    observed (those of this repeat, preceded by the buffered ones); and it
    reports the last executed step's [done] and [info]. *)
Theorem MaxAndSkipEnv_step_spec (self : MaxAndSkipEnv.t) (action : Z) (s : list nat)
    (rs : list raw_result) (e' : env_state) :
  ready self ->
  Forall (fun f => shape f = s) (Deque.items (MaxAndSkipEnv._obs_buffer self)) ->
  (forall e a, shape (step_obs (raw_step e a).2) = s) ->
  raw_steps 4 (MaxAndSkipEnv.env self) action = (rs, e') ->
  (1 <= length rs <= 4)%nat /\
  Forall (fun r => step_done r = false) (take (length rs - 1) rs) /\
  (length rs = 4%nat \/ exists r, last rs = Some r /\ step_done r = true) /\
  exists (f g : ndarray) (r_last : raw_result),
    drop (length (Deque.items (MaxAndSkipEnv._obs_buffer self) ++ map step_obs rs) - 2)
         (Deque.items (MaxAndSkipEnv._obs_buffer self) ++ map step_obs rs) = [f; g] /\
    last rs = Some r_last /\
    MaxAndSkipEnv.step self action =
      Ok (MaxAndSkipEnv.mk e' (Deque.mk [f; g] 2) 4,
          (mk_ndarray (shape f) (zip_with Z.max (data f) (data g)),
           foldl Float64.add Float64.zero (map step_reward rs),
           step_done r_last, step_info r_last)).
Proof.
  intros (Hskip & Hmax & Hlen) Hshapes Henv Hrs.
  pose proof (raw_steps_length 4 (MaxAndSkipEnv.env self) action) as [Hle Hne].
  pose proof (raw_steps_short_circuit 4 (MaxAndSkipEnv.env self) action) as [Hpre Hcut].
  rewrite Hrs in Hle, Hne, Hpre, Hcut; simpl in Hle, Hne, Hpre, Hcut.
  specialize (Hne ltac:(lia)).
  assert (Hrs1 : (1 <= length rs)%nat) by (destruct rs; [done | simpl; lia]).
  split; [lia|]. split; [exact Hpre|]. split; [exact Hcut|].
  set (seen := Deque.items (MaxAndSkipEnv._obs_buffer self) ++ map step_obs rs).
  assert (Hseen : (2 <= length seen)%nat).
  { unfold seen. rewrite length_app, length_map. unfold Deque.len in Hlen. lia. }
  assert (Hall : Forall (fun f => shape f = s) seen).
  { unfold seen. apply Forall_app. split; [exact Hshapes|].
    apply Forall_fmap. exact (raw_steps_shapes s action Henv 4 _ _ _ Hrs). }
  destruct (drop (length seen - 2) seen) as [|f [|g [|x tl]]] eqn:Hdrop;
    try (apply (f_equal length) in Hdrop; rewrite length_drop in Hdrop; simpl in Hdrop; lia).
  assert (Hfg : shape f = s /\ shape g = s).
  { assert (Hsub : Forall (fun f => shape f = s) [f; g])
      by (rewrite <- Hdrop; by apply Forall_drop).
    inversion Hsub as [|? ? Hf Hsub']; inversion Hsub'; subst; done. }
  destruct (last rs) as [r_last|] eqn:Hlast;
    [|apply last_None in Hlast; contradiction].
  exists f, g, r_last. split; [reflexivity|]. split; [reflexivity|].
  unfold MaxAndSkipEnv.step. rewrite step_loop_raw_steps, Hskip, Hrs; simpl.
  rewrite Hlast.
  assert (Hitems : Deque.items
            (foldl Deque.append (MaxAndSkipEnv._obs_buffer self) (map step_obs rs)) = [f; g]).
  { rewrite Deque_appends_items by lia. rewrite Hmax. exact Hdrop. }
  assert (Hbuf : foldl Deque.append (MaxAndSkipEnv._obs_buffer self) (map step_obs rs)
                 = Deque.mk [f; g] 2).
  { pose proof (Deque_appends_maxlen (MaxAndSkipEnv._obs_buffer self) (map step_obs rs)) as Hm.
    destruct (foldl Deque.append _ _) as [its ml]; simpl in *. congruence. }
  rewrite Hbuf. cbn [Deque.items].
  destruct Hfg as [Hf Hg].
  rewrite (np_max_stack_pair f g) by congruence.
  reflexivity.
Qed.

(** [reset()] leaves the wrapper [ready] once [skip] is 4, and [step] keeps
    it so. *)
Lemma MaxAndSkipEnv_reset_ready (e : env_state) :
  ready (MaxAndSkipEnv.reset (MaxAndSkipEnv.init e 4)).1.
Proof.
  unfold MaxAndSkipEnv.reset, MaxAndSkipEnv.init; simpl.
  destruct (raw_reset e) as [e1 obs]; simpl.
  unfold ready, Deque.len; simpl. lia.
Qed.

End MaxAndSkipFacts.

Lemma MaxAndSkipEnv_step_spec_witness :
  @ready counter_env counter_self /\
  @MaxAndSkipEnv.step counter_env counter_self 0 =
    Ok (@MaxAndSkipEnv.mk counter_env 3%nat (Deque.mk [counter_frame 2; counter_frame 3] 2) 4,
        (mk_ndarray [2%nat] [3; 8], Float64.of_Z 3, true, tt)).
Proof.
  assert (Hready : @ready counter_env counter_self)
    by apply (@MaxAndSkipEnv_reset_ready counter_env).
  split; [exact Hready|].
  destruct (@MaxAndSkipEnv_step_spec counter_env counter_self 0 [2%nat]
              (@raw_steps counter_env 4 0%nat 0).1 (@raw_steps counter_env 4 0%nat 0).2
              Hready
              ltac:(repeat constructor)
              ltac:(intros; reflexivity)
              eq_refl)
    as (_ & _ & _ & f & g & r_last & Hfg & Hlast & Hstep).
  rewrite Hstep.
  injection Hfg as <- <-. injection Hlast as <-.
  reflexivity.
Defined.

(** ** [BufferWrapper]: the stack of the last frames *)

Section BufferWrapperFacts.

Lemma rect_plane_shape rows cols p :
  rows <> 0%nat -> rect rows cols p -> plane_shape p = (rows, cols).
Proof.
  intros Hr [Hlen Hall]. unfold plane_shape. rewrite Hlen. f_equal.
  destruct p as [|row p]; [simpl in Hlen; congruence|].
  simpl. by inversion Hall.
Qed.

Lemma plane_of_rect obs : is_frame obs -> rect 84 84 (plane_of obs).
Proof.
  intros (p & -> & Hlen & Hall). unfold plane_of, map2d; simpl. split.
  - by rewrite length_map.
  - apply Forall_fmap. eapply Forall_impl; [exact Hall|].
    intros row [Hrow _]; simpl. by rewrite length_map.
Qed.

Lemma zero_plane_rect : rect 84 84 zero_plane.
Proof.
  split; [apply length_replicate|].
  apply Forall_replicate. apply length_replicate.
Qed.

(** A plane of the slot's shape is assigned as it is. *)
Lemma broadcast_plane_exact rows cols p :
  rows <> 0%nat -> rect rows cols p -> broadcast_plane rows cols [p] = Ok p.
Proof.
  intros Hr Hp. unfold broadcast_plane.
  rewrite (rect_plane_shape rows cols p Hr Hp).
  rewrite bool_decide_true by (split; by left).
  rewrite (bool_decide_true (rows = rows)) by done.
  f_equal. rewrite <- (map_id p) at 2. apply map_ext.
  intros row. by rewrite bool_decide_true.
Qed.

Lemma astype_float32_frame obs : is_frame obs -> astype_float32 obs = [plane_of obs].
Proof. intros (p & -> & _). reflexivity. Qed.

(** [buffer[:-1] = buffer[1:]; buffer[-1] = observation] on a non-empty
    buffer whose last slot has the frame's shape: the oldest plane is
    dropped and the frame becomes the newest plane. *)
Lemma shift_set_last buf slot obs :
  last buf = Some slot -> rect 84 84 slot -> is_frame obs ->
  BufferWrapper.set_last (BufferWrapper.shift_left buf) (astype_float32 obs)
    = Ok (drop 1 buf ++ [plane_of obs]).
Proof.
  intros Hlast Hslot Hobs.
  assert (Hn : (1 <= length buf)%nat).
  { destruct buf; [discriminate | simpl; lia]. }
  assert (Hd : drop (length buf - 1) buf = [slot]).
  { destruct (last_Some buf slot) as [[l' Hl'] _]; [exact Hlast|]. subst buf.
    rewrite length_app; simpl.
    replace (length l' + 1 - 1)%nat with (length l') by lia.
    apply drop_app_length. }
  unfold BufferWrapper.set_last, BufferWrapper.shift_left.
  rewrite Hd, last_snoc.
  rewrite (rect_plane_shape 84 84 slot) by (done || lia). simpl fst; simpl snd.
  rewrite astype_float32_frame by exact Hobs.
  rewrite broadcast_plane_exact by (lia || by apply plane_of_rect).
  simpl. do 2 f_equal.
  rewrite length_app, length_drop; simpl.
  replace (length buf - 1 + 1 - 1)%nat with (length (drop 1 buf))
    by (rewrite length_drop; lia).
  by rewrite take_app_length.
Qed.

Lemma stack_ok_last buf : stack_ok buf -> exists slot, last buf = Some slot /\ rect 84 84 slot.
Proof.
  intros [Hlen Hall].
  destruct (last buf) as [slot|] eqn:Hlast.
  - exists slot. split; [reflexivity|].
    apply last_Some_elem_of in Hlast.
    by apply (proj1 (Forall_forall _ _) Hall).
  - apply last_None in Hlast. subst buf. discriminate.
Qed.

Lemma stack_ok_push buf obs :
  stack_ok buf -> is_frame obs -> stack_ok (drop 1 buf ++ [plane_of obs]).
Proof.
  intros [Hlen Hall] Hobs. split.
  - rewrite length_app, length_drop, Hlen. reflexivity.
  - apply Forall_app. split; [by apply Forall_drop|].
    constructor; [by apply plane_of_rect | constructor].
Qed.

(** [observation] on a stack of four planes: the buffer is overwritten in
    place and its own reference comes back. *)
Lemma BufferWrapper_observation_ok (h : heap) bw l buf obs :
  BufferWrapper.buffer bw = Some l -> h !! l = Some buf ->
  stack_ok buf -> is_frame obs ->
  BufferWrapper.observation h bw obs = Ok (<[l := drop 1 buf ++ [plane_of obs]]> h, l).
Proof.
  intros Hb Hl Hok Hobs. unfold BufferWrapper.observation. rewrite Hb, Hl.
  destruct (stack_ok_last buf Hok) as (slot & Hlast & Hslot).
  by rewrite (shift_set_last buf slot obs Hlast Hslot Hobs).
Qed.

(** The buffer [reset] allocates in [make_env]'s wrapper: four zero planes. *)
Lemma zeros_like_pipeline :
  BufferWrapper.zeros_like (BufferWrapper.observation_space_low Pipeline.init)
    = replicate 4 zero_plane.
Proof. vm_compute. reflexivity. Qed.

Lemma BufferWrapper_reset_ok (h : heap) obs :
  is_frame obs ->
  let l := fresh (dom h) in
  BufferWrapper.reset h Pipeline.init obs =
    Ok (<[l := replicate 3 zero_plane ++ [plane_of obs]]> h,
        BufferWrapper.mk (BufferWrapper.observation_space_low Pipeline.init) (Some l),
        l).
Proof.
  intros Hobs l. unfold BufferWrapper.reset, alloc. fold l.
  rewrite zeros_like_pipeline.
  rewrite (BufferWrapper_observation_ok _ _ l (replicate 4 zero_plane) obs);
    [| reflexivity | apply lookup_insert_eq | | exact Hobs].
  - rewrite bind_Ok_l. cbv beta iota. rewrite insert_insert_eq.
    change (replicate 4 zero_plane) with (zero_plane :: replicate 3 zero_plane).
    by rewrite skipn_cons, drop_0.
  - split; [reflexivity|]. apply Forall_replicate, zero_plane_rect.
Qed.

Lemma push_all_ok (fs : list (list (list (list Z)))) : forall (h : heap) bw l buf,
  BufferWrapper.buffer bw = Some l -> h !! l = Some buf -> stack_ok buf ->
  Forall is_frame fs ->
  exists h', push_all h bw fs = Ok h' /\
             h' !! l = Some (drop (length fs) (buf ++ map plane_of fs)).
Proof.
  induction fs as [|f fs IH]; intros h bw l buf Hb Hl Hok Hfs.
  - exists h. split; [reflexivity|]. simpl. by rewrite app_nil_r.
  - inversion Hfs as [|? ? Hf Hfs']; subst.
    cbn [push_all].
    rewrite (BufferWrapper_observation_ok h bw l buf f Hb Hl Hok Hf), bind_Ok_l.
    cbv beta iota.
    destruct (IH (<[l := drop 1 buf ++ [plane_of f]]> h) bw l (drop 1 buf ++ [plane_of f])
                 Hb (lookup_insert_eq _ _ _) (stack_ok_push buf f Hok Hf) Hfs')
      as (h' & Hpush & Hl').
    exists h'. split; [exact Hpush|]. rewrite Hl'. f_equal.
    destruct Hok as [Hlen _].
    destruct buf as [|b buf]; [discriminate|].
    cbn [map length]. rewrite <- app_comm_cons, !skipn_cons, drop_0.
    by rewrite <- app_assoc.
Qed.

End BufferWrapperFacts.

(** *** The cast to float32 loses nothing on bytes *)

Lemma of_Z_byte_exact (z : Z) : 0 <= z < 256 -> float_trunc (Float32.of_Z z) = z.
Proof.
  intros Hz.
  assert (Hall : forallb (fun z => float_trunc (Float32.of_Z z) =? z) (seqZ 0 256) = true)
    by (vm_compute; reflexivity).
  rewrite forallb_forall in Hall.
  apply Z.eqb_eq, Hall, list_elem_of_In, elem_of_seqZ. lia.
Qed.

Lemma map_of_Z_bytes_inj (r1 r2 : list Z) :
  Forall (fun z => 0 <= z < 256) r1 -> Forall (fun z => 0 <= z < 256) r2 ->
  map Float32.of_Z r1 = map Float32.of_Z r2 -> r1 = r2.
Proof.
  intros H1; revert r2; induction H1 as [|a r1 Ha _ IH]; intros r2 H2 Heq.
  - destruct r2; [done | discriminate].
  - destruct H2 as [|b r2 Hb H2]; [discriminate|].
    injection Heq as Hab Hrest. f_equal; [|by apply IH].
    rewrite <- (of_Z_byte_exact a Ha), <- (of_Z_byte_exact b Hb). by rewrite Hab.
Qed.

(** Two frames with the same plane in the buffer are the same frame. *)
Lemma plane_of_inj f g : is_frame f -> is_frame g -> plane_of f = plane_of g -> f = g.
Proof.
  intros (p & -> & _ & Hp) (q & -> & _ & Hq). unfold plane_of, map2d; simpl.
  intros Heq. f_equal. revert q Hq Heq.
  induction Hp as [|r p [_ Hr] _ IH]; intros q Hq Heq.
  - destruct q; [done | discriminate].
  - destruct Hq as [|r' q [_ Hr'] Hq]; [discriminate|].
    injection Heq as Hrow Hrest. f_equal; [|by apply IH].
    by apply map_of_Z_bytes_inj.
Qed.

(** C5. With [N = 4] (the wrapper of [make_env]): after [reset] the
    newest slot (index 3) holds the first frame and slots 0 to 2 are zero;
    after four pushes [f1 .. f4] the stack is [[f1; f2; f3; f4]], oldest
    first; after the fifth push it is [[f2; f3; f4; f5]], so [f1] is in no
    slot any more (unless one of the later frames is [f1] again). Frames
    are held as float32 planes, a cast that is exact on bytes
    ([plane_of_inj]). *)
Theorem BufferWrapper_stack_order (h : heap) (f0 f1 f2 f3 f4 f5 : list (list (list Z))) :
  is_frame f0 -> is_frame f1 -> is_frame f2 -> is_frame f3 -> is_frame f4 -> is_frame f5 ->
  exists (h0 : heap) (bw : BufferWrapper.t) (l : loc),
    BufferWrapper.reset h Pipeline.init f0 = Ok (h0, bw, l) /\
    h0 !! l = Some [zero_plane; zero_plane; zero_plane; plane_of f0] /\
    exists h4 : heap,
      push_all h0 bw [f1; f2; f3; f4] = Ok h4 /\
      h4 !! l = Some [plane_of f1; plane_of f2; plane_of f3; plane_of f4] /\
      exists h5 : heap,
        BufferWrapper.observation h4 bw f5 = Ok (h5, l) /\
        h5 !! l = Some [plane_of f2; plane_of f3; plane_of f4; plane_of f5] /\
        (f1 ∉ [f2; f3; f4; f5] ->
         plane_of f1 ∉ [plane_of f2; plane_of f3; plane_of f4; plane_of f5]).
Proof.
  intros H0 H1 H2 H3 H4 H5.
  pose proof (BufferWrapper_reset_ok h f0 H0) as Hreset. cbv zeta in Hreset.
  set (l := fresh (dom h)) in *.
  set (bw := BufferWrapper.mk (BufferWrapper.observation_space_low Pipeline.init) (Some l)) in *.
  set (buf0 := replicate 3 zero_plane ++ [plane_of f0]) in *.
  assert (Hok0 : stack_ok buf0).
  { split; [reflexivity|]. apply Forall_app. split.
    - apply Forall_replicate, zero_plane_rect.
    - constructor; [by apply plane_of_rect | constructor]. }
  exists (<[l := buf0]> h), bw, l.
  split; [exact Hreset|]. split; [apply lookup_insert_eq|].
  destruct (push_all_ok [f1; f2; f3; f4] (<[l := buf0]> h) bw l buf0
              eq_refl (lookup_insert_eq _ _ _) Hok0 ltac:(repeat constructor; assumption))
    as (h4 & Hpush & Hl4).
  exists h4. split; [exact Hpush|]. split; [exact Hl4|].
  assert (Hok4 : stack_ok [plane_of f1; plane_of f2; plane_of f3; plane_of f4]).
  { split; [reflexivity|]. repeat constructor; by apply plane_of_rect. }
  pose proof (BufferWrapper_observation_ok h4 bw l _ f5 eq_refl Hl4 Hok4 H5) as Hobs.
  eexists. split; [exact Hobs|]. split; [apply lookup_insert_eq|].
  intros Hnotin Hin. apply Hnotin.
  repeat (apply elem_of_cons in Hin as [Hin|Hin];
          [apply plane_of_inj in Hin; [subst; set_solver | done | done] |]).
  by apply elem_of_nil in Hin.
Qed.

Lemma constant_frame_is_frame (z : Z) : 0 <= z < 256 -> is_frame (constant_frame z).
Proof.
  intros Hz. exists (replicate 84 (replicate 84 z)).
  split; [reflexivity|]. split; [apply length_replicate|].
  apply Forall_replicate. split; [apply length_replicate|].
  by apply Forall_replicate.
Qed.

Lemma BufferWrapper_stack_order_witness :
  is_frame (constant_frame 0) /\
  exists (h0 : heap) (bw : BufferWrapper.t) (l : loc),
    BufferWrapper.reset ∅ Pipeline.init (constant_frame 0) = Ok (h0, bw, l) /\
    h0 !! l = Some [zero_plane; zero_plane; zero_plane; plane_of (constant_frame 0)].
Proof.
  assert (Hf : forall z, 0 <= z < 256 -> is_frame (constant_frame z))
    by exact constant_frame_is_frame.
  split; [apply Hf; lia|].
  destruct (BufferWrapper_stack_order ∅
              (constant_frame 0) (constant_frame 1) (constant_frame 2)
              (constant_frame 3) (constant_frame 4) (constant_frame 5)
              (Hf 0 ltac:(lia)) (Hf 1 ltac:(lia)) (Hf 2 ltac:(lia))
              (Hf 3 ltac:(lia)) (Hf 4 ltac:(lia)) (Hf 5 ltac:(lia)))
    as (h0 & bw & l & Hreset & Hl & _).
  exists h0, bw, l. split; [exact Hreset | exact Hl].
Defined.

(** ** Aliasing: what [BufferWrapper] returns and what [make_env] returns *)

Section AliasingFacts.

Lemma BufferWrapper_observation_inv (h h' : heap) bw obs r :
  BufferWrapper.observation h bw obs = Ok (h', r) ->
  exists buf', BufferWrapper.buffer bw = Some r /\ r ∈ dom h /\ h' = <[r := buf']> h.
Proof.
  unfold BufferWrapper.observation.
  destruct (BufferWrapper.buffer bw) as [lb|]; [|discriminate].
  destruct (h !! lb) as [buf|] eqn:Hl; [|discriminate].
  intros Hb. inv_bind Hb. injection Hb as <- <-.
  exists a. split; [reflexivity|]. split; [|reflexivity].
  apply elem_of_dom. eauto.
Qed.

Lemma BufferWrapper_reset_inv (h h' : heap) bw bw' obs r :
  BufferWrapper.reset h bw obs = Ok (h', bw', r) ->
  exists buf', r = fresh (dom h) /\ BufferWrapper.buffer bw' = Some r /\ h' = <[r := buf']> h.
Proof.
  unfold BufferWrapper.reset, alloc. intros Hb. inv_bind Hb.
  destruct a as [h2 r2]. injection Hb as <- <- <-.
  apply BufferWrapper_observation_inv in E as (buf' & Hbuf & _ & ->).
  simpl in Hbuf. injection Hbuf as <-.
  exists buf'. split; [reflexivity|]. split; [reflexivity|].
  apply insert_insert_eq.
Qed.

Lemma ScaledFloatFrame_observation_inv (h h' : heap) obs r :
  ScaledFloatFrame.observation h obs = Ok (h', r) ->
  exists a, h !! obs = Some a /\ r = fresh (dom h) /\ h' = <[r := ScaledFloatFrame.scale a]> h.
Proof.
  unfold ScaledFloatFrame.observation, alloc.
  destruct (h !! obs) as [a|]; [|discriminate].
  intros [= <- <-]. eauto.
Qed.

(** What a call does to the store: it overwrites or creates the buffer at
    [lb], then creates the returned array at a fresh [l], a scaled copy. *)
Lemma do_call_inv (h h' : heap) bw bw' c l :
  do_call h bw c = Ok (h', bw', l) ->
  exists (lb : loc) (buf : planes),
    BufferWrapper.buffer bw' = Some lb /\
    (BufferWrapper.buffer bw = Some lb \/ lb ∉ dom h) /\
    l = fresh (dom (<[lb := buf]> h)) /\
    h' = <[l := ScaledFloatFrame.scale buf]> (<[lb := buf]> h).
Proof.
  destruct c as [f|f]; simpl; unfold Pipeline.reset, Pipeline.observation; intros Hc.
  - inv_bind Hc. destruct a as [[h1 bw1] r1]. inv_bind Hc. destruct a as [h2 r2].
    injection Hc as <- <- <-.
    apply BufferWrapper_reset_inv in E as (buf & -> & Hb & ->).
    apply ScaledFloatFrame_observation_inv in E0 as (a & Ha & -> & ->).
    rewrite lookup_insert_eq in Ha. injection Ha as <-.
    exists (fresh (dom h)), buf. split; [exact Hb|]. split; [right; apply is_fresh|].
    split; reflexivity.
  - inv_bind Hc. destruct a as [h1 r1]. injection Hc as <- <- <-.
    inv_bind E. destruct a as [h0 r0].
    apply BufferWrapper_observation_inv in E0 as (buf & Hb & Hdom & ->).
    apply ScaledFloatFrame_observation_inv in E as (a & Ha & -> & ->).
    rewrite lookup_insert_eq in Ha. injection Ha as <-.
    exists r0, buf. split; [exact Hb|]. split; [by left|]. split; reflexivity.
Qed.

(** An array that is not the wrapper's buffer survives a call unchanged,
    and is still not the buffer afterwards. *)
Lemma do_call_keeps (h h' : heap) bw bw' c l (l0 : loc) :
  l0 ∈ dom h -> BufferWrapper.buffer bw <> Some l0 ->
  do_call h bw c = Ok (h', bw', l) ->
  h' !! l0 = h !! l0 /\ l0 ∈ dom h' /\ BufferWrapper.buffer bw' <> Some l0.
Proof.
  intros Hdom Hnb Hc.
  apply do_call_inv in Hc as (lb & buf & Hb' & Hlb & -> & ->).
  assert (Hne : lb <> l0).
  { destruct Hlb as [Hlb|Hlb]; [congruence|]. intros ->. contradiction. }
  assert (Hdom1 : l0 ∈ dom (<[lb := buf]> h))
    by (rewrite dom_insert_L; by apply elem_of_union_r).
  assert (Hne2 : fresh (dom (<[lb := buf]> h)) <> l0).
  { intros Heq. apply (is_fresh (dom (<[lb := buf]> h))). by rewrite Heq. }
  split; [|split].
  - by rewrite !lookup_insert_ne.
  - rewrite dom_insert_L. by apply elem_of_union_r.
  - congruence.
Qed.

Lemma do_calls_keep (cs : list call) : forall (h h' : heap) bw bw' (l0 : loc),
  l0 ∈ dom h -> BufferWrapper.buffer bw <> Some l0 ->
  do_calls h bw cs = Ok (h', bw') ->
  h' !! l0 = h !! l0.
Proof.
  induction cs as [|c cs IH]; intros h h' bw bw' l0 Hdom Hnb Hcs; simpl in Hcs.
  - by injection Hcs as <- <-.
  - inv_bind Hcs. destruct a as [[h1 bw1] l1].
    destruct (do_call_keeps h h1 bw bw1 c l1 l0 Hdom Hnb E) as (Hl & Hdom1 & Hnb1).
    rewrite <- Hl. by eapply IH.
Qed.

(** C1, as the code has it. The array a caller of [make_env]'s
    environment gets from [reset] or [step] is a new array (a scaled copy
    of the buffer made by [ScaledFloatFrame], at a reference that was not in
    use and that is not the wrapper's buffer), and no sequence of later
    [reset]s and [step]s changes it: a state stored in a transition keeps
    its value. *)
Theorem Pipeline_observation_is_stable_copy (h h1 : heap) bw bw1 (c : call) (l : loc) :
  do_call h bw c = Ok (h1, bw1, l) ->
  (l ∉ dom h) /\
  BufferWrapper.buffer bw1 <> Some l /\
  (exists (lb : loc) (buf : planes),
     BufferWrapper.buffer bw1 = Some lb /\ h1 !! lb = Some buf /\
     h1 !! l = Some (ScaledFloatFrame.scale buf)) /\
  forall (cs : list call) (h2 : heap) bw2,
    do_calls h1 bw1 cs = Ok (h2, bw2) -> h2 !! l = h1 !! l.
Proof.
  intros Hc.
  pose proof Hc as Hinv.
  apply do_call_inv in Hinv as (lb & buf & Hb1 & Hlb & Hl & Hh1).
  assert (Hfresh : l ∉ dom (<[lb := buf]> h)) by (rewrite Hl; apply is_fresh).
  assert (Hne : lb <> l).
  { intros ->. apply Hfresh. rewrite dom_insert_L.
    by apply elem_of_union_l, elem_of_singleton_2. }
  assert (Hnb : BufferWrapper.buffer bw1 <> Some l) by congruence.
  split; [|split; [exact Hnb|split]].
  - intros Hin. apply Hfresh. rewrite dom_insert_L. by apply elem_of_union_r.
  - exists lb, buf. split; [exact Hb1|]. subst h1. split.
    + rewrite lookup_insert_ne by congruence. apply lookup_insert_eq.
    + apply lookup_insert_eq.
  - intros cs h2 bw2 Hcs.
    eapply do_calls_keep; [| exact Hnb | exact Hcs].
    subst h1. rewrite dom_insert_L. by apply elem_of_union_l, elem_of_singleton_2.
Qed.

End AliasingFacts.

Lemma do_call_reset_ok (h : heap) (f : list (list (list Z))) :
  is_frame f -> is_Ok (do_call h Pipeline.init (CallReset f)).
Proof.
  intros Hf. unfold do_call, Pipeline.reset.
  pose proof (BufferWrapper_reset_ok h f Hf) as Hreset. cbv zeta in Hreset.
  rewrite Hreset, bind_Ok_l. cbv beta iota.
  unfold ScaledFloatFrame.observation. rewrite lookup_insert_eq, bind_Ok_l.
  destruct (alloc _ _) as [h2 r]. eexists. reflexivity.
Qed.

Lemma Pipeline_observation_is_stable_copy_witness :
  exists (h1 : heap) (bw1 : BufferWrapper.t) (l : loc),
    do_call ∅ Pipeline.init (CallReset (constant_frame 1)) = Ok (h1, bw1, l) /\
    BufferWrapper.buffer bw1 <> Some l /\
    forall (cs : list call) (h2 : heap) bw2,
      do_calls h1 bw1 cs = Ok (h2, bw2) -> h2 !! l = h1 !! l.
Proof.
  destruct (do_call_reset_ok ∅ (constant_frame 1)
              (constant_frame_is_frame 1 ltac:(lia))) as [[[h1 bw1] l] Hc].
  exists h1, bw1, l. split; [exact Hc|].
  destruct (Pipeline_observation_is_stable_copy ∅ h1 Pipeline.init bw1 _ l Hc)
    as (_ & Hnb & _ & Hkeep).
  split; [exact Hnb | exact Hkeep].
Defined.

(** C1 as stated fails for [BufferWrapper] itself: [observation] returns
    the reference to its own buffer, so the array [reset] handed out is
    changed by the next push. *)
Lemma BufferWrapper_observation_returns_alias :
  exists (h0 h1 : heap) (bw : BufferWrapper.t) (l : loc),
    BufferWrapper.reset ∅ Pipeline.init (constant_frame 1) = Ok (h0, bw, l) /\
    BufferWrapper.observation h0 bw (constant_frame 2) = Ok (h1, l) /\
    h1 !! l <> h0 !! l.
Proof.
  assert (H1 : is_frame (constant_frame 1)) by (apply constant_frame_is_frame; lia).
  assert (H2 : is_frame (constant_frame 2)) by (apply constant_frame_is_frame; lia).
  pose proof (BufferWrapper_reset_ok ∅ (constant_frame 1) H1) as Hreset. cbv zeta in Hreset.
  set (l := fresh (dom (∅ : heap))) in *.
  set (buf0 := replicate 3 zero_plane ++ [plane_of (constant_frame 1)]) in *.
  assert (Hok0 : stack_ok buf0).
  { split; [reflexivity|]. apply Forall_app. split.
    - apply Forall_replicate, zero_plane_rect.
    - constructor; [by apply plane_of_rect | constructor]. }
  set (bw := BufferWrapper.mk (BufferWrapper.observation_space_low Pipeline.init) (Some l)) in *.
  exists (<[l := buf0]> ∅), (<[l := drop 1 buf0 ++ [plane_of (constant_frame 2)]]> (<[l := buf0]> ∅)), bw, l.
  split; [exact Hreset|]. split.
  - apply (BufferWrapper_observation_ok _ bw l buf0 _ eq_refl (lookup_insert_eq _ _ _) Hok0 H2).
  - rewrite insert_insert_eq, !lookup_insert_eq.
    intros Heq. apply (f_equal (first_pixel 2)) in Heq.
    vm_compute in Heq. discriminate.
Qed.

(** ** [ProcessFrame84]: shape and content of the processed frame *)

Lemma map_fmap {A B} (f : A -> B) (l : list A) : map f l = f <$> l.
Proof. reflexivity. Qed.

Lemma lookup_map {A B} (f : A -> B) (l : list A) (i : nat) :
  map f l !! i = f <$> (l !! i).
Proof. apply list_lookup_fmap. Qed.

Section ChunkFacts.
Context {A : Type}.
Implicit Types (l : list A) (n k i : nat).

Lemma chunks_length n k l : length (chunks n k l) = n.
Proof. unfold chunks. by rewrite length_map, length_seq. Qed.

Lemma chunks_lookup n k l i :
  (i < n)%nat -> chunks n k l !! i = Some (take k (drop (i * k) l)).
Proof.
  intros Hi. unfold chunks. rewrite lookup_map, lookup_seq_lt by exact Hi.
  reflexivity.
Qed.

Lemma chunks_S n k l : chunks (S n) k l = take k l :: chunks n k (drop k l).
Proof.
  unfold chunks. cbn [seq map]. rewrite Nat.mul_0_l, drop_0. f_equal.
  rewrite <- seq_shift, map_map. apply map_ext. intros i.
  rewrite drop_drop. reflexivity.
Qed.

(** Cutting the concatenation of [k]-long rows gives the rows back. *)
Lemma chunks_concat k (rows : list (list A)) :
  Forall (fun r => length r = k) rows -> chunks (length rows) k (concat rows) = rows.
Proof.
  induction 1 as [|r rows Hr _ IH]; [reflexivity|].
  cbn [length concat]. rewrite chunks_S. f_equal.
  - rewrite take_app_length'; done.
  - rewrite drop_app_length'; done.
Qed.

Lemma chunks_singletons l : chunks (length l) 1 l = map (fun x => [x]) l.
Proof.
  induction l as [|x l IH]; [reflexivity|].
  cbn [length map]. rewrite chunks_S. f_equal. exact IH.
Qed.

Lemma length_concat_rows k (rows : list (list A)) :
  Forall (fun r => length r = k) rows -> length (concat rows) = (length rows * k)%nat.
Proof.
  induction 1 as [|r rows Hr _ IH]; [reflexivity|].
  cbn [length concat]. rewrite length_app, IH, Hr. lia.
Qed.

Lemma pyslice_lookup (start stop : nat) l i :
  (i < stop - start)%nat -> pyslice start stop l !! i = l !! (start + i)%nat.
Proof. intros Hi. unfold pyslice. by rewrite lookup_take_lt, lookup_drop. Qed.

Lemma pyslice_length (start stop : nat) l :
  (stop <= length l)%nat -> length (pyslice start stop l) = (stop - start)%nat.
Proof. intros Hl. unfold pyslice. rewrite length_take, length_drop. lia. Qed.

End ChunkFacts.

Section ProcessFacts.
Context `{ImageLibSpec}.

Lemma crop_rect (screen : plane) :
  rect 110 84 screen -> rect 84 84 (ProcessFrame84.crop screen).
Proof.
  intros [Hlen Hrows]. unfold ProcessFrame84.crop. split.
  - rewrite pyslice_length; lia.
  - unfold pyslice. by apply Forall_take, Forall_drop.
Qed.

Lemma reshape_84_84_1_ok (x_t : plane) :
  rect 84 84 x_t ->
  ProcessFrame84.reshape_84_84_1 x_t = Ok (map2d (fun x => [x]) x_t).
Proof.
  intros [Hlen Hrows]. unfold ProcessFrame84.reshape_84_84_1.
  pose proof (length_concat_rows 84 x_t Hrows) as Hflat. rewrite Hlen in Hflat.
  rewrite bool_decide_true by (rewrite Hflat; lia).
  f_equal. rewrite <- Hflat, chunks_singletons.
  unfold map2d. rewrite concat_map.
  rewrite <- Hlen at 1. rewrite <- (length_map (map (fun x => [x])) x_t).
  apply chunks_concat. apply Forall_fmap.
  eapply Forall_impl; [exact Hrows|]. intros r Hr; simpl. by rewrite length_map.
Qed.

(** The gray value at row [i], column [j] of a frame of [rows] by 160
    pixels: the weighted sum of its three channels, in float32. *)
Lemma grayscale_pixel (frame : ndarray) (rows i j : nat) (r g b : Z) :
  (i < rows)%nat -> (j < 160)%nat ->
  data frame !! (3 * (i * 160 + j))%nat = Some r ->
  data frame !! (3 * (i * 160 + j) + 1)%nat = Some g ->
  data frame !! (3 * (i * 160 + j) + 2)%nat = Some b ->
  exists row,
    ProcessFrame84.grayscale (ProcessFrame84.reshape_float32 rows 160 frame) !! i = Some row /\
    row !! j = Some
      (Float32.add
         (Float32.add (Float32.mul (Float32.of_Z r) ProcessFrame84.w_red)
                      (Float32.mul (Float32.of_Z g) ProcessFrame84.w_green))
         (Float32.mul (Float32.of_Z b) ProcessFrame84.w_blue)).
Proof.
  intros Hi Hj Hr Hg Hb.
  unfold ProcessFrame84.grayscale, ProcessFrame84.reshape_float32, map2d.
  set (d := map Float32.of_Z (data frame)).
  set (pixels := chunks (rows * 160) 3 d).
  exists (map ProcessFrame84.luminance (take 160 (drop (i * 160) pixels))). split.
  - rewrite lookup_map, chunks_lookup by exact Hi. reflexivity.
  - rewrite lookup_map, lookup_take_lt, lookup_drop by exact Hj.
    unfold pixels. rewrite chunks_lookup by lia. cbn [fmap option_fmap option_map].
    f_equal. unfold ProcessFrame84.luminance.
    assert (Hd : forall c x, data frame !! (3 * (i * 160 + j) + c)%nat = Some x ->
                 (c < 3)%nat ->
                 nth c (take 3 (drop ((i * 160 + j) * 3) d)) S754_nan = Float32.of_Z x).
    { intros c x Hx Hc. apply nth_lookup_Some.
      rewrite lookup_take_lt, lookup_drop by exact Hc. unfold d.
      rewrite lookup_map.
      replace ((i * 160 + j) * 3 + c)%nat with (3 * (i * 160 + j) + c)%nat by lia.
      by rewrite Hx. }
    rewrite (Hd 0%nat r), (Hd 1%nat g), (Hd 2%nat b); try lia; try done.
    by rewrite Nat.add_0_r.
Qed.

(** On a frame of a known resolution [process] succeeds, and its result is
    the crop of the resized gray image, pixel by pixel cast to [uint8]. *)
Lemma process_ok (frame : ndarray) (rows : nat) :
  (ndarray_size frame = 210 * 160 * 3 /\ rows = 210%nat) \/
  (ndarray_size frame = 250 * 160 * 3 /\ rows = 250%nat) ->
  ProcessFrame84.process frame =
    Ok (map3d astype_uint8
          (map2d (fun x => [x])
             (ProcessFrame84.crop
                (cv2_resize_area
                   (ProcessFrame84.grayscale (ProcessFrame84.reshape_float32 rows 160 frame))
                   84 110)))).
Proof.
  intros Hsize.
  set (gray := ProcessFrame84.grayscale (ProcessFrame84.reshape_float32 rows 160 frame)).
  pose proof (crop_rect _ (cv2_resize_shape gray 84 110)) as Hcrop.
  unfold ProcessFrame84.process.
  destruct Hsize as [[Hs Hr]|[Hs Hr]]; rewrite Hs; subst rows.
  - rewrite Z.eqb_refl, bind_Ok_l. fold gray.
    by rewrite (reshape_84_84_1_ok _ Hcrop), bind_Ok_l.
  - replace (250 * 160 * 3 =? 210 * 160 * 3) with false by reflexivity.
    rewrite Z.eqb_refl, bind_Ok_l. fold gray.
    by rewrite (reshape_84_84_1_ok _ Hcrop), bind_Ok_l.
Qed.

(** C2, as the code has it. For a frame of 210 or 250 rows of 160 RGB
    pixels, [process] returns an 84 by 84 by 1 array of bytes: the gray
    image (per pixel, the float32 sum of the three channels weighted by
    0.299, 0.587 and 0.114) is resized to 110 rows of 84 columns, and the
    output keeps rows 18 to 101 of the resized image, each value cast to
    [uint8]. *)
Theorem ProcessFrame84_process_spec (frame : ndarray) (rows : nat) :
  (ndarray_size frame = 210 * 160 * 3 /\ rows = 210%nat) \/
  (ndarray_size frame = 250 * 160 * 3 /\ rows = 250%nat) ->
  length (data frame) = Z.to_nat (ndarray_size frame) ->
  let gray := ProcessFrame84.grayscale (ProcessFrame84.reshape_float32 rows 160 frame) in
  let resized := cv2_resize_area gray 84 110 in
  exists out : list (list (list Z)),
    ProcessFrame84.process frame = Ok out /\
    length out = 84%nat /\
    Forall (fun row => length row = 84%nat /\
                       Forall (fun px => exists v, px = [v] /\ 0 <= v < 256) row) out /\
    (forall i j : nat, (i < 84)%nat -> (j < 84)%nat ->
       exists (srow : list spec_float) (x : spec_float) (orow : list (list Z)),
         resized !! (18 + i)%nat = Some srow /\ srow !! j = Some x /\
         out !! i = Some orow /\ orow !! j = Some [astype_uint8 x]) /\
    (forall i j : nat, (i < rows)%nat -> (j < 160)%nat ->
       exists (grow : list spec_float) (r g b : Z),
         data frame !! (3 * (i * 160 + j))%nat = Some r /\
         data frame !! (3 * (i * 160 + j) + 1)%nat = Some g /\
         data frame !! (3 * (i * 160 + j) + 2)%nat = Some b /\
         gray !! i = Some grow /\
         grow !! j = Some
           (Float32.add
              (Float32.add (Float32.mul (Float32.of_Z r) ProcessFrame84.w_red)
                           (Float32.mul (Float32.of_Z g) ProcessFrame84.w_green))
              (Float32.mul (Float32.of_Z b) ProcessFrame84.w_blue))).
Proof.
  intros Hsize Hwf gray resized.
  pose proof (cv2_resize_shape gray 84 110) as Hresized. fold resized in Hresized.
  pose proof (crop_rect resized Hresized) as Hcrop.
  pose proof (process_ok frame rows Hsize) as Hproc. fold gray resized in Hproc.
  destruct Hcrop as [Hclen Hcrows]. destruct Hresized as [Hrlen Hrrows].
  eexists. split; [exact Hproc|]. unfold map3d, map2d.
  split; [by rewrite !length_map|]. split; [|split].
  - apply Forall_fmap, Forall_fmap.
    eapply Forall_impl; [exact Hcrows|]. intros row Hrow.
    cbn [compose]. split; [by rewrite !length_map|].
    apply Forall_fmap, Forall_fmap, Forall_forall. intros x _.
    cbn [compose map]. eexists. split; [reflexivity|]. apply astype_uint8_range.
  - intros i j Hi Hj.
    destruct (lookup_lt_is_Some_2 resized (18 + i)) as [srow Hsrow]; [lia|].
    assert (Hsl : length srow = 84%nat).
    { apply (proj1 (Forall_forall _ _) Hrrows). eapply list_elem_of_lookup_2, Hsrow. }
    destruct (lookup_lt_is_Some_2 srow j) as [x Hx]; [lia|].
    exists srow, x. eexists. split; [exact Hsrow|]. split; [exact Hx|].
    rewrite !lookup_map.
    unfold ProcessFrame84.crop. rewrite pyslice_lookup by lia. rewrite Hsrow.
    cbn [fmap option_fmap option_map]. split; [reflexivity|].
    rewrite !lookup_map, Hx. reflexivity.
  - intros i j Hi Hj.
    assert (Hlen : length (data frame) = (rows * 160 * 3)%nat).
    { rewrite Hwf. destruct Hsize as [[-> ->]|[-> ->]]; lia. }
    destruct (lookup_lt_is_Some_2 (data frame) (3 * (i * 160 + j))) as [r Hr]; [lia|].
    destruct (lookup_lt_is_Some_2 (data frame) (3 * (i * 160 + j) + 1)) as [g Hg]; [lia|].
    destruct (lookup_lt_is_Some_2 (data frame) (3 * (i * 160 + j) + 2)) as [b Hb]; [lia|].
    destruct (grayscale_pixel frame rows i j r g b Hi Hj Hr Hg Hb) as (grow & Hgrow & Hpx).
    exists grow, r, g, b. repeat (split; [assumption|]). exact Hpx.
Qed.

End ProcessFacts.

Lemma flat_lib_spec : @ImageLibSpec flat_lib.
Proof.
  split.
  - intros img width height. split; [apply length_replicate|].
    apply Forall_replicate, length_replicate.
  - intros x. apply Z.mod_pos_bound. lia.
Qed.

Lemma black_frame_size : ndarray_size black_frame = 210 * 160 * 3.
Proof. unfold ndarray_size, black_frame; cbn [shape foldr]. lia. Qed.

Lemma ProcessFrame84_process_spec_witness :
  ndarray_size black_frame = 210 * 160 * 3 /\
  is_Ok (@ProcessFrame84.process flat_lib black_frame).
Proof.
  split; [exact black_frame_size|].
  destruct (@ProcessFrame84_process_spec flat_lib flat_lib_spec black_frame 210
              (or_introl (conj black_frame_size eq_refl)))
    as (out & Hout & _).
  - rewrite black_frame_size. unfold black_frame; cbn [data].
    rewrite length_replicate. lia.
  - exists out. exact Hout.
Defined.

Lemma ramp_lib_spec : @ImageLibSpec ramp_lib.
Proof.
  split.
  - intros img width height. split.
    + cbn. by rewrite length_map, length_seq.
    + cbn. apply Forall_fmap, Forall_forall. intros i _. apply length_replicate.
  - intros x. apply Z.mod_pos_bound. lia.
Qed.

(** C2 as stated fails at the crop. When the resized screen has the value
    [i] all along row [i], the output of [process] is the cast of rows 18
    to 101 of the screen, starting with the value 18, while the central 84
    of the 110 rows are rows 13 to 96, starting with 13. *)
Lemma ProcessFrame84_crop_not_central :
  @ProcessFrame84.process ramp_lib black_frame =
    Ok (map3d (@astype_uint8 ramp_lib)
          (map2d (fun x => [x]) (ProcessFrame84.crop ramp_screen))) /\
  top_left (ProcessFrame84.crop ramp_screen) = Some (Float32.of_Z 18) /\
  top_left (central_crop 84 ramp_screen) = Some (Float32.of_Z 13) /\
  ProcessFrame84.crop ramp_screen <> central_crop 84 ramp_screen.
Proof.
  split; [|split; [|split]].
  - exact (@process_ok ramp_lib ramp_lib_spec black_frame 210
             (or_introl (conj black_frame_size eq_refl))).
  - vm_compute. reflexivity.
  - vm_compute. reflexivity.
  - intros Heq. apply (f_equal top_left) in Heq. vm_compute in Heq. discriminate.
Qed.

(** ** The temporal-difference target *)

Section TDTargetFacts.

Lemma Float32_add_comm (x y : spec_float) : Float32.add x y = Float32.add y x.
Proof.
  unfold Float32.add, SFadd.
  destruct x as [sx|sx| |sx mx ex], y as [sy|sy| |sy my ey];
    try reflexivity; try (destruct sx, sy; reflexivity).
  cbv zeta. rewrite (Z.min_comm ey ex). f_equal. apply Z.add_comm.
Qed.

Lemma Float32_mul_comm (x y : spec_float) : Float32.mul x y = Float32.mul y x.
Proof.
  unfold Float32.mul, SFmul.
  destruct x as [sx|sx| |sx mx ex], y as [sy|sy| |sy my ey];
    try reflexivity; try (destruct sx, sy; reflexivity).
  by rewrite (xorb_comm sy sx), (Pos.mul_comm my mx), (Z.add_comm ey ex).
Qed.

Lemma unsigned_zero_id (r : spec_float) : r <> S754_zero true -> unsigned_zero r = r.
Proof. destruct r as [[|]| | |]; simpl; congruence. Qed.

(** [0.0 * GAMMA + r] *)
Lemma zero_times_gamma_plus (r : spec_float) :
  Float32.add (Float32.mul Float32.zero GAMMA) r = unsigned_zero r.
Proof.
  replace (Float32.mul Float32.zero GAMMA) with (S754_zero false)
    by (vm_compute; reflexivity).
  destruct r as [[|]| | |]; reflexivity.
Qed.

Lemma max_dim1_ok (rows : list (list spec_float)) :
  Forall (fun row => row <> []) rows -> TDTarget.max_dim1 rows = Ok (map q_max rows).
Proof.
  induction 1 as [|row rows Hrow _ IH]; [reflexivity|].
  cbn [TDTarget.max_dim1 map]. destruct row as [|x xs]; [done|].
  cbn [TDTarget.row_max q_max]. by rewrite bind_Ok_l, IH, bind_Ok_l.
Qed.

(** The three tensor operations on a well-shaped batch, in closed form. *)
Lemma expected_state_action_values_ok
    (target_out : list (list spec_float)) (dones : list Z) (rewards_v : list spec_float) :
  length target_out = length dones -> length dones = length rewards_v ->
  Forall (fun row => row <> []) target_out ->
  TDTarget.expected_state_action_values target_out dones rewards_v =
    Ok (zip_with Float32.add
          (map (fun v => Float32.mul v GAMMA)
             (zip_with (fun v d => if d =? 0 then v else Float32.zero)
                (map q_max target_out) dones))
          rewards_v).
Proof.
  intros Hlen1 Hlen2 Hrows.
  unfold TDTarget.expected_state_action_values.
  rewrite (max_dim1_ok target_out Hrows), bind_Ok_l.
  unfold TDTarget.masked_zero.
  rewrite bool_decide_true by (by rewrite length_map).
  rewrite bind_Ok_l. unfold TDTarget.discounted_plus, TDTarget.tensor_add.
  rewrite bool_decide_true
    by (rewrite length_map, length_zip_with_l_eq; rewrite length_map; congruence).
  reflexivity.
Qed.

(** For a batch whose three sequences have one length and whose rows of
    target action values are not empty, the target of transition [i] is
    [reward + 0.99 * max_a Q_target(next_state, a)] (float32 arithmetic,
    [0.99] as a float32) when its terminal flag is 0; when the flag is set
    it is the reward itself, whatever the target network returned: bit for
    bit unless the reward is [-0.0], for which it is [0.0]. *)
Theorem TDTarget_expected_spec
    (target_out : list (list spec_float)) (dones : list Z) (rewards_v : list spec_float) :
  length target_out = length dones -> length dones = length rewards_v ->
  Forall (fun row => row <> []) target_out ->
  exists expected : list spec_float,
    TDTarget.expected_state_action_values target_out dones rewards_v = Ok expected /\
    length expected = length rewards_v /\
    forall (i : nat) (row : list spec_float) (d : Z) (r : spec_float),
      target_out !! i = Some row -> dones !! i = Some d -> rewards_v !! i = Some r ->
      (d = 0 ->
         expected !! i = Some (Float32.add r (Float32.mul GAMMA (q_max row)))) /\
      (d <> 0 ->
         expected !! i = Some (unsigned_zero r) /\
         (r <> S754_zero true -> expected !! i = Some r)).
Proof.
  intros Hlen1 Hlen2 Hrows.
  rewrite (expected_state_action_values_ok target_out dones rewards_v Hlen1 Hlen2 Hrows).
  eexists. split; [reflexivity|]. split.
  - rewrite length_zip_with_r_eq; [done|].
    rewrite length_map, length_zip_with_l_eq; rewrite length_map; congruence.
  - intros i row d r Hrow Hd Hr.
    rewrite lookup_zip_with, lookup_map, lookup_zip_with, lookup_map, Hrow, Hd, Hr.
    cbn [fmap option_fmap option_map mbind option_bind].
    split.
    + intros ->. cbn [Z.eqb]. by rewrite Float32_add_comm, (Float32_mul_comm GAMMA).
    + intros Hne. destruct (Z.eqb_spec d 0) as [|_]; [contradiction|].
      rewrite zero_times_gamma_plus. split; [reflexivity|].
      intros Hr0. by rewrite unsigned_zero_id.
Qed.

End TDTargetFacts.

Lemma TDTarget_expected_spec_witness :
  TDTarget.expected_state_action_values
    [[Float32.of_Z 1; Float32.of_Z 3; Float32.of_Z 2]; [Float32.of_Z 5; Float32.of_Z 4]]
    [0; 1] [Float32.of_Z 1; Float32.of_Z (-1)]
  = Ok [Float32.add (Float32.of_Z 1) (Float32.mul GAMMA (Float32.of_Z 3)); Float32.of_Z (-1)].
Proof.
  destruct (TDTarget_expected_spec
              [[Float32.of_Z 1; Float32.of_Z 3; Float32.of_Z 2]; [Float32.of_Z 5; Float32.of_Z 4]]
              [0; 1] [Float32.of_Z 1; Float32.of_Z (-1)]
              eq_refl eq_refl ltac:(repeat constructor; discriminate))
    as (expected & -> & Hlen & Hat).
  destruct (Hat 0%nat _ 0 _ eq_refl eq_refl eq_refl) as [H0 _].
  destruct (Hat 1%nat _ 1 _ eq_refl eq_refl eq_refl) as [_ H1].
  specialize (H0 eq_refl). destruct (H1 ltac:(discriminate)) as [_ H1'].
  specialize (H1' ltac:(vm_compute; discriminate)).
  destruct expected as [|a [|b [|c tl]]]; try discriminate.
  simpl in H0, H1'. by injection H0 as ->; injection H1' as ->.
Defined.

(** ** Parameters: who writes what *)

Section NetFacts.
Context {T : Type}.
Implicit Types (st : gmap loc T) (l t q : loc).

Lemma copy_all_other (pairs : list (loc * loc)) : forall st l,
  l ∉ pairs.*1 -> copy_all st pairs !! l = st !! l.
Proof.
  induction pairs as [|[t q] pairs IH]; intros st l Hl; [reflexivity|].
  cbn [copy_all foldl]. fold (copy_all (match st !! q with
                                        | Some v => <[t := v]> st
                                        | None => st
                                        end) pairs).
  rewrite fmap_cons, not_elem_of_cons in Hl. destruct Hl as [Hne Hl]. simpl in Hne.
  rewrite IH by exact Hl.
  destruct (st !! q); [by rewrite lookup_insert_ne | reflexivity].
Qed.

Lemma write_all_other (pairs : list (loc * T)) : forall st l,
  l ∉ pairs.*1 -> write_all st pairs !! l = st !! l.
Proof.
  induction pairs as [|[t v] pairs IH]; intros st l Hl; [reflexivity|].
  cbn [write_all foldl]. fold (write_all (<[t := v]> st) pairs).
  rewrite fmap_cons, not_elem_of_cons in Hl. destruct Hl as [Hne Hl]. simpl in Hne.
  rewrite IH by exact Hl. by rewrite lookup_insert_ne.
Qed.

Lemma copy_all_allocated (pairs : list (loc * loc)) : forall st l,
  is_Some (st !! l) -> is_Some (copy_all st pairs !! l).
Proof.
  induction pairs as [|[t q] pairs IH]; intros st l Hl; [exact Hl|].
  cbn [copy_all foldl]. apply IH.
  destruct (st !! q); [|exact Hl].
  destruct (decide (t = l)) as [->|Hne];
    [rewrite lookup_insert_eq; eauto | by rewrite lookup_insert_ne].
Qed.

Lemma write_all_allocated (pairs : list (loc * T)) : forall st l,
  is_Some (st !! l) -> is_Some (write_all st pairs !! l).
Proof.
  induction pairs as [|[t v] pairs IH]; intros st l Hl; [exact Hl|].
  cbn [write_all foldl]. apply IH.
  destruct (decide (t = l)) as [->|Hne];
    [rewrite lookup_insert_eq; eauto | by rewrite lookup_insert_ne].
Qed.

Lemma elem_of_zip_fst {A B} (l : list A) (k : list B) (x : A) :
  x ∈ (zip l k).*1 -> x ∈ l.
Proof.
  revert k; induction l as [|a l IH]; intros [|b k]; simpl; try by intros ?%elem_of_nil.
  rewrite !elem_of_cons. intros [->|Hx]; [by left | right; eauto].
Qed.

(** After the copy every target tensor holds what its source held, and
    nothing but the targets has changed. *)
Lemma copy_all_copies (ts : list loc) : forall (qs : list loc) st,
  NoDup ts -> (forall t, t ∈ ts -> t ∉ qs) -> length ts = length qs ->
  Forall (fun q => is_Some (st !! q)) qs ->
  Forall2 (fun t q => copy_all st (zip ts qs) !! t = st !! q) ts qs.
Proof.
  induction ts as [|t ts IH]; intros [|q qs] st Hnd Hdisj Hlen Halloc;
    try discriminate; [constructor|].
  apply NoDup_cons in Hnd as [Hnt Hnd].
  apply Forall_cons in Halloc as [[v Hv] Halloc].
  cbn [zip zip_with copy_all foldl]. rewrite Hv.
  fold (copy_all (<[t := v]> st) (zip ts qs)).
  assert (Htq : forall q', q' ∈ q :: qs -> t <> q').
  { intros q' Hq' ->. by apply (Hdisj q'); [left|]. }
  constructor.
  - rewrite copy_all_other by (intros Hin%elem_of_zip_fst; contradiction).
    by rewrite lookup_insert_eq.
  - assert (IH' : Forall2 (fun t' q' => copy_all (<[t := v]> st) (zip ts qs) !! t'
                                        = <[t := v]> st !! q') ts qs).
    { apply IH; [exact Hnd | | by injection Hlen |].
      - intros t' Ht' Hq'. apply (Hdisj t'); [by right | by right].
      - eapply Forall_impl; [exact Halloc|]. intros q' [w Hw]; simpl.
        destruct (decide (t = q')) as [->|Hne];
          [rewrite lookup_insert_eq; eauto | rewrite lookup_insert_ne; eauto]. }
    clear IH. revert IH'. generalize (copy_all (<[t := v]> st) (zip ts qs)) as st'.
    intros st' IH'.
    assert (Hqs : forall q', q' ∈ qs -> t <> q') by (intros q' Hq'; apply Htq; by right).
    clear -IH' Hqs. induction IH' as [|t' q' ts qs Heq _ IHF]; constructor.
    + rewrite Heq. apply lookup_insert_ne, Hqs. by left.
    + apply IHF. intros q'' Hq''. apply Hqs. by right.
Qed.

Lemma values_Forall2 st st' (ts qs : list loc) :
  Forall2 (fun t q => st' !! t = st !! q) ts qs -> Net.values st' ts = Net.values st qs.
Proof.
  unfold Net.values. induction 1 as [|t q ts qs Heq _ IH]; [reflexivity|].
  cbn [omap list_omap]. fold (omap (fun l => st' !! l) ts) (omap (fun l => st !! l) qs).
  rewrite Heq. destruct (st !! q); by rewrite IH.
Qed.

Lemma values_same st st' (ls : list loc) :
  (forall l, l ∈ ls -> st' !! l = st !! l) -> Net.values st' ls = Net.values st ls.
Proof.
  intros Hsame. apply values_Forall2.
  induction ls as [|l ls IH]; constructor.
  - apply Hsame. by left.
  - apply IH. intros l' Hl'. apply Hsame. by right.
Qed.

(** [load_state_dict] between two distinct networks of the same
    architecture: the target takes the source's values, the source keeps
    its own, and no other tensor changes. *)
Lemma load_state_dict_spec st (self src : list loc) :
  NoDup self -> (forall t, t ∈ self -> t ∉ src) -> length self = length src ->
  Forall (fun q => is_Some (st !! q)) src ->
  exists st', Net.load_state_dict st self src = Ok st' /\
    Net.values st' self = Net.values st src /\
    (forall l, l ∉ self -> st' !! l = st !! l) /\
    (forall l, is_Some (st !! l) -> is_Some (st' !! l)).
Proof.
  intros Hnd Hdisj Hlen Halloc. unfold Net.load_state_dict.
  rewrite bool_decide_true by exact Hlen.
  fold (copy_all st (zip self src)).
  eexists. split; [reflexivity|]. split; [|split].
  - apply values_Forall2. by apply copy_all_copies.
  - intros l Hl. apply copy_all_other. intros Hin%elem_of_zip_fst. contradiction.
  - intros l. apply copy_all_allocated.
Qed.

End NetFacts.

Section StepFacts.
Context {T Obs : Type} `{Backend T Obs}.

(** [optimizer.step()] writes the tensors the optimizer holds and no
    other. *)
Lemma step_other (st : gmap loc T) (opt : Net.optimizer adam_state) (grads : list T) (l : loc) :
  l ∉ Net.opt_params opt -> (Net.step st opt grads).1 !! l = st !! l.
Proof.
  intros Hl. unfold Net.step.
  destruct (adam _ _ _) as [s' new_values]. cbn [fst].
  fold (write_all st (zip (Net.opt_params opt) new_values)).
  apply write_all_other. intros Hin%elem_of_zip_fst. contradiction.
Qed.

Lemma step_allocated (st : gmap loc T) (opt : Net.optimizer adam_state) (grads : list T) (l : loc) :
  is_Some (st !! l) -> is_Some ((Net.step st opt grads).1 !! l).
Proof.
  intros Hl. unfold Net.step.
  destruct (adam _ _ _) as [s' new_values]. cbn [fst].
  by apply (write_all_allocated (zip (Net.opt_params opt) new_values)).
Qed.

Lemma step_opt_params (st : gmap loc T) (opt : Net.optimizer adam_state) (grads : list T) :
  Net.opt_params (Net.step st opt grads).2 = Net.opt_params opt.
Proof. unfold Net.step. by destruct (adam _ _ _). Qed.

End StepFacts.

(** ** The training loop *)

Section NewFacts.
Context {T : Type}.

(** [DQN(...)] creates tensors that were not there before, all distinct,
    and touches no existing tensor. *)
Lemma new_spec (vs : list T) : forall (st st' : gmap loc T) (ls : list loc),
  Net.new st vs = (st', ls) ->
  NoDup ls /\ length ls = length vs /\
  (forall l, l ∈ ls -> (l ∉ dom st) /\ is_Some (st' !! l)) /\
  (forall l, l ∈ dom st -> st' !! l = st !! l).
Proof.
  induction vs as [|v vs IH]; intros st st' ls Hnew; cbn [Net.new] in Hnew.
  - injection Hnew as <- <-. split; [constructor|]. split; [reflexivity|].
    split; [by intros l ?%elem_of_nil | reflexivity].
  - destruct (Net.new (<[fresh (dom st) := v]> st) vs) as [st1 ls1] eqn:Hrec.
    injection Hnew as <- <-.
    destruct (IH _ _ _ Hrec) as (Hnd & Hlen & Hnew & Hold).
    assert (Hfresh : fresh (dom st) ∉ dom st) by apply is_fresh.
    assert (Hin : fresh (dom st) ∈ dom (<[fresh (dom st) := v]> st))
      by (rewrite dom_insert_L; by apply elem_of_union_l, elem_of_singleton_2).
    split; [|split; [|split]].
    + constructor; [|exact Hnd]. intros Hl. by destruct (Hnew _ Hl) as [Hl' _].
    + cbn [length]. by rewrite Hlen.
    + intros l [->|Hl]%elem_of_cons.
      * split; [exact Hfresh|]. rewrite Hold by exact Hin. rewrite lookup_insert_eq. eauto.
      * destruct (Hnew l Hl) as [Hnl Hsome]. split; [|exact Hsome].
        intros Hd. apply Hnl. rewrite dom_insert_L. by apply elem_of_union_r.
    + intros l Hl. rewrite Hold by (rewrite dom_insert_L; by apply elem_of_union_r).
      apply lookup_insert_ne. intros <-. contradiction.
Qed.

End NewFacts.

Section LoopFacts.
Context {T Obs : Type} `{Backend T Obs} `{GymEnv Obs}.
Implicit Types (g : TrainingLoop.globals) (o : Oracle).

(** Cell 21 leaves the networks well formed and synchronized. *)
Lemma setup_wf (e0 : gym_state) (q_init target_init : list T) (adam0 : adam_state) g :
  TrainingLoop.setup e0 q_init target_init adam0 = Ok g ->
  wf g /\ target_values g = q_values g /\ buffer_len g = 0 /\
  TrainingLoop.frame_idx g = 0 /\ TrainingLoop.trace g = [].
Proof.
  unfold TrainingLoop.setup.
  destruct (Net.new ∅ q_init) as [st1 q] eqn:Hq.
  destruct (Net.new st1 target_init) as [st2 tgt] eqn:Ht.
  destruct (new_spec _ _ _ _ Hq) as (Hndq & Hlq & Hnewq & _).
  destruct (new_spec _ _ _ _ Ht) as (Hndt & Hlt & Hnewt & Holdt).
  intros Hs. inv_bind Hs. rename a into st3, E into Hload.
  inv_bind Hs. rename a into rb, E into Hrb.
  inv_bind Hs. destruct a as [e s]. injection Hs as <-.
  assert (Hdisj : forall l, l ∈ tgt -> l ∉ q).
  { intros l Hl Hlq'. destruct (Hnewt l Hl) as [Hnd _]. apply Hnd.
    apply elem_of_dom. by destruct (Hnewq l Hlq'). }
  assert (Halloc : Forall (fun l => is_Some (st2 !! l)) q).
  { apply Forall_forall. intros l Hl. destruct (Hnewq l Hl) as [_ Hsome].
    rewrite Holdt; [exact Hsome | by apply elem_of_dom]. }
  assert (Hlen : length tgt = length q).
  { unfold Net.load_state_dict in Hload.
    destruct (bool_decide (length tgt = length q)) eqn:Hb; [|discriminate].
    by apply bool_decide_eq_true in Hb. }
  destruct (load_state_dict_spec st2 tgt q Hndt Hdisj Hlen Halloc)
    as (st3' & Hload' & Hvals & Hother & Hkeep).
  rewrite Hload in Hload'. injection Hload' as <-.
  apply ReplayBuffer_init_inv in Hrb as [_ ->].
  unfold wf, target_values, q_values, buffer_len.
  cbn [TrainingLoop.params TrainingLoop.q_network TrainingLoop.target_network
       TrainingLoop.optimizer TrainingLoop.replay_buffer TrainingLoop.frame_idx
       TrainingLoop.trace Net.opt_params].
  split_and!; try done.
  - eapply Forall_impl; [exact Halloc|]. intros l; apply Hkeep.
  - rewrite Hvals. symmetry. apply values_same.
    intros l Hl. apply Hother. intros Hl'. by apply (Hdisj l).
Qed.

(** The collection phase: one more frame, one more transition, and no
    write to any parameter. *)
Lemma collect_spec g o g1 fl :
  TrainingLoop.collect g o = Ok (g1, fl) ->
  TrainingLoop.params g1 = TrainingLoop.params g /\
  TrainingLoop.q_network g1 = TrainingLoop.q_network g /\
  TrainingLoop.target_network g1 = TrainingLoop.target_network g /\
  TrainingLoop.optimizer g1 = TrainingLoop.optimizer g /\
  TrainingLoop.trace g1 = TrainingLoop.trace g /\
  TrainingLoop.frame_idx g1 = TrainingLoop.frame_idx g + 1 /\
  exists exp, TrainingLoop.replay_buffer g1 =
              ReplayBuffer.append (TrainingLoop.replay_buffer g) exp.
Proof.
  unfold TrainingLoop.collect. intros Hc. inv_bind Hc.
  destruct a as [e [[next_state reward] done]].
  destruct done.
  - inv_bind Hc. destruct a as [e' s]. injection Hc as <- <-. cbn. eauto 10.
  - injection Hc as <- <-. cbn. eauto 10.
Qed.

Lemma sync_target_spec g :
  wf g ->
  exists g2, TrainingLoop.sync_target g = Ok g2 /\
    wf g2 /\
    TrainingLoop.q_network g2 = TrainingLoop.q_network g /\
    TrainingLoop.target_network g2 = TrainingLoop.target_network g /\
    TrainingLoop.optimizer g2 = TrainingLoop.optimizer g /\
    TrainingLoop.replay_buffer g2 = TrainingLoop.replay_buffer g /\
    TrainingLoop.frame_idx g2 = TrainingLoop.frame_idx g /\
    q_values g2 = q_values g /\
    (TrainingLoop.frame_idx g mod TARGET_UPDATE = 0 ->
       TrainingLoop.trace g2 = TrainingLoop.trace g ++ [TargetSync (TrainingLoop.frame_idx g)] /\
       target_values g2 = q_values g) /\
    (TrainingLoop.frame_idx g mod TARGET_UPDATE <> 0 -> g2 = g).
Proof.
  intros (Hnd & Hdisj & Hlen & Halloc & Hopt). unfold TrainingLoop.sync_target.
  destruct (Z.eqb_spec (TrainingLoop.frame_idx g mod TARGET_UPDATE) 0) as [Hmod|Hmod].
  - destruct (load_state_dict_spec (TrainingLoop.params g) _ _ Hnd Hdisj Hlen Halloc)
      as (st' & Hload & Hvals & Hother & Hkeep).
    rewrite Hload, bind_Ok_l. eexists. split; [reflexivity|].
    assert (Hq : Net.values st' (TrainingLoop.q_network g) = q_values g).
    { apply values_same. intros l Hl. apply Hother. intros Hl'. by apply (Hdisj l). }
    unfold wf, q_values, target_values.
    cbn [TrainingLoop.params TrainingLoop.q_network TrainingLoop.target_network
         TrainingLoop.optimizer TrainingLoop.replay_buffer TrainingLoop.frame_idx
         TrainingLoop.trace].
    split_and!; try done.
    eapply Forall_impl; [exact Halloc|]. intros l; apply Hkeep.
  - exists g. split; [reflexivity|]. unfold wf. split_and!; done.
Qed.

(** The learning phase writes the optimizer's tensors; it leaves the
    target's alone. *)
Lemma learn_spec g o g3 :
  wf g -> TrainingLoop.learn g o = Ok g3 ->
  wf g3 /\
  target_values g3 = target_values g /\
  TrainingLoop.q_network g3 = TrainingLoop.q_network g /\
  TrainingLoop.target_network g3 = TrainingLoop.target_network g /\
  TrainingLoop.replay_buffer g3 = TrainingLoop.replay_buffer g /\
  TrainingLoop.frame_idx g3 = TrainingLoop.frame_idx g /\
  TrainingLoop.trace g3 = TrainingLoop.trace g ++ [LearnStep (TrainingLoop.frame_idx g)].
Proof.
  intros (Hnd & Hdisj & Hlen & Halloc & Hopt). unfold TrainingLoop.learn.
  intros Hl. inv_bind Hl. rename a into batch. inv_bind Hl. rename a into expected.
  set (grads := backward _ _ _ _) in Hl.
  pose proof (step_other (TrainingLoop.params g) (TrainingLoop.optimizer g) grads) as Hother.
  pose proof (step_allocated (TrainingLoop.params g) (TrainingLoop.optimizer g) grads) as Hkeep.
  pose proof (step_opt_params (TrainingLoop.params g) (TrainingLoop.optimizer g) grads) as Hp.
  destruct (Net.step _ _ grads) as [st opt]. cbn [fst snd] in *.
  injection Hl as <-. unfold wf, target_values.
  cbn [TrainingLoop.params TrainingLoop.q_network TrainingLoop.target_network
       TrainingLoop.optimizer TrainingLoop.replay_buffer TrainingLoop.frame_idx
       TrainingLoop.trace].
  split_and!; try done.
  - eapply Forall_impl; [exact Halloc|]. intros l; apply Hkeep.
  - congruence.
  - apply values_same. intros l Hl. apply Hother. rewrite Hopt. by apply Hdisj.
Qed.

(** The learning phase completes whenever the buffer holds a batch and the
    generator's draw is a rearrangement of its positions. *)
Lemma learn_total `{!BackendSpec} g o :
  BATCH_SIZE <= buffer_len g ->
  rnd_permutation o ≡ₚ
    seq 0 (length (Deque.items (ReplayBuffer.buffer (TrainingLoop.replay_buffer g)))) ->
  is_Ok (TrainingLoop.learn g o).
Proof.
  intros Hlen Hperm. unfold TrainingLoop.learn.
  destruct (sample_in_range (TrainingLoop.replay_buffer g)
              (rnd_permutation o) BATCH_SIZE Hperm)
    as (indices & es & _ & _ & _ & Hsample).
  { unfold buffer_len in Hlen. unfold BATCH_SIZE in *. lia. }
  rewrite Hsample, bind_Ok_l. unfold batch_of; cbn [ReplayBuffer.next_states
    ReplayBuffer.dones ReplayBuffer.rewards ReplayBuffer.states ReplayBuffer.actions].
  rewrite expected_state_action_values_ok.
  - rewrite bind_Ok_l. destruct (Net.step _ _ _). eexists. reflexivity.
  - by rewrite !length_map.
  - by rewrite !length_map.
  - apply Forall_fmap, Forall_forall. intros s _. apply forward_nonempty.
Qed.

(** The three ways through one pass of the loop. *)
Lemma iteration_cases g o g' fl :
  TrainingLoop.iteration g o = Ok (g', fl) ->
  exists g1 fl1, TrainingLoop.collect g o = Ok (g1, fl1) /\
    ((fl1 = Break /\ g' = g1 /\ fl = Break) \/
     (fl1 = Continue /\ buffer_len g1 < INITIAL_MEMORY /\ g' = g1 /\ fl = Continue) \/
     (fl1 = Continue /\ INITIAL_MEMORY <= buffer_len g1 /\ fl = Continue /\
      exists g2, TrainingLoop.sync_target g1 = Ok g2 /\ TrainingLoop.learn g2 o = Ok g')).
Proof.
  unfold TrainingLoop.iteration. intros Hi. inv_bind Hi. destruct a as [g1 fl1].
  exists g1, fl1. split; [exact E|].
  destruct fl1.
  - fold (buffer_len g1) in Hi.
    destruct (Z.ltb_spec (buffer_len g1) INITIAL_MEMORY) as [Hlt|Hge].
    + injection Hi as <- <-. right; left. done.
    + inv_bind Hi. rename a into g2. inv_bind Hi. rename a into g3.
      injection Hi as <- <-. right; right. eauto 10.
  - injection Hi as <- <-. by left.
Qed.

End LoopFacts.

Section LoopTheorems.
Context {T Obs : Type} `{Backend T Obs} `{GymEnv Obs}.
Implicit Types (g : TrainingLoop.globals) (o : Oracle).

Lemma collect_wf g o g1 fl : wf g -> TrainingLoop.collect g o = Ok (g1, fl) -> wf g1.
Proof.
  intros Hwf Hc.
  destruct (collect_spec g o g1 fl Hc) as (Hp & Hq & Ht & Ho & _).
  unfold wf in *. by rewrite Hp, Hq, Ht, Ho.
Qed.

Lemma collect_values g o g1 fl :
  TrainingLoop.collect g o = Ok (g1, fl) ->
  q_values g1 = q_values g /\ target_values g1 = target_values g.
Proof.
  intros Hc. destruct (collect_spec g o g1 fl Hc) as (Hp & Hq & Ht & _).
  unfold q_values, target_values. by rewrite Hp, Hq, Ht.
Qed.

(** Well-formedness is an invariant of the loop: with [setup_wf], every
    state the notebook reaches is well formed. *)
Lemma iteration_wf g o g' fl : wf g -> TrainingLoop.iteration g o = Ok (g', fl) -> wf g'.
Proof.
  intros Hwf Hi.
  destruct (iteration_cases g o g' fl Hi) as (g1 & fl1 & Hc & Hcases).
  pose proof (collect_wf g o g1 fl1 Hwf Hc) as Hwf1.
  destruct Hcases as [(_ & -> & _)|[(_ & _ & -> & _)|(_ & _ & _ & g2 & Hs & Hl)]];
    try exact Hwf1.
  destruct (sync_target_spec g1 Hwf1) as (g2' & Hs' & Hwf2 & _).
  rewrite Hs in Hs'. injection Hs' as <-.
  by destruct (learn_spec g2 o g' Hwf2 Hl).
Qed.

Lemma run_wf (os : list Oracle) : forall g g',
  wf g -> TrainingLoop.run os g = Ok g' -> wf g'.
Proof.
  induction os as [|o os IH]; intros g g' Hwf Hrun; cbn [TrainingLoop.run] in Hrun.
  - by injection Hrun as <-.
  - destruct (TrainingLoop.frame_idx g <? total_frames); [|by injection Hrun as <-].
    inv_bind Hrun. destruct a as [g1 fl].
    pose proof (iteration_wf g o g1 fl Hwf E) as Hwf1.
    destruct fl; [by eapply IH | by injection Hrun as <-].
Qed.

(** C8. A gradient step never writes a target parameter; right after a
    synchronization the target holds the online values and the update that
    follows leaves them there; and over a whole pass of the loop the target
    either keeps its values or, exactly when the pass synchronized, holds
    the values the online network had before that pass's update. *)
Theorem target_parameters_only_synced g o :
  wf g ->
  (forall g3, TrainingLoop.learn g o = Ok g3 -> target_values g3 = target_values g) /\
  (forall g2 g3,
     TrainingLoop.frame_idx g mod TARGET_UPDATE = 0 ->
     TrainingLoop.sync_target g = Ok g2 -> TrainingLoop.learn g2 o = Ok g3 ->
     target_values g2 = q_values g /\ target_values g3 = target_values g2) /\
  (forall g' fl,
     TrainingLoop.iteration g o = Ok (g', fl) ->
     (target_values g' = target_values g /\
      (TrainingLoop.trace g' = TrainingLoop.trace g \/
       TrainingLoop.trace g' =
         TrainingLoop.trace g ++ [LearnStep (TrainingLoop.frame_idx g + 1)])) \/
     (target_values g' = q_values g /\
      TrainingLoop.trace g' =
        TrainingLoop.trace g ++ [TargetSync (TrainingLoop.frame_idx g + 1);
                                 LearnStep (TrainingLoop.frame_idx g + 1)])).
Proof.
  intros Hwf. split; [|split].
  - intros g3 Hl. by destruct (learn_spec g o g3 Hwf Hl) as (_ & Ht & _).
  - intros g2 g3 Hmod Hs Hl.
    destruct (sync_target_spec g Hwf) as (g2' & Hs' & Hwf2 & _ & _ & _ & _ & _ & _ & Hsync & _).
    rewrite Hs in Hs'. injection Hs' as <-.
    destruct (Hsync Hmod) as [_ Htq].
    split; [exact Htq|].
    by destruct (learn_spec g2 o g3 Hwf2 Hl) as (_ & Ht & _).
  - intros g' fl Hi.
    destruct (iteration_cases g o g' fl Hi) as (g1 & fl1 & Hc & Hcases).
    pose proof (collect_wf g o g1 fl1 Hwf Hc) as Hwf1.
    destruct (collect_values g o g1 fl1 Hc) as [Hq1 Ht1].
    destruct (collect_spec g o g1 fl1 Hc) as (_ & _ & _ & _ & Htr1 & Hf1 & _).
    destruct Hcases as [(_ & -> & _)|[(_ & _ & -> & _)|(_ & _ & _ & g2 & Hs & Hl)]].
    + left. split; [exact Ht1 | by left].
    + left. split; [exact Ht1 | by left].
    + destruct (sync_target_spec g1 Hwf1)
        as (g2' & Hs' & Hwf2 & _ & _ & _ & _ & Hf2 & _ & Hsync & Hnosync).
      rewrite Hs in Hs'. injection Hs' as <-.
      destruct (learn_spec g2 o g' Hwf2 Hl) as (_ & Ht3 & _ & _ & _ & _ & Htr3).
      destruct (Z.eq_dec (TrainingLoop.frame_idx g1 mod TARGET_UPDATE) 0) as [Hmod|Hmod].
      * right. destruct (Hsync Hmod) as [Htr2 Htq].
        split; [by rewrite Ht3, Htq|].
        rewrite Htr3, Htr2, Hf2, Htr1, Hf1. by rewrite <- app_assoc.
      * left. rewrite (Hnosync Hmod) in *.
        split; [by rewrite Ht3|]. right. by rewrite Htr3, Htr1, Hf1.
Qed.

(** C3, as the code has it. At a pass whose step count is a multiple of
    1000 and which the solved test does not stop: while the store is below
    the warm-up threshold the pass ends after the collection, without any
    synchronization; at or above the threshold the synchronization runs,
    before that pass's update, and right after it the target parameters
    equal the online parameters exactly; the update then moves only the
    online parameters, so the target ends the pass with the values the
    online network had before the update. *)
Theorem target_sync_schedule g o g1 :
  wf g ->
  TrainingLoop.collect g o = Ok (g1, Continue) ->
  TrainingLoop.frame_idx g1 mod TARGET_UPDATE = 0 ->
  (buffer_len g1 < INITIAL_MEMORY ->
     TrainingLoop.iteration g o = Ok (g1, Continue) /\
     TrainingLoop.trace g1 = TrainingLoop.trace g /\
     TrainingLoop.params g1 = TrainingLoop.params g) /\
  (INITIAL_MEMORY <= buffer_len g1 ->
     exists g2,
       TrainingLoop.sync_target g1 = Ok g2 /\
       TrainingLoop.trace g2 =
         TrainingLoop.trace g ++ [TargetSync (TrainingLoop.frame_idx g + 1)] /\
       target_values g2 = q_values g2 /\
       q_values g2 = q_values g /\
       TrainingLoop.iteration g o = (g3 ← TrainingLoop.learn g2 o; Ok (g3, Continue)) /\
       forall g3, TrainingLoop.learn g2 o = Ok g3 ->
         target_values g3 = q_values g /\
         TrainingLoop.trace g3 =
           TrainingLoop.trace g ++ [TargetSync (TrainingLoop.frame_idx g + 1);
                                    LearnStep (TrainingLoop.frame_idx g + 1)]).
Proof.
  intros Hwf Hc Hmod.
  pose proof (collect_wf g o g1 _ Hwf Hc) as Hwf1.
  destruct (collect_values g o g1 _ Hc) as [Hq1 Ht1].
  destruct (collect_spec g o g1 _ Hc) as (Hp1 & _ & _ & _ & Htr1 & Hf1 & _).
  split.
  - intros Hlt. split; [|split; [exact Htr1 | exact Hp1]].
    unfold TrainingLoop.iteration. rewrite Hc, bind_Ok_l. cbv beta iota.
    fold (buffer_len g1).
    by destruct (Z.ltb_spec (buffer_len g1) INITIAL_MEMORY); [|lia].
  - intros Hge.
    destruct (sync_target_spec g1 Hwf1)
      as (g2 & Hs & Hwf2 & _ & _ & _ & _ & Hf2 & Hq2 & Hsync & _).
    destruct (Hsync Hmod) as [Htr2 Htq].
    exists g2. split; [exact Hs|].
    split; [by rewrite Htr2, Htr1, Hf1|].
    split; [by rewrite Htq, Hq2|]. split; [by rewrite Hq2|]. split.
    + unfold TrainingLoop.iteration. rewrite Hc, bind_Ok_l. cbv beta iota.
      fold (buffer_len g1).
      destruct (Z.ltb_spec (buffer_len g1) INITIAL_MEMORY); [lia|].
      by rewrite Hs, bind_Ok_l.
    + intros g3 Hl.
      destruct (learn_spec g2 o g3 Hwf2 Hl) as (_ & Ht3 & _ & _ & _ & _ & Htr3).
      split; [by rewrite Ht3, Htq|].
      rewrite Htr3, Htr2, Hf2, Htr1, Hf1. by rewrite <- app_assoc.
Qed.

Lemma sync_target_keeps g g2 :
  TrainingLoop.sync_target g = Ok g2 ->
  TrainingLoop.replay_buffer g2 = TrainingLoop.replay_buffer g.
Proof.
  unfold TrainingLoop.sync_target.
  destruct (_ =? _); [|by intros [= <-]].
  intros Hs. inv_bind Hs. by injection Hs as <-.
Qed.

Lemma learn_keeps g o g3 :
  TrainingLoop.learn g o = Ok g3 ->
  TrainingLoop.replay_buffer g3 = TrainingLoop.replay_buffer g.
Proof.
  unfold TrainingLoop.learn. intros Hl. inv_bind Hl. inv_bind Hl.
  destruct (Net.step _ _ _). by injection Hl as <-.
Qed.

(** A pass appends exactly one transition to the store. *)
Lemma iteration_appends g o g' fl :
  TrainingLoop.iteration g o = Ok (g', fl) ->
  exists exp, TrainingLoop.replay_buffer g' =
              ReplayBuffer.append (TrainingLoop.replay_buffer g) exp.
Proof.
  intros Hi. destruct (iteration_cases g o g' fl Hi) as (g1 & fl1 & Hc & Hcases).
  destruct (collect_spec g o g1 fl1 Hc) as (_ & _ & _ & _ & _ & _ & exp & Hrb).
  exists exp.
  destruct Hcases as [(_ & -> & _)|[(_ & _ & -> & _)|(_ & _ & _ & g2 & Hs & Hl)]];
    try exact Hrb.
  by rewrite (learn_keeps _ _ _ Hl), (sync_target_keeps _ _ Hs).
Qed.

Lemma run_buffer_len (os : list Oracle) : forall g g',
  TrainingLoop.run os g = Ok g' ->
  buffer_len g <= buffer_len g' /\
  (Deque.maxlen (ReplayBuffer.buffer (TrainingLoop.replay_buffer g)) = REPLAY_MEMORY ->
   buffer_len g = INITIAL_MEMORY -> buffer_len g' = INITIAL_MEMORY).
Proof.
  induction os as [|o os IH]; intros g g' Hrun; cbn [TrainingLoop.run] in Hrun.
  - injection Hrun as <-. split; [lia | done].
  - destruct (TrainingLoop.frame_idx g <? total_frames); [|injection Hrun as <-; split; [lia|done]].
    inv_bind Hrun. destruct a as [g1 fl].
    destruct (iteration_appends g o g1 fl E) as (exp & Hrb).
    assert (Hstep : buffer_len g <= buffer_len g1 /\
      (Deque.maxlen (ReplayBuffer.buffer (TrainingLoop.replay_buffer g)) = REPLAY_MEMORY ->
       buffer_len g = INITIAL_MEMORY ->
       Deque.maxlen (ReplayBuffer.buffer (TrainingLoop.replay_buffer g1)) = REPLAY_MEMORY /\
       buffer_len g1 = INITIAL_MEMORY)).
    { unfold buffer_len, ReplayBuffer.len. rewrite Hrb. cbn [ReplayBuffer.append ReplayBuffer.buffer].
      split; [apply Deque_append_len_ge|].
      intros Hmax Hlen. split; [by rewrite Deque_append_maxlen|].
      rewrite Deque_append_len_full; [exact Hmax|].
      rewrite Hmax. exact Hlen. }
    destruct Hstep as [Hge Hfull].
    destruct fl.
    + destruct (IH g1 g' Hrun) as [Hge' Hfull'].
      split; [lia|]. intros Hmax Hlen. destruct (Hfull Hmax Hlen). by apply Hfull'.
    + injection Hrun as <-. split; [exact Hge|].
      intros Hmax Hlen. by destruct (Hfull Hmax Hlen).
Qed.

(** C10, as the code has it. Over any run of the loop the store never
    shrinks, and once it holds [INITIAL_MEMORY] transitions (its capacity)
    it holds that many for ever; from then on every pass that the solved
    test does not stop runs a learning step (given a network with at least
    one action and the generator's draw over the stored positions), and the
    pass at which the solved test stops the loop runs its environment step
    and no learning step. *)
Theorem learning_after_warmup `{!BackendSpec} g :
  wf g ->
  (forall os g', TrainingLoop.run os g = Ok g' -> buffer_len g <= buffer_len g') /\
  (Deque.maxlen (ReplayBuffer.buffer (TrainingLoop.replay_buffer g)) = REPLAY_MEMORY ->
   buffer_len g = INITIAL_MEMORY ->
   forall os g', TrainingLoop.run os g = Ok g' -> buffer_len g' = INITIAL_MEMORY) /\
  (INITIAL_MEMORY <= buffer_len g ->
   forall o g1 fl1,
     TrainingLoop.collect g o = Ok (g1, fl1) ->
     rnd_permutation o ≡ₚ
       seq 0 (length (Deque.items (ReplayBuffer.buffer (TrainingLoop.replay_buffer g1)))) ->
     match fl1 with
     | Continue =>
         exists g3, TrainingLoop.iteration g o = Ok (g3, Continue) /\
           wf g3 /\ INITIAL_MEMORY <= buffer_len g3 /\
           last (TrainingLoop.trace g3) = Some (LearnStep (TrainingLoop.frame_idx g + 1))
     | Break =>
         TrainingLoop.iteration g o = Ok (g1, Break) /\
         TrainingLoop.frame_idx g1 = TrainingLoop.frame_idx g + 1 /\
         TrainingLoop.trace g1 = TrainingLoop.trace g
     end).
Proof.
  intros Hwf. split; [|split].
  - intros os g' Hrun. by destruct (run_buffer_len os g g' Hrun).
  - intros Hmax Hlen os g' Hrun. destruct (run_buffer_len os g g' Hrun) as [_ Hfull]. eauto.
  - intros Hge o g1 fl1 Hc Hperm.
    destruct (collect_spec g o g1 fl1 Hc) as (_ & _ & _ & _ & Htr1 & Hf1 & exp & Hrb).
    pose proof (collect_wf g o g1 fl1 Hwf Hc) as Hwf1.
    assert (Hge1 : INITIAL_MEMORY <= buffer_len g1).
    { unfold buffer_len, ReplayBuffer.len in *. rewrite Hrb. cbn [ReplayBuffer.append ReplayBuffer.buffer].
      pose proof (Deque_append_len_ge (ReplayBuffer.buffer (TrainingLoop.replay_buffer g)) exp). lia. }
    destruct fl1.
    + destruct (sync_target_spec g1 Hwf1)
        as (g2 & Hs & Hwf2 & _ & _ & _ & Hrb2 & Hf2 & _).
      destruct (learn_total g2 o) as [g3 Hl].
      { unfold buffer_len. rewrite Hrb2. fold (buffer_len g1).
        unfold BATCH_SIZE, INITIAL_MEMORY in *. lia. }
      { by rewrite Hrb2. }
      destruct (learn_spec g2 o g3 Hwf2 Hl) as (Hwf3 & _ & _ & _ & Hrb3 & _ & Htr3).
      exists g3. split; [|split; [exact Hwf3|split]].
      * unfold TrainingLoop.iteration. rewrite Hc, bind_Ok_l. cbv beta iota.
        fold (buffer_len g1).
        destruct (Z.ltb_spec (buffer_len g1) INITIAL_MEMORY); [lia|].
        by rewrite Hs, bind_Ok_l, Hl, bind_Ok_l.
      * unfold buffer_len. rewrite Hrb3, Hrb2. exact Hge1.
      * rewrite Htr3, last_snoc, Hf2, Hf1. reflexivity.
    + split; [|split; [exact Hf1 | exact Htr1]].
      unfold TrainingLoop.iteration. by rewrite Hc, bind_Ok_l.
Qed.

End LoopTheorems.

(** ** Examples of the loop *)

Lemma toy_backend_spec : @BackendSpec Z unit toy_backend.
Proof. split. intros ps s. discriminate. Qed.

Lemma toy_globals_wf ending rb frame_idx :
  @wf Z unit toy_backend toy_env (toy_globals ending rb frame_idx).
Proof.
  unfold wf, toy_globals; cbn. split_and!.
  - apply NoDup_cons. split; [|apply NoDup_singleton].
    rewrite list_elem_of_singleton. lia.
  - intros l Hl Hq.
    rewrite !elem_of_cons, elem_of_nil in Hl. rewrite !elem_of_cons, elem_of_nil in Hq. lia.
  - reflexivity.
  - repeat constructor; eexists; reflexivity.
  - reflexivity.
Qed.

Lemma full_buffer_len : ReplayBuffer.len full_buffer = INITIAL_MEMORY.
Proof.
  unfold ReplayBuffer.len, Deque.len, full_buffer; cbn [ReplayBuffer.buffer Deque.items].
  rewrite length_replicate. unfold INITIAL_MEMORY. lia.
Qed.

Lemma target_parameters_only_synced_witness :
  @wf Z unit toy_backend toy_env (toy_globals false full_buffer 999) /\
  forall g' fl,
    TrainingLoop.iteration (toy_globals false full_buffer 999)
      (toy_oracle (seq 0 (Z.to_nat INITIAL_MEMORY))) = Ok (g', fl) ->
    (target_values g' = [20; 21] /\
     (TrainingLoop.trace g' = [] \/ TrainingLoop.trace g' = [LearnStep 1000])) \/
    (target_values g' = [10; 11] /\
     TrainingLoop.trace g' = [TargetSync 1000; LearnStep 1000]).
Proof.
  split; [apply toy_globals_wf|].
  exact (proj2 (proj2 (@target_parameters_only_synced Z unit toy_backend toy_env
                         (toy_globals false full_buffer 999)
                         (toy_oracle (seq 0 (Z.to_nat INITIAL_MEMORY)))
                         (toy_globals_wf false full_buffer 999)))).
Defined.

Lemma toy_collect (rb : ReplayBuffer.t unit) (perm : list nat) :
  TrainingLoop.collect (toy_globals false rb 999) (toy_oracle perm)
    = Ok (toy_collected rb, Continue).
Proof. reflexivity. Qed.

Lemma toy_collect_solved (rb : ReplayBuffer.t unit) (perm : list nat) :
  TrainingLoop.collect (toy_globals true rb 999) (toy_oracle perm)
    = Ok (toy_solved rb, Break).
Proof. reflexivity. Qed.

Lemma full_buffer_append_len (e : Experience.t unit) :
  ReplayBuffer.len (ReplayBuffer.append full_buffer e) = INITIAL_MEMORY.
Proof.
  unfold ReplayBuffer.len, ReplayBuffer.append; cbn [ReplayBuffer.buffer].
  rewrite Deque_append_len_full; [reflexivity|].
  exact full_buffer_len.
Qed.

Lemma full_buffer_append_positions (e : Experience.t unit) :
  seq 0 (Z.to_nat INITIAL_MEMORY) ≡ₚ
  seq 0 (length (Deque.items (ReplayBuffer.buffer (ReplayBuffer.append full_buffer e)))).
Proof.
  pose proof (full_buffer_append_len e) as Hlen.
  unfold ReplayBuffer.len, Deque.len in Hlen.
  replace (length (Deque.items (ReplayBuffer.buffer (ReplayBuffer.append full_buffer e))))
    with (Z.to_nat INITIAL_MEMORY) by lia.
  reflexivity.
Qed.

Lemma target_sync_schedule_witness :
  TrainingLoop.frame_idx (toy_collected full_buffer) mod TARGET_UPDATE = 0 /\
  exists g2,
    TrainingLoop.sync_target (toy_collected full_buffer) = Ok g2 /\
    TrainingLoop.trace g2 = [TargetSync 1000] /\
    target_values g2 = q_values g2 /\ q_values g2 = [10; 11].
Proof.
  split; [reflexivity|].
  destruct (proj2 (@target_sync_schedule Z unit toy_backend toy_env
                     (toy_globals false full_buffer 999) (toy_oracle [])
                     (toy_collected full_buffer)
                     (toy_globals_wf false full_buffer 999)
                     (toy_collect full_buffer [])
                     eq_refl))
    as (g2 & Hs & Htr & Heq & Hq & _).
  - unfold buffer_len, toy_collected; cbn [TrainingLoop.replay_buffer].
    rewrite full_buffer_append_len. lia.
  - exists g2. split; [exact Hs|]. split; [exact Htr|]. split; [exact Heq | exact Hq].
Defined.

(** C3 as stated fails in the warm-up: with an empty store the pass that
    brings the step count to 1000 returns at the warm-up test, and the
    synchronization does not run. *)
Lemma warmup_pass_1000_does_not_sync :
  1000 mod TARGET_UPDATE = 0 /\
  exists g',
    TrainingLoop.iteration (toy_globals false empty_buffer 999) (toy_oracle []) = Ok (g', Continue) /\
    TrainingLoop.frame_idx g' = 1000 /\
    buffer_len g' < INITIAL_MEMORY /\
    TrainingLoop.trace g' = [].
Proof.
  split; [reflexivity|].
  exists (toy_collected empty_buffer).
  split; [|split; [reflexivity|split; [reflexivity | reflexivity]]].
  unfold TrainingLoop.iteration. rewrite toy_collect, bind_Ok_l. reflexivity.
Qed.

Lemma learning_after_warmup_witness :
  @wf Z unit toy_backend toy_env (toy_globals false full_buffer 999) /\
  exists g3,
    TrainingLoop.iteration (toy_globals false full_buffer 999)
      (toy_oracle (seq 0 (Z.to_nat INITIAL_MEMORY))) = Ok (g3, Continue) /\
    INITIAL_MEMORY <= buffer_len g3 /\
    last (TrainingLoop.trace g3) = Some (LearnStep 1000).
Proof.
  split; [apply toy_globals_wf|].
  destruct (proj2 (proj2 (@learning_after_warmup Z unit toy_backend toy_env toy_backend_spec
                            (toy_globals false full_buffer 999)
                            (toy_globals_wf false full_buffer 999)))
              ltac:(unfold buffer_len; cbn [TrainingLoop.replay_buffer toy_globals];
                    rewrite full_buffer_len; lia)
              (toy_oracle (seq 0 (Z.to_nat INITIAL_MEMORY)))
              (toy_collected full_buffer) Continue
              (toy_collect full_buffer _)
              (full_buffer_append_positions _))
    as (g3 & Hi & _ & Hlen & Hlast).
  exists g3. split; [exact Hi|]. split; [exact Hlen | exact Hlast].
Defined.

(** C10 as stated fails at the pass that ends the training: with the store
    at the threshold, a step that ends an episode and lifts the average
    return above 19.5 is executed and recorded, and the loop stops before
    the learning step. *)
Lemma solved_pass_skips_learning :
  buffer_len (toy_globals true full_buffer 999) = INITIAL_MEMORY /\
  TrainingLoop.iteration (toy_globals true full_buffer 999)
    (toy_oracle (seq 0 (Z.to_nat INITIAL_MEMORY))) = Ok (toy_solved full_buffer, Break) /\
  TrainingLoop.frame_idx (toy_solved full_buffer) = 1000 /\
  buffer_len (toy_solved full_buffer) = INITIAL_MEMORY /\
  TrainingLoop.trace (toy_solved full_buffer) = [].
Proof.
  split; [exact full_buffer_len|]. split.
  - unfold TrainingLoop.iteration. by rewrite toy_collect_solved, bind_Ok_l.
  - split; [reflexivity|]. split; [apply full_buffer_append_len | reflexivity].
Qed.

(** The pass of step 1000 with a full store, run: the target takes the
    online values [10; 11] and the update then moves the online network to
    [9; 10]. *)
Example toy_pass_1000 :
  match TrainingLoop.iteration (toy_globals false full_buffer 999)
          (toy_oracle (seq 0 (Z.to_nat INITIAL_MEMORY))) with
  | Ok (g', fl) => Some (fl, q_values g', target_values g', TrainingLoop.trace g')
  | Raise _ => None
  end = Some (Continue, [9; 10], [10; 11], [TargetSync 1000; LearnStep 1000]).
Proof. vm_compute. reflexivity. Qed.

(** ** The targets of the learning step *)

Section LearnTarget.
Context {T Obs : Type} `{Backend T Obs} `{GymEnv Obs} `{!BackendSpec}.
Implicit Types (g : TrainingLoop.globals) (o : Oracle).

(** C4. What the learning code of a pass computes and hands to the update.
    With a store of at least [BATCH_SIZE] transitions and a draw that
    rearranges its positions, [learn] samples [BATCH_SIZE] transitions [es],
    builds one target per transition and returns the globals in which the
    optimizer has stepped along [backward] of exactly these targets
    ([expected]), computed with the online values on the batch's states and
    actions. The target of transition [e] is
    [reward + 0.99 * max_a Q_target(next_state, a)], with the target
    network's values, in float32 arithmetic, when [e] did not end its
    episode; when it did, the target is the reward itself, whatever the
    target network returns on the next state: bit for bit unless the reward
    is [-0.0], for which it is [0.0]. *)
Theorem learn_td_targets g o :
  BATCH_SIZE <= buffer_len g ->
  rnd_permutation o ≡ₚ
    seq 0 (length (Deque.items (ReplayBuffer.buffer (TrainingLoop.replay_buffer g)))) ->
  exists (es : list (Experience.t Obs)) (expected : list spec_float),
    ReplayBuffer.sample (TrainingLoop.replay_buffer g) (rnd_permutation o) BATCH_SIZE =
      Ok (batch_of es) /\
    Z.of_nat (length es) = BATCH_SIZE /\
    length expected = length es /\
    (forall (i : nat) (e : Experience.t Obs), es !! i = Some e ->
       let r := Float32.of_float64 (Experience.reward e) in
       (Experience.done e = false ->
          expected !! i =
            Some (Float32.add r
                    (Float32.mul GAMMA
                       (q_max (forward (target_values g) (Experience.new_state e)))))) /\
       (Experience.done e = true ->
          expected !! i = Some (unsigned_zero r) /\
          (r <> S754_zero true -> expected !! i = Some r))) /\
    TrainingLoop.learn g o =
      Ok (let grads := backward (q_values g) (map Experience.state es)
                         (map Experience.action es) expected in
          let stepped := Net.step (TrainingLoop.params g) (TrainingLoop.optimizer g) grads in
          TrainingLoop.mk (TrainingLoop.env g) stepped.1
            (TrainingLoop.q_network g) (TrainingLoop.target_network g) stepped.2
            (TrainingLoop.replay_buffer g) (TrainingLoop.total_rewards g)
            (TrainingLoop.total_reward g) (TrainingLoop.frame_idx g) (TrainingLoop.state g)
            (TrainingLoop.trace g ++ [LearnStep (TrainingLoop.frame_idx g)])).
Proof.
  intros Hlen Hperm.
  destruct (sample_in_range (TrainingLoop.replay_buffer g) (rnd_permutation o) BATCH_SIZE Hperm)
    as (indices & es & _ & Hn & Hall & Hsample).
  { unfold buffer_len in Hlen. unfold BATCH_SIZE in *. lia. }
  apply Forall2_length in Hall.
  destruct (TDTarget_expected_spec
              (map (forward (target_values g)) (map Experience.new_state es))
              (map (fun e => ReplayBuffer.uint8_of_bool (Experience.done e)) es)
              (map (fun e => Float32.of_float64 (Experience.reward e)) es))
    as (expected & Hexp & HlenE & Hat).
  { by rewrite !length_map. }
  { by rewrite !length_map. }
  { apply Forall_fmap, Forall_forall. intros s _. apply forward_nonempty. }
  exists es, expected. split; [exact Hsample|]. split; [lia|].
  split; [by rewrite HlenE, length_map|]. split.
  - intros i e He r.
    destruct (Hat i (forward (target_values g) (Experience.new_state e))
                (ReplayBuffer.uint8_of_bool (Experience.done e)) r) as [Hgo Hend].
    + by rewrite !list_lookup_fmap, He.
    + by rewrite list_lookup_fmap, He.
    + by rewrite list_lookup_fmap, He.
    + split.
      * intros Hd. apply Hgo. by rewrite Hd.
      * intros Hd. apply Hend. by rewrite Hd.
  - unfold TrainingLoop.learn. rewrite Hsample, bind_Ok_l.
    unfold batch_of.
    cbn [ReplayBuffer.next_states ReplayBuffer.dones ReplayBuffer.rewards
         ReplayBuffer.states ReplayBuffer.actions].
    fold (target_values g). fold (q_values g).
    rewrite Hexp, bind_Ok_l. cbv zeta.
    by destruct (Net.step _ _ _) as [st opt].
Qed.

End LearnTarget.

Lemma readout_backend_spec : @BackendSpec spec_float unit readout_backend.
Proof. split. intros ps s. discriminate. Qed.

Lemma learn_td_targets_witness :
  BATCH_SIZE <= buffer_len readout_globals /\
  seq 0 32 ≡ₚ
    seq 0 (length (Deque.items (ReplayBuffer.buffer (TrainingLoop.replay_buffer readout_globals)))) /\
  exists (es : list (Experience.t unit)) (expected : list spec_float),
    ReplayBuffer.sample batch_buffer (seq 0 32) BATCH_SIZE = Ok (batch_of es) /\
    Z.of_nat (length es) = BATCH_SIZE /\
    length expected = length es /\
    (forall (i : nat) (e : Experience.t unit), es !! i = Some e ->
       let r := Float32.of_float64 (Experience.reward e) in
       (Experience.done e = false ->
          expected !! i =
            Some (Float32.add r
                    (Float32.mul GAMMA
                       (q_max (@forward spec_float unit readout_backend
                                 (target_values readout_globals)
                                 (Experience.new_state e)))))) /\
       (Experience.done e = true ->
          expected !! i = Some (unsigned_zero r) /\
          (r <> S754_zero true -> expected !! i = Some r))) /\
    TrainingLoop.learn readout_globals (toy_oracle (seq 0 32)) =
      Ok (let grads := @backward spec_float unit readout_backend
                         (q_values readout_globals) (map Experience.state es)
                         (map Experience.action es) expected in
          let stepped := Net.step (TrainingLoop.params readout_globals)
                           (TrainingLoop.optimizer readout_globals) grads in
          TrainingLoop.mk (TrainingLoop.env readout_globals) stepped.1
            (TrainingLoop.q_network readout_globals)
            (TrainingLoop.target_network readout_globals) stepped.2
            (TrainingLoop.replay_buffer readout_globals)
            (TrainingLoop.total_rewards readout_globals)
            (TrainingLoop.total_reward readout_globals)
            (TrainingLoop.frame_idx readout_globals) (TrainingLoop.state readout_globals)
            (TrainingLoop.trace readout_globals ++
               [LearnStep (TrainingLoop.frame_idx readout_globals)])).
Proof.
  assert (Hlen : BATCH_SIZE <= buffer_len readout_globals) by (vm_compute; discriminate).
  assert (Hperm : seq 0 32 ≡ₚ
            seq 0 (length (Deque.items (ReplayBuffer.buffer
                                          (TrainingLoop.replay_buffer readout_globals)))))
    by exact (Permutation_refl (seq 0 32)).
  split; [exact Hlen|]. split; [exact Hperm|].
  exact (@learn_td_targets spec_float unit readout_backend toy_env readout_backend_spec
           readout_globals (toy_oracle (seq 0 32)) Hlen Hperm).
Defined.

(** On the store [batch_buffer] the update writes the first two targets
    into the online parameters: [1 + 0.99 * 5] for the transition that goes
    on (5 is the larger target value, 11 the larger online one) and [-1]
    for the one that ends. *)
Lemma readout_learn :
  exists g', TrainingLoop.learn readout_globals (toy_oracle (seq 0 32)) = Ok g' /\
    TrainingLoop.params g' !! 0%nat =
      Some (Float32.add (Float32.of_Z 1) (Float32.mul GAMMA (Float32.of_Z 5))) /\
    TrainingLoop.params g' !! 1%nat = Some (Float32.of_Z (-1)).
Proof. eexists. split; [vm_compute; reflexivity|]. split; vm_compute; reflexivity. Qed.

(** ** [ScaledFloatFrame]: the scaled observation *)

Lemma bytes_lookup (z : Z) : 0 <= z < 256 -> bytes !! Z.to_nat z = Some z.
Proof.
  intros Hz. unfold bytes. rewrite lookup_map, lookup_seq_lt by lia.
  simpl. f_equal. lia.
Qed.

Lemma byte_cases (P : Z -> bool) :
  forallb P bytes = true -> forall z, 0 <= z < 256 -> P z = true.
Proof.
  intros Hall z Hz. rewrite forallb_forall in Hall. apply Hall.
  apply list_elem_of_In. eapply list_elem_of_lookup_2, bytes_lookup, Hz.
Qed.

Lemma all_pairs_lookup {A} (R : A -> A -> bool) (l : list A) :
  all_pairs R l = true ->
  forall (i j : nat) (x y : A), (i < j)%nat -> l !! i = Some x -> l !! j = Some y -> R x y = true.
Proof.
  induction l as [|a l IH]; intros Hall i j x y Hij Hi Hj; [done|].
  simpl in Hall. apply andb_true_iff in Hall as [Ha Hl].
  destruct j as [|j]; [lia|]. simpl in Hj.
  destruct i as [|i]; simpl in Hi.
  - injection Hi as <-. rewrite forallb_forall in Ha. apply Ha.
    apply list_elem_of_In. eapply list_elem_of_lookup_2, Hj.
  - apply (IH Hl i j); [lia | done | done].
Qed.

Lemma scaled_bytes_lookup (z : Z) :
  0 <= z < 256 -> scaled_bytes !! Z.to_nat z = Some (scale_pixel (Float32.of_Z z)).
Proof. intros Hz. unfold scaled_bytes. by rewrite lookup_map, bytes_lookup. Qed.

Lemma scaled_bytes_increasing : all_pairs SFltb scaled_bytes = true.
Proof. vm_compute. reflexivity. Qed.

Lemma scale_pixel_unit (z : Z) :
  0 <= z < 256 ->
  SFleb Float32.zero (scale_pixel (Float32.of_Z z)) = true /\
  SFleb (scale_pixel (Float32.of_Z z)) (Float32.of_Z 1) = true.
Proof.
  intros Hz. apply andb_true_iff.
  apply (byte_cases (fun z => SFleb Float32.zero (scale_pixel (Float32.of_Z z)) &&
                              SFleb (scale_pixel (Float32.of_Z z)) (Float32.of_Z 1)));
    [vm_compute; reflexivity | exact Hz].
Qed.

Lemma scale_pixel_increasing (z z' : Z) :
  0 <= z -> z < z' -> z' < 256 ->
  SFltb (scale_pixel (Float32.of_Z z)) (scale_pixel (Float32.of_Z z')) = true.
Proof.
  intros Hz Hlt Hz'.
  apply (all_pairs_lookup SFltb scaled_bytes scaled_bytes_increasing
           (Z.to_nat z) (Z.to_nat z')); [lia | |]; apply scaled_bytes_lookup; lia.
Qed.

Lemma SFltb_irrefl (x : spec_float) : SFltb x x = false.
Proof.
  unfold SFltb, SFcompare. destruct x as [[]|[]| |[] m e]; try reflexivity;
    rewrite Z.compare_refl, Pos.compare_cont_refl; reflexivity.
Qed.

Lemma scale_pixel_inj (z z' : Z) :
  0 <= z < 256 -> 0 <= z' < 256 ->
  scale_pixel (Float32.of_Z z) = scale_pixel (Float32.of_Z z') -> z = z'.
Proof.
  intros Hz Hz' Heq.
  destruct (Z.lt_trichotomy z z') as [Hlt|[->|Hlt]]; [|done|].
  - pose proof (scale_pixel_increasing z z' ltac:(lia) Hlt ltac:(lia)) as Hs.
    rewrite Heq, SFltb_irrefl in Hs. discriminate.
  - pose proof (scale_pixel_increasing z' z ltac:(lia) Hlt ltac:(lia)) as Hs.
    rewrite Heq, SFltb_irrefl in Hs. discriminate.
Qed.

Lemma map_inj_Forall {A B} (f : A -> B) (P : A -> Prop) (l k : list A) :
  (forall x y, P x -> P y -> f x = f y -> x = y) ->
  Forall P l -> Forall P k -> map f l = map f k -> l = k.
Proof.
  intros Hinj Hl. revert k. induction Hl as [|x l Hx Hl IH]; intros k Hk Heq.
  - destruct k; [done | discriminate].
  - destruct Hk as [|y k Hy Hk]; [discriminate|].
    injection Heq as Hxy Heq. f_equal; [by apply Hinj | by apply IH].
Qed.

(** X8. On a stack of bytes, [ScaledFloatFrame.observation] returns values
    between [0.0] and [1.0]: [0] becomes [0.0], [255] becomes [1.0], and a
    larger byte becomes a strictly larger float. *)
Theorem ScaledFloatFrame_scale_unit_interval (a : list (list (list Z))) :
  byte_array a ->
  unit_array (ScaledFloatFrame.scale (astype_float32 a)) /\
  ScaledFloatFrame.scale (astype_float32 [[[0]]]) = [[[Float32.zero]]] /\
  ScaledFloatFrame.scale (astype_float32 [[[255]]]) = [[[Float32.of_Z 1]]] /\
  (forall z z', 0 <= z -> z < z' -> z' < 256 ->
     exists x x', ScaledFloatFrame.scale (astype_float32 [[[z; z']]]) = [[[x; x']]] /\
                  SFltb x x' = true).
Proof.
  intros Ha. split; [|split; [|split]].
  - unfold unit_array, ScaledFloatFrame.scale, astype_float32, map3d.
    apply Forall_fmap, Forall_fmap.
    eapply Forall_impl; [exact Ha|]. intros p Hp. cbn [compose].
    apply Forall_fmap, Forall_fmap.
    eapply Forall_impl; [exact Hp|]. intros row Hrow. cbn [compose].
    apply Forall_fmap, Forall_fmap.
    eapply Forall_impl; [exact Hrow|]. intros z Hz. cbn [compose].
    exact (scale_pixel_unit z Hz).
  - vm_compute. reflexivity.
  - vm_compute. reflexivity.
  - intros z z' Hz Hlt Hz'. eexists _, _. split; [reflexivity|].
    exact (scale_pixel_increasing z z' Hz Hlt Hz').
Qed.

Lemma ScaledFloatFrame_scale_unit_interval_witness :
  byte_array [[[7; 200]]] /\
  unit_array (ScaledFloatFrame.scale (astype_float32 [[[7; 200]]])).
Proof.
  assert (Hb : byte_array [[[7; 200]]]) by (repeat constructor; lia).
  split; [exact Hb|].
  exact (proj1 (ScaledFloatFrame_scale_unit_interval [[[7; 200]]] Hb)).
Defined.

(** X9. Scaling loses nothing: two stacks of bytes with the same scaled
    observation are the same stack. *)
Theorem ScaledFloatFrame_scale_injective (a b : list (list (list Z))) :
  byte_array a -> byte_array b ->
  ScaledFloatFrame.scale (astype_float32 a) = ScaledFloatFrame.scale (astype_float32 b) ->
  a = b.
Proof.
  unfold ScaledFloatFrame.scale, astype_float32, map3d. intros Ha Hb Heq.
  rewrite !map_map in Heq.
  revert Heq. apply map_inj_Forall with (P := Forall (Forall (fun z => 0 <= z < 256)));
    [|exact Ha|exact Hb].
  intros p q Hp Hq Heq. rewrite !map_map in Heq.
  revert Heq. apply map_inj_Forall with (P := Forall (fun z => 0 <= z < 256));
    [|exact Hp|exact Hq].
  intros r s Hr Hs Heq. rewrite !map_map in Heq.
  revert Heq. apply map_inj_Forall with (P := fun z => 0 <= z < 256);
    [|exact Hr|exact Hs].
  intros z z' Hz Hz' Heq. by apply scale_pixel_inj.
Qed.

Lemma ScaledFloatFrame_scale_injective_witness :
  byte_array [[[3]]] /\ [[[3]]] = [[[3]]] :> list (list (list Z)).
Proof.
  assert (Hb : byte_array [[[3]]]) by (repeat constructor; lia).
  split; [exact Hb|].
  exact (ScaledFloatFrame_scale_injective [[[3]]] [[[3]]] Hb Hb eq_refl).
Defined.

(** ** [ImageToPyTorch]: the channel axis moves to the front *)

Lemma take_1_drop {A} (c : nat) (l : list A) : take 1 (drop c l) = option_list (l !! c).
Proof.
  revert c; induction l as [|x l IH]; intros [|c]; simpl; done.
Qed.

(** A bind that picks at most one item per element is a partial map. *)
Lemma bind_pick_lookup {A B} (f : A -> list B) (g : A -> option B) (l : list A) (j : nat) :
  (forall x, f x = option_list (g x)) ->
  Forall (fun x => is_Some (g x)) l ->
  (l ≫= f) !! j = l !! j ≫= g.
Proof.
  intros Hfg Hl. revert j. induction Hl as [|x l [y Hy] Hl IH]; intros j; [done|].
  cbn [mbind list_bind]. rewrite Hfg, Hy. simpl.
  destruct j as [|j]; simpl; [by rewrite Hy | apply IH].
Qed.

Lemma bind_pick_length {A B} (f : A -> list B) (g : A -> option B) (l : list A) :
  (forall x, f x = option_list (g x)) ->
  Forall (fun x => is_Some (g x)) l ->
  length (l ≫= f) = length l.
Proof.
  intros Hfg Hl. induction Hl as [|x l [y Hy] Hl IH]; [done|].
  cbn [mbind list_bind]. rewrite Hfg, Hy. simpl. by rewrite IH.
Qed.

Section AxisFacts.
Context {A : Type}.

Lemma rect3_hd (d0 d1 d2 : nat) (a : list (list (list A))) :
  rect3 d0 d1 d2 a -> (0 < d0)%nat -> (0 < d1)%nat ->
  length (hd [] a) = d1 /\ length (hd [] (hd [] a)) = d2.
Proof.
  intros [Hlen Hall] H0 H1. destruct a as [|p a]; [simpl in Hlen; lia|].
  inversion Hall as [|? ? [Hp Hrows] _]; subst. simpl. split; [done|].
  destruct p as [|row p]; [simpl in H1; lia|].
  inversion Hrows; subst. done.
Qed.

Lemma rect3_item (d0 d1 d2 : nat) (a : list (list (list A))) (i j k : nat) :
  rect3 d0 d1 d2 a -> (i < d0)%nat -> (j < d1)%nat -> (k < d2)%nat ->
  is_Some (item3 a i j k).
Proof.
  intros [Hlen Hall] Hi Hj Hk. unfold item3.
  destruct (lookup_lt_is_Some_2 a i) as [p Hp]; [lia|].
  rewrite Hp. simpl.
  destruct (proj1 (Forall_forall _ _) Hall p (list_elem_of_lookup_2 _ _ _ Hp)) as [Hpl Hrows].
  destruct (lookup_lt_is_Some_2 p j) as [row Hrow]; [lia|].
  rewrite Hrow. simpl.
  pose proof (proj1 (Forall_forall _ _) Hrows row (list_elem_of_lookup_2 _ _ _ Hrow)) as Hrl.
  cbv beta in Hrl. apply lookup_lt_is_Some_2. lia.
Qed.

Lemma item3_bounds (d0 d1 d2 : nat) (a : list (list (list A))) (i j k : nat) :
  rect3 d0 d1 d2 a -> is_Some (item3 a i j k) -> (i < d0)%nat /\ (j < d1)%nat /\ (k < d2)%nat.
Proof.
  intros [Hlen Hall] [x Hx]. unfold item3 in Hx.
  destruct (a !! i) as [p|] eqn:Hp; [|discriminate]. simpl in Hx.
  destruct (p !! j) as [row|] eqn:Hrow; [|discriminate]. simpl in Hx.
  destruct (proj1 (Forall_forall _ _) Hall p (list_elem_of_lookup_2 _ _ _ Hp)) as [Hpl Hrows].
  pose proof (proj1 (Forall_forall _ _) Hrows row (list_elem_of_lookup_2 _ _ _ Hrow)) as Hrl.
  cbv beta in Hrl. apply lookup_lt_Some in Hp, Hrow, Hx. lia.
Qed.

(** Arrays of one shape with the same items are equal. *)
Lemma rect3_ext (d0 d1 d2 : nat) (a b : list (list (list A))) :
  rect3 d0 d1 d2 a -> rect3 d0 d1 d2 b ->
  (forall i j k, item3 a i j k = item3 b i j k) -> a = b.
Proof.
  intros [Hla Ha] [Hlb Hb] Hitems.
  apply list_eq_same_length with d0; [done | done |].
  intros i p q Hi Hp Hq.
  destruct (proj1 (Forall_forall _ _) Ha p (list_elem_of_lookup_2 _ _ _ Hp)) as [Hpl Hprows].
  destruct (proj1 (Forall_forall _ _) Hb q (list_elem_of_lookup_2 _ _ _ Hq)) as [Hql Hqrows].
  apply list_eq_same_length with d1; [done | done |].
  intros j r s Hj Hr Hs.
  apply list_eq. intros k.
  specialize (Hitems i j k). unfold item3 in Hitems.
  rewrite Hp, Hq in Hitems. simpl in Hitems. by rewrite Hr, Hs in Hitems.
Qed.

(** The rows of a plane of [moveaxis_2_0]: one channel of every pixel. *)
Lemma channel_row_lookup (c : nat) (row : list (list A)) (j : nat) :
  Forall (fun px => is_Some (px !! c)) row ->
  (row ≫= (fun px => take 1 (drop c px))) !! j = row !! j ≫= (fun px => px !! c).
Proof. apply bind_pick_lookup. intros px. apply take_1_drop. Qed.

Lemma moveaxis_2_0_lookup (d0 d1 d2 : nat) (a : list (list (list A))) (c : nat) :
  rect3 d0 d1 d2 a -> (0 < d0)%nat -> (0 < d1)%nat -> (c < d2)%nat ->
  ImageToPyTorch.moveaxis_2_0 a !! c =
    Some (map (fun row => row ≫= (fun px => take 1 (drop c px))) a).
Proof.
  intros Ha H0 H1 Hc. unfold ImageToPyTorch.moveaxis_2_0.
  destruct (rect3_hd d0 d1 d2 a Ha H0 H1) as [_ ->].
  by rewrite lookup_map, lookup_seq_lt.
Qed.

Lemma rect3_channel (d0 d1 d2 : nat) (a : list (list (list A))) (c : nat) (row : list (list A)) :
  rect3 d0 d1 d2 a -> (c < d2)%nat -> row ∈ a ->
  length row = d1 /\ Forall (fun px => is_Some (px !! c)) row.
Proof.
  intros [_ Hall] Hc Hrow.
  destruct (proj1 (Forall_forall _ _) Hall row Hrow) as [Hl Hpx]. split; [done|].
  eapply Forall_impl; [exact Hpx|]. intros px Hlen. cbv beta in Hlen.
  apply lookup_lt_is_Some_2. lia.
Qed.

End AxisFacts.

Lemma moveaxis_2_0_rect {A} (d0 d1 d2 : nat) (a : list (list (list A))) :
  rect3 d0 d1 d2 a -> (0 < d0)%nat -> (0 < d1)%nat ->
  rect3 d2 d0 d1 (ImageToPyTorch.moveaxis_2_0 a).
Proof.
  intros Ha H0 H1.
  pose proof (rect3_hd d0 d1 d2 a Ha H0 H1) as [_ Hch].
  split; [unfold ImageToPyTorch.moveaxis_2_0; by rewrite length_map, length_seq, Hch|].
  apply Forall_forall. intros p Hp.
  apply list_elem_of_lookup_1 in Hp as [c Hp].
  assert (Hc : (c < d2)%nat).
  { apply lookup_lt_Some in Hp. unfold ImageToPyTorch.moveaxis_2_0 in Hp.
    rewrite length_map, length_seq, Hch in Hp. exact Hp. }
  rewrite (moveaxis_2_0_lookup d0 d1 d2 a c Ha H0 H1 Hc) in Hp. injection Hp as <-.
  split; [rewrite length_map; apply Ha|].
  apply Forall_fmap, Forall_forall. intros row Hrow. cbn [compose].
  destruct (rect3_channel d0 d1 d2 a c row Ha Hc Hrow) as [Hl Hpx].
  rewrite (bind_pick_length _ (fun px => px !! c)); [done | apply take_1_drop | done].
Qed.

Lemma moveaxis_2_0_item {A} (d0 d1 d2 : nat) (a : list (list (list A))) (c i j : nat) :
  rect3 d0 d1 d2 a -> (0 < d0)%nat -> (0 < d1)%nat ->
  item3 (ImageToPyTorch.moveaxis_2_0 a) c i j = item3 a i j c.
Proof.
  intros Ha H0 H1.
  destruct (decide (c < d2)%nat) as [Hc|Hc].
  - unfold item3. rewrite (moveaxis_2_0_lookup d0 d1 d2 a c Ha H0 H1 Hc).
    rewrite lookup_map. destruct (a !! i) as [row|] eqn:Hrow; [|done].
    cbn [fmap option_fmap option_map].
    destruct (rect3_channel d0 d1 d2 a c row Ha Hc (list_elem_of_lookup_2 _ _ _ Hrow))
      as [_ Hpx].
    rewrite channel_row_lookup by exact Hpx. by destruct (row !! j).
  - pose proof (moveaxis_2_0_rect d0 d1 d2 a Ha H0 H1) as [Hlen _].
    transitivity (@None A).
    + unfold item3. rewrite (lookup_ge_None_2 (ImageToPyTorch.moveaxis_2_0 a) c); [done | lia].
    + symmetry. apply eq_None_not_Some. intros Hsome.
      apply (item3_bounds d0 d1 d2) in Hsome; [lia | done].
Qed.

(** X5. [np.moveaxis(a, 2, 0)] on an array of shape [(d0, d1, d2)] with rows
    and columns: the result has the shape [(d2, d0, d1)], and its item at
    [[c, i, j]] is the item of [a] at [[i, j, c]]. *)
Theorem ImageToPyTorch_moveaxis_spec {A} (d0 d1 d2 : nat) (a : list (list (list A))) :
  rect3 d0 d1 d2 a -> (0 < d0)%nat -> (0 < d1)%nat ->
  rect3 d2 d0 d1 (ImageToPyTorch.moveaxis_2_0 a) /\
  forall c i j, item3 (ImageToPyTorch.moveaxis_2_0 a) c i j = item3 a i j c.
Proof.
  intros Ha H0 H1. split.
  - by apply moveaxis_2_0_rect.
  - intros c i j. by apply (moveaxis_2_0_item d0 d1 d2).
Qed.

Lemma ImageToPyTorch_moveaxis_spec_witness :
  rect3 1 2 3 [[[1; 2; 3]; [4; 5; 6]]] /\
  item3 (ImageToPyTorch.moveaxis_2_0 [[[1; 2; 3]; [4; 5; 6]]]) 2 0 1 = Some 6.
Proof.
  assert (Hr : rect3 1 2 3 [[[1; 2; 3]; [4; 5; 6]]]) by (repeat constructor).
  split; [exact Hr|].
  rewrite (proj2 (ImageToPyTorch_moveaxis_spec 1 2 3 [[[1; 2; 3]; [4; 5; 6]]] Hr
                    ltac:(lia) ltac:(lia))).
  reflexivity.
Defined.

(** *** The way back: [transpose(1, 2, 0)] *)

Section TransposeFacts.
Context {A : Type}.

Lemma pick_item (i j : nat) (p : list (list A)) :
  take 1 (drop i p) ≫= (fun row => take 1 (drop j row)) =
    option_list (match p !! i with Some row => row !! j | None => None end).
Proof.
  rewrite take_1_drop. destruct (p !! i) as [row|]; [|done].
  change (option_list (Some row)) with [row].
  change ([row] ≫= (fun row0 : list A => take 1 (drop j row0)))
    with (take 1 (drop j row) ++ []).
  by rewrite app_nil_r, take_1_drop.
Qed.

Lemma rect3_plane_item (d0 d1 d2 : nat) (b : list (list (list A))) (i j : nat) :
  rect3 d0 d1 d2 b -> (i < d1)%nat -> (j < d2)%nat ->
  Forall (fun p => is_Some (match p !! i with Some row => row !! j | None => None end)) b.
Proof.
  intros [_ Hall] Hi Hj. eapply Forall_impl; [exact Hall|].
  intros p [Hpl Hrows]. 
  destruct (lookup_lt_is_Some_2 p i) as [row Hrow]; [lia|]. rewrite Hrow.
  pose proof (proj1 (Forall_forall _ _) Hrows row (list_elem_of_lookup_2 _ _ _ Hrow)) as Hrl.
  cbv beta in Hrl. apply lookup_lt_is_Some_2. lia.
Qed.

Lemma transpose_1_2_0_lookup (d0 d1 d2 : nat) (b : list (list (list A))) (i : nat) :
  rect3 d0 d1 d2 b -> (0 < d0)%nat -> (0 < d1)%nat -> (i < d1)%nat ->
  transpose_1_2_0 b !! i =
    Some (map (fun j => b ≫= (fun p => take 1 (drop i p) ≫= (fun row => take 1 (drop j row))))
              (seq 0 d2)).
Proof.
  intros Hb H0 H1 Hi. unfold transpose_1_2_0.
  destruct (rect3_hd d0 d1 d2 b Hb H0 H1) as [-> ->].
  by rewrite lookup_map, lookup_seq_lt.
Qed.

Lemma transpose_1_2_0_spec (d0 d1 d2 : nat) (b : list (list (list A))) :
  rect3 d0 d1 d2 b -> (0 < d0)%nat -> (0 < d1)%nat ->
  rect3 d1 d2 d0 (transpose_1_2_0 b) /\
  forall i j c, item3 (transpose_1_2_0 b) i j c = item3 b c i j.
Proof.
  intros Hb H0 H1.
  destruct (rect3_hd d0 d1 d2 b Hb H0 H1) as [Hh Hw].
  assert (Hlen : length (transpose_1_2_0 b) = d1).
  { unfold transpose_1_2_0. by rewrite length_map, length_seq. }
  assert (Hpx : forall i j, (i < d1)%nat -> (j < d2)%nat -> forall c,
            (b ≫= (fun p => take 1 (drop i p) ≫= (fun row => take 1 (drop j row)))) !! c =
            item3 b c i j).
  { intros i j Hi Hj c.
    rewrite (bind_pick_lookup _
               (fun p => match p !! i with Some row => row !! j | None => None end) b c
               (pick_item i j) (rect3_plane_item d0 d1 d2 b i j Hb Hi Hj)).
    unfold item3. by destruct (b !! c). }
  split.
  - split; [exact Hlen|]. unfold transpose_1_2_0. rewrite Hh, Hw.
    apply Forall_fmap, Forall_forall. intros i Hi. cbn [compose].
    apply elem_of_seq in Hi.
    split; [by rewrite length_map, length_seq|].
    apply Forall_fmap, Forall_forall. intros j Hj. cbn [compose].
    apply elem_of_seq in Hj.
    rewrite (bind_pick_length _
               (fun p => match p !! i with Some row => row !! j | None => None end) b
               (pick_item i j) (rect3_plane_item d0 d1 d2 b i j Hb ltac:(lia) ltac:(lia))).
    apply Hb.
  - intros i j c.
    destruct (decide (i < d1)%nat) as [Hi|Hi]; [destruct (decide (j < d2)%nat) as [Hj|Hj]|].
    + unfold item3 at 1.
      rewrite (transpose_1_2_0_lookup d0 d1 d2 b i Hb H0 H1 Hi).
      rewrite lookup_map, lookup_seq_lt by exact Hj. by apply Hpx.
    + transitivity (@None A).
      * unfold item3.
        rewrite (transpose_1_2_0_lookup d0 d1 d2 b i Hb H0 H1 Hi).
        rewrite lookup_map, lookup_seq_ge by lia. done.
      * symmetry. apply eq_None_not_Some. intros Hsome.
        apply (item3_bounds d0 d1 d2) in Hsome; [lia | done].
    + transitivity (@None A).
      * unfold item3. rewrite (lookup_ge_None_2 (transpose_1_2_0 b) i); [done | lia].
      * symmetry. apply eq_None_not_Some. intros Hsome.
        apply (item3_bounds d0 d1 d2) in Hsome; [lia | done].
Qed.

End TransposeFacts.

(** X7. [ImageToPyTorch] only reorders: on an array with rows, columns and
    channels, the [transpose(1, 2, 0)] of the notebook's display cell turns
    the moved array back into the original. *)
Theorem transpose_undoes_moveaxis {A} (d0 d1 d2 : nat) (a : list (list (list A))) :
  rect3 d0 d1 d2 a -> (0 < d0)%nat -> (0 < d1)%nat -> (0 < d2)%nat ->
  transpose_1_2_0 (ImageToPyTorch.moveaxis_2_0 a) = a.
Proof.
  intros Ha H0 H1 H2.
  pose proof (moveaxis_2_0_rect d0 d1 d2 a Ha H0 H1) as Hm.
  destruct (transpose_1_2_0_spec d2 d0 d1 _ Hm H2 H0) as [Ht Hti].
  apply (rect3_ext d0 d1 d2); [exact Ht | exact Ha |].
  intros i j k. rewrite Hti. by apply (moveaxis_2_0_item d0 d1 d2).
Qed.

Lemma transpose_undoes_moveaxis_witness :
  rect3 1 2 3 [[[1; 2; 3]; [4; 5; 6]]] /\
  transpose_1_2_0 (ImageToPyTorch.moveaxis_2_0 [[[1; 2; 3]; [4; 5; 6]]]) =
    [[[1; 2; 3]; [4; 5; 6]]].
Proof.
  assert (Hr : rect3 1 2 3 [[[1; 2; 3]; [4; 5; 6]]]) by (repeat constructor).
  split; [exact Hr|].
  exact (transpose_undoes_moveaxis 1 2 3 [[[1; 2; 3]; [4; 5; 6]]] Hr
           ltac:(lia) ltac:(lia) ltac:(lia)).
Defined.

(** ** [FireResetEnv] *)

Lemma FireResetEnv_init_Ok {E} (action_meanings : list string) (env env' : E) :
  FireResetEnv.init action_meanings env = Ok env' ->
  env' = env /\ action_meanings !! 1%nat = Some "FIRE" /\ (3 <= length action_meanings)%nat.
Proof.
  unfold FireResetEnv.init.
  destruct (action_meanings !! 1%nat) as [m|]; [|discriminate].
  destruct (String.eqb_spec m "FIRE") as [->|Hne]; [|discriminate]. cbn [negb].
  destruct (Z.leb_spec 3 (Z.of_nat (length action_meanings))); [|discriminate].
  cbn [negb]. intros [= <-]. split; [done|]. split; [done | lia].
Qed.

(** X1. [FireResetEnv(env)] is built exactly when the environment has at least
    three actions and the second of them is FIRE; with fewer than two
    actions the construction fails on the index, before the comparison, and
    otherwise on one of the assertions. *)
Theorem FireResetEnv_init_cases {E} (action_meanings : list string) (env : E) :
  (FireResetEnv.init action_meanings env = Ok env <->
     action_meanings !! 1%nat = Some "FIRE" /\ (3 <= length action_meanings)%nat) /\
  (FireResetEnv.init action_meanings env = Raise IndexError <->
     (length action_meanings < 2)%nat) /\
  (FireResetEnv.init action_meanings env = Raise AssertionError <->
     (2 <= length action_meanings)%nat /\
     ~ (action_meanings !! 1%nat = Some "FIRE" /\ (3 <= length action_meanings)%nat)).
Proof.
  unfold FireResetEnv.init.
  destruct (action_meanings !! 1%nat) as [m|] eqn:Hm.
  - pose proof (lookup_lt_Some _ _ _ Hm) as Hlen.
    destruct (String.eqb_spec m "FIRE") as [->|Hne]; simpl.
    + destruct (Z.leb_spec 3 (Z.of_nat (length action_meanings))) as [H3|H3]; simpl.
      * split; [|split].
        -- split; [intros _; split; [done | lia] | done].
        -- split; [discriminate | lia].
        -- split; [discriminate | intros [_ Hn]; exfalso; apply Hn; split; [done | lia]].
      * split; [|split].
        -- split; [discriminate | intros [_ ?]; lia].
        -- split; [discriminate | lia].
        -- split; [intros _; split; [lia | intros [_ ?]; lia] | done].
    + split; [|split].
      * split; [discriminate | intros [[=] _]; congruence].
      * split; [discriminate | lia].
      * split; [intros _; split; [lia | intros [[=] _]; congruence] | done].
  - pose proof (lookup_ge_None_1 _ _ Hm) as Hlen.
    split; [|split].
    + split; [discriminate | intros [[=] _]].
    + split; [intros _; lia | done].
    + split; [discriminate | intros [? _]; lia].
Qed.

(** ** [MaxAndSkipEnv] under [make_env] *)

Lemma np_max_stack_ok (s : list nat) (arrays : list ndarray) :
  arrays <> [] -> Forall (fun f => shape f = s) arrays ->
  exists a, np_max_stack arrays = Ok a /\ shape a = s.
Proof.
  intros Hne Hall. destruct arrays as [|a rest]; [done|].
  inversion Hall as [|? ? Ha Hrest]; subst. unfold np_max_stack.
  replace (forallb (fun b => bool_decide (shape b = shape a)) rest) with true.
  - eexists. split; [reflexivity | reflexivity].
  - symmetry. apply forallb_forall. intros b Hb. apply bool_decide_eq_true.
    apply list_elem_of_In in Hb.
    exact (proj1 (Forall_forall _ _) Hrest b Hb).
Qed.

Section MadeFacts.
Context `{RawEnv}.

Lemma made_init (s : list nat) (e : env_state) : made s (MaxAndSkipEnv.init e 4).
Proof. unfold made, MaxAndSkipEnv.init, Deque.len; simpl. repeat split; [lia | constructor]. Qed.

Lemma made_reset (s : list nat) (self : MaxAndSkipEnv.t) :
  frames_of_shape s ->
  MaxAndSkipEnv._skip self = 4%nat ->
  Deque.maxlen (MaxAndSkipEnv._obs_buffer self) = 2 ->
  made s (MaxAndSkipEnv.reset self).1 /\ ready (MaxAndSkipEnv.reset self).1 /\
  shape (MaxAndSkipEnv.reset self).2 = s.
Proof.
  intros [Hreset _] Hskip Hmax. unfold MaxAndSkipEnv.reset.
  pose proof (Hreset (MaxAndSkipEnv.env self)) as Hs.
  destruct (raw_reset (MaxAndSkipEnv.env self)) as [e obs]; simpl in *.
  unfold made, ready, Deque.append, Deque.clear, Deque.len; simpl. rewrite Hmax. simpl.
  repeat split; try done; try lia. by repeat constructor.
Qed.

(** From the state [make_env] keeps it in, [step] succeeds, returns a frame
    of the simulator's shape and leaves the wrapper ready for the next. *)
Lemma made_step (s : list nat) (self : MaxAndSkipEnv.t) (action : Z) :
  frames_of_shape s -> made s self ->
  exists self' frame total done info,
    MaxAndSkipEnv.step self action = Ok (self', (frame, total, done, info)) /\
    made s self' /\ ready self' /\ shape frame = s.
Proof.
  intros [_ Hstep] (Hskip & Hmax & Hlen & Hshapes).
  unfold MaxAndSkipEnv.step. rewrite step_loop_raw_steps, Hskip.
  destruct (raw_steps 4 (MaxAndSkipEnv.env self) action) as [rs e'] eqn:Hrs.
  pose proof (raw_steps_length 4 (MaxAndSkipEnv.env self) action) as [_ Hne].
  rewrite Hrs in Hne. simpl in Hne. specialize (Hne ltac:(lia)).
  pose proof (raw_steps_shapes s action Hstep 4 _ _ _ Hrs) as Hnew.
  cbv zeta. cbn [fst snd].
  set (buf := foldl Deque.append (MaxAndSkipEnv._obs_buffer self) (map step_obs rs)).
  assert (Hitems : Deque.items buf =
            drop (length (Deque.items (MaxAndSkipEnv._obs_buffer self) ++ map step_obs rs) - 2)
                 (Deque.items (MaxAndSkipEnv._obs_buffer self) ++ map step_obs rs)).
  { unfold buf. rewrite Deque_appends_items by lia. by rewrite Hmax. }
  assert (Hmax' : Deque.maxlen buf = 2)
    by (unfold buf; by rewrite Deque_appends_maxlen).
  assert (Hall : Forall (fun f => shape f = s) (Deque.items buf)).
  { rewrite Hitems. apply Forall_drop, Forall_app. split; [exact Hshapes|].
    by apply Forall_fmap. }
  assert (Hlen' : 1 <= Deque.len buf <= 2).
  { unfold Deque.len. rewrite Hitems, length_drop, length_app, length_map.
    destruct rs; [done|]. simpl. lia. }
  destruct (np_max_stack_ok s (Deque.items buf)) as (frame & Hframe & Hfs); [|exact Hall|].
  { intros Hnil. unfold Deque.len in Hlen'. rewrite Hnil in Hlen'. simpl in Hlen'. lia. }
  rewrite Hframe, bind_Ok_l.
  destruct (last rs) as [r|] eqn:Hlast; [|apply last_None in Hlast; done].
  eexists _, frame, _, _, _. split; [reflexivity|].
  unfold made, ready; cbn [MaxAndSkipEnv._skip MaxAndSkipEnv._obs_buffer].
  repeat split; try done; lia.
Qed.

(** X3. With [skip = 0] the loop body never runs: [step] leaves the simulator
    alone and raises, on the empty stack of frames when the wrapper has
    not been reset and on the unbound [info] otherwise. *)
Theorem MaxAndSkipEnv_step_skip_zero (self : MaxAndSkipEnv.t) (action : Z) (s : list nat) :
  MaxAndSkipEnv._skip self = 0%nat ->
  Forall (fun f => shape f = s) (Deque.items (MaxAndSkipEnv._obs_buffer self)) ->
  MaxAndSkipEnv.step self action =
    Raise (if decide (Deque.items (MaxAndSkipEnv._obs_buffer self) = [])
           then ValueError else NameError).
Proof.
  intros Hskip Hshapes. unfold MaxAndSkipEnv.step. rewrite Hskip. cbn [MaxAndSkipEnv.step_loop].
  destruct (decide (Deque.items (MaxAndSkipEnv._obs_buffer self) = [])) as [Hnil|Hne].
  - by rewrite Hnil.
  - destruct (np_max_stack_ok s _ Hne Hshapes) as (frame & -> & _). reflexivity.
Qed.

End MadeFacts.

Lemma MaxAndSkipEnv_step_skip_zero_witness :
  @MaxAndSkipEnv.step counter_env
    (@MaxAndSkipEnv.reset counter_env (@MaxAndSkipEnv.init counter_env 0%nat 0)).1 0
  = Raise NameError.
Proof.
  exact (@MaxAndSkipEnv_step_skip_zero counter_env
           (@MaxAndSkipEnv.reset counter_env (@MaxAndSkipEnv.init counter_env 0%nat 0)).1
           0 [2%nat] eq_refl ltac:(repeat constructor)).
Defined.

Section FireResetFacts.
Context `{RawEnv}.

(** [FireResetEnv.reset] over [MaxAndSkipEnv], computed from the results of
    its two steps. *)
Lemma fire_reset_eq (self pressed fired : MaxAndSkipEnv.t) (o1 obs : ndarray)
    (r1 r2 : spec_float) (d1 d2 : bool) (i1 i2 : env_info) :
  MaxAndSkipEnv.step (MaxAndSkipEnv.reset self).1 1 = Ok (pressed, (o1, r1, d1, i1)) ->
  MaxAndSkipEnv.step (if d1 then (MaxAndSkipEnv.reset pressed).1 else pressed) 2
    = Ok (fired, (obs, r2, d2, i2)) ->
  MakeEnv.fire_reset self =
    Ok (if d2 then (MaxAndSkipEnv.reset fired).1 else fired, obs).
Proof.
  intros Hstep1 Hstep2.
  unfold MakeEnv.fire_reset, FireResetEnv.reset. rewrite bind_Ok_l.
  destruct (MaxAndSkipEnv.reset self) as [env0 obs0]. cbn [fst] in Hstep1.
  cbv beta iota. rewrite Hstep1, bind_Ok_l. cbv beta iota.
  assert (Hif : forall (d : bool) (env : MaxAndSkipEnv.t),
            FireResetEnv.reset_if (fun env => Ok (MaxAndSkipEnv.reset env)) d env =
              Ok (if d then (MaxAndSkipEnv.reset env).1 else env)).
  { intros d env. unfold FireResetEnv.reset_if. destruct d; [|done].
    rewrite bind_Ok_l. by destruct (MaxAndSkipEnv.reset env). }
  rewrite Hif, bind_Ok_l, Hstep2, bind_Ok_l. cbv beta iota.
  by rewrite Hif, bind_Ok_l.
Qed.

Lemma made_reset_if (s : list nat) (done : bool) (self : MaxAndSkipEnv.t) :
  frames_of_shape s -> made s self -> ready self ->
  made s (if done then (MaxAndSkipEnv.reset self).1 else self) /\
  ready (if done then (MaxAndSkipEnv.reset self).1 else self).
Proof.
  intros Hs Hmade Hready. destruct done; [|done].
  destruct Hmade as (Hskip & Hmax & _).
  by destruct (made_reset s self Hs Hskip Hmax) as (Hm & Hr & _).
Qed.

(** The reset of [FireResetEnv(MaxAndSkipEnv(env))] succeeds and leaves the
    wrapper underneath ready. *)
Lemma fire_reset_ok (s : list nat) (self : MaxAndSkipEnv.t) :
  frames_of_shape s ->
  MaxAndSkipEnv._skip self = 4%nat ->
  Deque.maxlen (MaxAndSkipEnv._obs_buffer self) = 2 ->
  exists self' obs,
    MakeEnv.fire_reset self = Ok (self', obs) /\ made s self' /\ shape obs = s.
Proof.
  intros Hs Hskip Hmax.
  destruct (made_reset s self Hs Hskip Hmax) as (Hm0 & _ & _).
  destruct (made_step s _ 1 Hs Hm0) as (pressed & o1 & r1 & d1 & i1 & Hstep1 & Hm1 & Hr1 & _).
  destruct (made_reset_if s d1 pressed Hs Hm1 Hr1) as (Hm1' & _).
  destruct (made_step s _ 2 Hs Hm1') as (fired & obs & r2 & d2 & i2 & Hstep2 & Hm2 & Hr2 & Hobs).
  destruct (made_reset_if s d2 fired Hs Hm2 Hr2) as (Hm2' & _).
  eexists _, obs. split; [exact (fire_reset_eq _ _ _ _ _ _ _ _ _ _ _ Hstep1 Hstep2)|].
  split; [exact Hm2' | exact Hobs].
Qed.

(** X2. Over [MaxAndSkipEnv], whatever the simulator does (its frames having
    one shape), [FireResetEnv.reset] succeeds: it resets, steps with
    action 1 and then with action 2, resetting again after either step if
    it ended the episode. The observation it returns is the frame of the
    step with action 2, also when that step ended the episode and the
    simulator has been reset since; the wrapper underneath is left ready
    for [step]. *)
Theorem FireResetEnv_reset_spec (s : list nat) (self : MaxAndSkipEnv.t) :
  frames_of_shape s ->
  MaxAndSkipEnv._skip self = 4%nat ->
  Deque.maxlen (MaxAndSkipEnv._obs_buffer self) = 2 ->
  exists pressed r1 d1 i1 o1 before fired obs reward done info self',
    MaxAndSkipEnv.step (MaxAndSkipEnv.reset self).1 1 = Ok (pressed, (o1, r1, d1, i1)) /\
    before = (if d1 then (MaxAndSkipEnv.reset pressed).1 else pressed) /\
    MaxAndSkipEnv.step before 2 = Ok (fired, (obs, reward, done, info)) /\
    self' = (if done then (MaxAndSkipEnv.reset fired).1 else fired) /\
    MakeEnv.fire_reset self = Ok (self', obs) /\
    made s self' /\ ready self' /\ shape obs = s.
Proof.
  intros Hs Hskip Hmax.
  destruct (made_reset s self Hs Hskip Hmax) as (Hm0 & _ & _).
  destruct (made_step s _ 1 Hs Hm0) as (pressed & o1 & r1 & d1 & i1 & Hstep1 & Hm1 & Hr1 & _).
  destruct (made_reset_if s d1 pressed Hs Hm1 Hr1) as (Hm1' & _).
  destruct (made_step s _ 2 Hs Hm1') as (fired & obs & r2 & d2 & i2 & Hstep2 & Hm2 & Hr2 & Hobs).
  destruct (made_reset_if s d2 fired Hs Hm2 Hr2) as (Hm2' & Hr2').
  exists pressed, r1, d1, i1, o1, (if d1 then (MaxAndSkipEnv.reset pressed).1 else pressed),
         fired, obs, r2, d2, i2, (if d2 then (MaxAndSkipEnv.reset fired).1 else fired).
  split; [exact Hstep1|]. split; [reflexivity|]. split; [exact Hstep2|].
  split; [reflexivity|].
  split; [exact (fire_reset_eq _ _ _ _ _ _ _ _ _ _ _ Hstep1 Hstep2)|].
  done.
Qed.

End FireResetFacts.

Lemma black_frames : @frames_of_shape black_env [210; 160; 3]%nat.
Proof. split; intros; reflexivity. Qed.

Lemma FireResetEnv_reset_spec_witness :
  @frames_of_shape black_env [210; 160; 3]%nat /\
  is_Ok (@MakeEnv.fire_reset black_env (@MaxAndSkipEnv.init black_env true 4)).
Proof.
  split; [exact black_frames|].
  destruct (@FireResetEnv_reset_spec black_env [210; 160; 3]%nat
              (@MaxAndSkipEnv.init black_env true 4) black_frames eq_refl eq_refl)
    as (? & ? & ? & ? & ? & ? & ? & obs & ? & ? & ? & self' & _ & _ & _ & _ & Hreset & _).
  exists (self', obs). exact Hreset.
Defined.

(** ** [ImageToPyTorch] over [ProcessFrame84] *)

Lemma pick_singletons {A B} (g : A -> B) (row : list A) :
  map (fun x => [g x]) row ≫= (fun px => take 1 (drop 0 px)) = map g row.
Proof.
  induction row as [|x row IH]; [done|].
  cbn [map mbind list_bind]. rewrite drop_0. cbn [take app]. f_equal. exact IH.
Qed.

Lemma moveaxis_singletons {A B} (g : A -> B) (q : list (list A)) :
  q <> [] -> hd [] q <> [] ->
  ImageToPyTorch.moveaxis_2_0 (map (map (fun x => [g x])) q) = [map (map g) q].
Proof.
  intros Hq Hr. unfold ImageToPyTorch.moveaxis_2_0.
  replace (length (hd [] (hd [] (map (map (fun x => [g x])) q)))) with 1%nat
    by (destruct q as [|[|x r] q]; done).
  cbn [seq map]. f_equal. rewrite map_map. apply map_ext. intros row. apply pick_singletons.
Qed.

Section ImageFacts.
Context `{ImageLibSpec}.

(** What [ImageToPyTorch(ProcessFrame84(env))] makes of a raw frame. *)
Lemma image_ok (frame : ndarray) (rows : nat) :
  (ndarray_size frame = 210 * 160 * 3 /\ rows = 210%nat) \/
  (ndarray_size frame = 250 * 160 * 3 /\ rows = 250%nat) ->
  let screen :=
    cv2_resize_area
      (ProcessFrame84.grayscale (ProcessFrame84.reshape_float32 rows 160 frame)) 84 110 in
  ProcessFrame84.process frame =
    Ok (map3d astype_uint8 (map2d (fun x => [x]) (ProcessFrame84.crop screen))) /\
  MakeEnv.image frame = Ok [map2d astype_uint8 (ProcessFrame84.crop screen)] /\
  is_frame [map2d astype_uint8 (ProcessFrame84.crop screen)].
Proof.
  intros Hsize screen.
  pose proof (process_ok frame rows Hsize) as Hproc. fold screen in Hproc.
  pose proof (crop_rect screen (cv2_resize_shape _ 84 110)) as [Hlen Hrows].
  split; [exact Hproc|]. split.
  - unfold MakeEnv.image. rewrite Hproc, bind_Ok_l. f_equal.
    unfold ImageToPyTorch.observation, map3d, map2d.
    rewrite map_map.
    rewrite (map_ext _ (map (fun x => [astype_uint8 x])))
      by (intros row; by rewrite map_map).
    apply moveaxis_singletons.
    + intros Hnil. rewrite Hnil in Hlen. discriminate.
    + destruct (ProcessFrame84.crop screen) as [|row q]; [discriminate|].
      inversion Hrows as [|? ? Hrow _]; subst. cbn [hd].
      intros Hnil. rewrite Hnil in Hrow. discriminate.
  - eexists. split; [reflexivity|]. unfold map2d. split; [by rewrite length_map|].
    apply Forall_fmap. eapply Forall_impl; [exact Hrows|].
    intros row Hrow. cbn [compose]. split; [by rewrite length_map|].
    apply Forall_fmap, Forall_forall. intros x _. apply astype_uint8_range.
Qed.

(** X6. For a raw frame of a known resolution, the observation
    [ImageToPyTorch] makes of [ProcessFrame84]'s is one channel of 84 by 84
    bytes, the form [BufferWrapper] stacks; its item at [[0, i, j]] is the
    item at [[i, j, 0]] of the processed frame. *)
Theorem ImageToPyTorch_of_processed_frame (frame : ndarray) :
  ndarray_size frame = 210 * 160 * 3 \/ ndarray_size frame = 250 * 160 * 3 ->
  exists x_t : list (list (list Z)),
    ProcessFrame84.process frame = Ok x_t /\
    MakeEnv.image frame = Ok (ImageToPyTorch.observation x_t) /\
    is_frame (ImageToPyTorch.observation x_t) /\
    forall i j, item3 (ImageToPyTorch.observation x_t) 0 i j = item3 x_t i j 0.
Proof.
  intros Hsize.
  assert (Hrows : exists rows,
            (ndarray_size frame = 210 * 160 * 3 /\ rows = 210%nat) \/
            (ndarray_size frame = 250 * 160 * 3 /\ rows = 250%nat)).
  { destruct Hsize as [Hs|Hs]; [exists 210%nat | exists 250%nat]; tauto. }
  destruct Hrows as [rows Hrows].
  destruct (image_ok frame rows Hrows) as (Hproc & Himage & Hframe).
  eexists. split; [exact Hproc|].
  assert (Hobs : MakeEnv.image frame = Ok (ImageToPyTorch.observation
            (map3d astype_uint8 (map2d (fun x => [x])
               (ProcessFrame84.crop (cv2_resize_area
                  (ProcessFrame84.grayscale (ProcessFrame84.reshape_float32 rows 160 frame))
                  84 110)))))).
  { unfold MakeEnv.image. by rewrite Hproc, bind_Ok_l. }
  split; [exact Hobs|].
  rewrite Himage in Hobs. injection Hobs as <-.
  split; [exact Hframe|].
  intros i j. unfold item3. cbn [lookup list_lookup].
  unfold map3d, map2d. rewrite !lookup_map.
  destruct (ProcessFrame84.crop _ !! i) as [row|]; [|done].
  cbn [fmap option_fmap option_map]. rewrite !lookup_map.
  destruct (row !! j) as [x|]; done.
Qed.

End ImageFacts.

Lemma ImageToPyTorch_of_processed_frame_witness :
  ndarray_size black_frame = 210 * 160 * 3 /\
  is_Ok (@MakeEnv.image flat_lib black_frame).
Proof.
  split; [exact black_frame_size|].
  destruct (@ImageToPyTorch_of_processed_frame flat_lib flat_lib_spec black_frame
              (or_introl black_frame_size)) as (x_t & _ & Himage & _).
  eexists. exact Himage.
Defined.

(** ** [make_env]: the composed environment *)

Lemma byte_plane_zero : byte_plane zero_plane.
Proof.
  split; [exact zero_plane_rect|].
  apply Forall_replicate, Forall_replicate. exists 0. split; [lia | reflexivity].
Qed.

Lemma byte_plane_of (obs : list (list (list Z))) : is_frame obs -> byte_plane (plane_of obs).
Proof.
  intros Hobs. split; [by apply plane_of_rect|].
  destruct Hobs as (p & -> & _ & Hrows). unfold plane_of, map2d. cbn [hd].
  apply Forall_fmap. eapply Forall_impl; [exact Hrows|].
  intros row [_ Hrow]. cbn [compose]. apply Forall_fmap.
  eapply Forall_impl; [exact Hrow|]. intros z Hz. cbn [compose]. by exists z.
Qed.

Lemma byte_stack_ok (buf : planes) : byte_stack buf -> stack_ok buf.
Proof.
  intros [Hlen Hall]. split; [exact Hlen|].
  eapply Forall_impl; [exact Hall|]. by intros p [Hp _].
Qed.

Lemma byte_stack_reset (obs : list (list (list Z))) :
  is_frame obs -> byte_stack (replicate 3 zero_plane ++ [plane_of obs]).
Proof.
  intros Hobs. split; [reflexivity|].
  apply Forall_app. split; [apply Forall_replicate, byte_plane_zero|].
  constructor; [by apply byte_plane_of | constructor].
Qed.

Lemma byte_stack_push (buf : planes) (obs : list (list (list Z))) :
  byte_stack buf -> is_frame obs -> byte_stack (drop 1 buf ++ [plane_of obs]).
Proof.
  intros [Hlen Hall] Hobs. split.
  - rewrite length_app, length_drop, Hlen. reflexivity.
  - apply Forall_app. split; [by apply Forall_drop|].
    constructor; [by apply byte_plane_of | constructor].
Qed.

Lemma Forall2_np_full_l (P : spec_float -> spec_float -> Prop) (v : spec_float)
    (d0 d1 d2 : nat) (x : planes) :
  length x = d0 ->
  Forall (fun p => length p = d1 /\
                   Forall (fun row => length row = d2 /\ Forall (P v) row) p) x ->
  Forall2 (Forall2 (Forall2 P)) (Box.np_full d0 d1 d2 v) x.
Proof.
  intros Hlen Hall. unfold Box.np_full.
  apply Forall2_replicate_l; [exact Hlen|].
  eapply Forall_impl; [exact Hall|]. intros p [Hp Hrows]. cbv beta.
  apply Forall2_replicate_l; [exact Hp|].
  eapply Forall_impl; [exact Hrows|]. intros row [Hrow Hitems]. cbv beta.
  by apply Forall2_replicate_l.
Qed.

Lemma Forall2_np_full_r (P : spec_float -> spec_float -> Prop) (v : spec_float)
    (d0 d1 d2 : nat) (x : planes) :
  length x = d0 ->
  Forall (fun p => length p = d1 /\
                   Forall (fun row => length row = d2 /\ Forall (fun y => P y v) row) p) x ->
  Forall2 (Forall2 (Forall2 P)) x (Box.np_full d0 d1 d2 v).
Proof.
  intros Hlen Hall. unfold Box.np_full.
  apply Forall2_replicate_r; [exact Hlen|].
  eapply Forall_impl; [exact Hall|]. intros p [Hp Hrows]. cbv beta.
  apply Forall2_replicate_r; [exact Hp|].
  eapply Forall_impl; [exact Hrows|]. intros row [Hrow Hitems]. cbv beta.
  by apply Forall2_replicate_r.
Qed.

(** The scaled stack lies in the declared space. *)
Lemma scale_in_box (buf : planes) :
  byte_stack buf -> in_box unit_box (ScaledFloatFrame.scale buf).
Proof.
  intros [Hlen Hall].
  assert (Hscaled : forall (Q : spec_float -> Prop),
            (forall z, 0 <= z < 256 -> Q (scale_pixel (Float32.of_Z z))) ->
            Forall (fun p => length p = 84%nat /\
                       Forall (fun row => length row = 84%nat /\ Forall Q row) p)
                   (ScaledFloatFrame.scale buf)).
  { intros Q HQ. unfold ScaledFloatFrame.scale, map3d.
    apply Forall_fmap. eapply Forall_impl; [exact Hall|].
    intros p [[Hp Hrect] Hbytes]. cbn [compose]. split; [by rewrite length_map|].
    apply Forall_fmap, Forall_forall. intros row Hrow. cbn [compose].
    pose proof (proj1 (Forall_forall _ _) Hrect row Hrow) as Hl.
    pose proof (proj1 (Forall_forall _ _) Hbytes row Hrow) as Hb.
    split; [by rewrite length_map|].
    apply Forall_fmap. eapply Forall_impl; [exact Hb|].
    intros x (z & Hz & ->). cbn [compose]. by apply HQ. }
  assert (Hlen' : length (ScaledFloatFrame.scale buf) = 4%nat)
    by (unfold ScaledFloatFrame.scale, map3d; by rewrite length_map).
  unfold in_box, unit_box, Box.full; cbn [Box.low Box.high]. split.
  - apply Forall2_np_full_l; [exact Hlen'|].
    apply Hscaled. intros z Hz. apply (scale_pixel_unit z Hz).
  - apply Forall2_np_full_r; [exact Hlen'|].
    apply Hscaled. intros z Hz. apply (scale_pixel_unit z Hz).
Qed.

Lemma pipeline_low :
  BufferWrapper.observation_space_low Pipeline.init = replicate 4 zero_plane.
Proof. vm_compute. reflexivity. Qed.

(** [BufferWrapper.reset] only reads the declared space of the wrapper. *)
Lemma BufferWrapper_reset_any (h : heap) (bw : BufferWrapper.t) (obs : list (list (list Z))) :
  BufferWrapper.observation_space_low bw = BufferWrapper.observation_space_low Pipeline.init ->
  is_frame obs ->
  BufferWrapper.reset h bw obs =
    Ok (<[fresh (dom h) := replicate 3 zero_plane ++ [plane_of obs]]> h,
        BufferWrapper.mk (BufferWrapper.observation_space_low Pipeline.init)
                         (Some (fresh (dom h))),
        fresh (dom h)).
Proof.
  intros Hlow Hobs. rewrite <- (BufferWrapper_reset_ok h obs Hobs).
  unfold BufferWrapper.reset. by rewrite Hlow.
Qed.

Section MakeEnvFacts.
Context `{RawEnv} `{ImageLibSpec}.

Lemma known_resolution_size (s : list nat) (frame : ndarray) :
  known_resolution s -> shape frame = s ->
  ndarray_size frame = 210 * 160 * 3 \/ ndarray_size frame = 250 * 160 * 3.
Proof. intros Hs <-. exact Hs. Qed.

Lemma make_env_image (s : list nat) (frame : ndarray) :
  known_resolution s -> shape frame = s ->
  exists obs, MakeEnv.image frame = Ok obs /\ is_frame obs.
Proof.
  intros Hs Hshape.
  destruct (known_resolution_size s frame Hs Hshape) as [Hsize|Hsize].
  - destruct (image_ok frame 210 (or_introl (conj Hsize eq_refl))) as (_ & Himg & Hfr). eauto.
  - destruct (image_ok frame 250 (or_intror (conj Hsize eq_refl))) as (_ & Himg & Hfr). eauto.
Qed.

(** The store after [ScaledFloatFrame.observation] on the stack at [l]. *)
Lemma scaled_store (h : heap) (l : loc) (buf : planes) :
  let h1 := <[l := buf]> h in
  let l2 := fresh (dom h1) in
  ScaledFloatFrame.observation h1 l = Ok (<[l2 := ScaledFloatFrame.scale buf]> h1, l2) /\
  (l2 ∉ dom h) /\ l2 <> l /\
  <[l2 := ScaledFloatFrame.scale buf]> h1 !! l2 = Some (ScaledFloatFrame.scale buf) /\
  <[l2 := ScaledFloatFrame.scale buf]> h1 !! l = Some buf /\
  (forall l0, l0 ∈ dom h -> l0 <> l -> <[l2 := ScaledFloatFrame.scale buf]> h1 !! l0 = h !! l0).
Proof.
  intros h1 l2.
  assert (Hl2 : l2 ∉ dom h1) by apply is_fresh.
  unfold h1 in Hl2. rewrite dom_insert_L in Hl2.
  apply not_elem_of_union in Hl2 as [Hne Hl2].
  rewrite not_elem_of_singleton in Hne.
  split; [|split; [exact Hl2|split; [exact Hne|split; [apply lookup_insert_eq|split]]]].
  - unfold ScaledFloatFrame.observation.
    replace (h1 !! l) with (Some buf) by (symmetry; apply lookup_insert_eq).
    reflexivity.
  - rewrite lookup_insert_ne by done. apply lookup_insert_eq.
  - intros l0 Hl0 Hne0.
    rewrite lookup_insert_ne by (intros ->; done).
    unfold h1. by rewrite lookup_insert_ne.
Qed.

(** [env.reset()], computed: the inner wrappers deliver a frame, the stack
    is allocated anew with the frame in its last plane, and its scaled copy
    is returned. *)
Lemma make_env_reset_eq (s : list nat) (h : heap) (self : MakeEnv.t) :
  frames_of_shape s -> known_resolution s -> built s self ->
  exists (env' : MaxAndSkipEnv.t) (obs : list (list (list Z))),
    made s env' /\ is_frame obs /\
    let l := fresh (dom h) in
    let buf := replicate 3 zero_plane ++ [plane_of obs] in
    let h1 := <[l := buf]> h in
    MakeEnv.reset h self =
      Ok (<[fresh (dom h1) := ScaledFloatFrame.scale buf]> h1,
          MakeEnv.mk env'
            (BufferWrapper.mk (BufferWrapper.observation_space_low Pipeline.init) (Some l))
            (MakeEnv.observation_space self),
          fresh (dom h1)).
Proof.
  intros Hframes Hres ((Hskip & Hmax & _) & Hlow & Hspace).
  destruct (fire_reset_ok s (MakeEnv.env self) Hframes Hskip Hmax)
    as (env' & frame & Hfire & Hmade & Hshape).
  destruct (make_env_image s frame Hres Hshape) as (obs & Himage & Hobs).
  exists env', obs. split; [exact Hmade|]. split; [exact Hobs|]. intros l buf h1.
  unfold MakeEnv.reset. rewrite Hfire, bind_Ok_l. cbv beta iota.
  rewrite Himage, bind_Ok_l.
  unfold Pipeline.reset. rewrite (BufferWrapper_reset_any h _ obs Hlow Hobs), bind_Ok_l.
  cbv beta iota. fold l buf h1.
  destruct (scaled_store h l buf) as (Hscaled & _). cbv zeta in Hscaled. fold h1 in Hscaled.
  by rewrite Hscaled, bind_Ok_l.
Qed.

(** [env.step(action)], computed, once the stack exists. *)
Lemma make_env_step_eq (s : list nat) (h : heap) (self : MakeEnv.t) (action : Z)
    (l : loc) (buf : planes) :
  frames_of_shape s -> known_resolution s -> made s (MakeEnv.env self) ->
  BufferWrapper.buffer (MakeEnv.frames self) = Some l -> h !! l = Some buf ->
  byte_stack buf ->
  exists (env' : MaxAndSkipEnv.t) (obs : list (list (list Z)))
         (reward : spec_float) (done : bool) (info : env_info),
    made s env' /\ is_frame obs /\
    let buf' := drop 1 buf ++ [plane_of obs] in
    let h1 := <[l := buf']> h in
    MakeEnv.step h self action =
      Ok (<[fresh (dom h1) := ScaledFloatFrame.scale buf']> h1,
          MakeEnv.mk env' (MakeEnv.frames self) (MakeEnv.observation_space self),
          (fresh (dom h1), reward, done, info)).
Proof.
  intros Hframes Hres Hmade Hbuf Hh Hstack.
  destruct (made_step s (MakeEnv.env self) action Hframes Hmade)
    as (env' & frame & reward & done & info & Hstep & Hmade' & _ & Hshape).
  destruct (make_env_image s frame Hres Hshape) as (obs & Himage & Hobs).
  exists env', obs, reward, done, info. split; [exact Hmade'|]. split; [exact Hobs|].
  intros buf' h1.
  unfold MakeEnv.step, MakeEnv.fire_step, FireResetEnv.step.
  rewrite Hstep, bind_Ok_l. cbv beta iota.
  rewrite Himage, bind_Ok_l.
  unfold Pipeline.observation.
  rewrite (BufferWrapper_observation_ok h _ l buf obs Hbuf Hh (byte_stack_ok buf Hstack) Hobs),
    bind_Ok_l.
  cbv beta iota. fold buf' h1.
  destruct (scaled_store h l buf') as (Hscaled & _). cbv zeta in Hscaled. fold h1 in Hscaled.
  by rewrite Hscaled, bind_Ok_l.
Qed.

(** X12. [env.reset()] on the environment [make_env] built, at any time:
    it succeeds; the observation is a new array, in the declared space
    [Box(0.0, 1.0, (4, 84, 84))], whose three oldest planes are zero; no
    array that existed before is changed; and the environment is ready for
    [step]. *)
Theorem make_env_reset_spec (s : list nat) (h : heap) (self : MakeEnv.t) :
  frames_of_shape s -> known_resolution s -> built s self ->
  exists (h' : heap) (self' : MakeEnv.t) (l : loc) (obs : planes),
    MakeEnv.reset h self = Ok (h', self', l) /\
    live s h' self' /\
    (l ∉ dom h) /\ h' !! l = Some obs /\
    in_box (MakeEnv.observation_space self') obs /\
    take 3 obs = replicate 3 zero_plane /\
    (forall l0, l0 ∈ dom h -> h' !! l0 = h !! l0).
Proof.
  intros Hframes Hres Hbuilt.
  destruct (make_env_reset_eq s h self Hframes Hres Hbuilt)
    as (env' & obs & Hmade & Hobs & Hreset). cbv zeta in Hreset.
  destruct Hbuilt as (_ & _ & Hspace).
  set (l := fresh (dom h)) in *.
  set (buf := replicate 3 zero_plane ++ [plane_of obs]) in *.
  destruct (scaled_store h l buf) as (_ & Hl2 & Hne & Hnew & Hkept & Hold).
  cbv zeta in Hl2, Hne, Hnew, Hkept, Hold.
  assert (Hstack : byte_stack buf) by (by apply byte_stack_reset).
  eexists _, _, _, (ScaledFloatFrame.scale buf). split; [exact Hreset|].
  split; [|split; [exact Hl2|split; [exact Hnew|split; [|split]]]].
  - split; [split; [exact Hmade | split; [reflexivity | exact Hspace]]|].
    exists l, buf. split; [reflexivity|]. split; [exact Hkept | exact Hstack].
  - cbn [MakeEnv.observation_space]. rewrite Hspace. by apply scale_in_box.
  - unfold buf, ScaledFloatFrame.scale, map3d.
    rewrite map_app, take_app_length' by (by rewrite length_map, length_replicate).
    vm_compute. reflexivity.
  - intros l0 Hl0. apply Hold; [exact Hl0|].
    intros ->. by apply (is_fresh (dom h)).
Qed.

(** X13. [env.step(action)] once the environment has been reset: it succeeds;
    the observation is a new array in the declared space whose three
    oldest planes are the three newest of the stack before the step,
    scaled; no array that existed before is changed but the wrapper's own
    stack; and the environment is ready for the next [step]. *)
Theorem make_env_step_spec (s : list nat) (h : heap) (self : MakeEnv.t) (action : Z) :
  frames_of_shape s -> known_resolution s -> live s h self ->
  exists (h' : heap) (self' : MakeEnv.t) (l : loc) (obs : planes)
         (reward : spec_float) (done : bool) (info : env_info) (l_buf : loc) (buf : planes),
    MakeEnv.step h self action = Ok (h', self', (l, reward, done, info)) /\
    live s h' self' /\
    (l ∉ dom h) /\ h' !! l = Some obs /\
    in_box (MakeEnv.observation_space self') obs /\
    BufferWrapper.buffer (MakeEnv.frames self) = Some l_buf /\ h !! l_buf = Some buf /\
    take 3 obs = ScaledFloatFrame.scale (drop 1 buf) /\
    (forall l0, l0 ∈ dom h -> l0 <> l_buf -> h' !! l0 = h !! l0).
Proof.
  intros Hframes Hres ((Hmade & Hlow & Hspace) & l_buf & buf & Hbuf & Hh & Hstack).
  destruct (make_env_step_eq s h self action l_buf buf Hframes Hres Hmade Hbuf Hh Hstack)
    as (env' & obs & reward & done & info & Hmade' & Hobs & Hstep). cbv zeta in Hstep.
  set (buf' := drop 1 buf ++ [plane_of obs]) in *.
  destruct (scaled_store h l_buf buf') as (_ & Hl2 & Hne & Hnew & Hkept & Hold).
  cbv zeta in Hl2, Hne, Hnew, Hkept, Hold.
  assert (Hstack' : byte_stack buf') by (by apply byte_stack_push).
  eexists _, _, _, (ScaledFloatFrame.scale buf'), reward, done, info, l_buf, buf.
  split; [exact Hstep|].
  split; [|split; [exact Hl2|split; [exact Hnew|split; [|split; [exact Hbuf|split;
    [exact Hh|split; [|exact Hold]]]]]]].
  - split; [split; [exact Hmade' | split; [exact Hlow | exact Hspace]]|].
    exists l_buf, buf'. split; [exact Hbuf|]. split; [exact Hkept | exact Hstack'].
  - cbn [MakeEnv.observation_space]. rewrite Hspace. by apply scale_in_box.
  - unfold buf', ScaledFloatFrame.scale, map3d.
    rewrite map_app, take_app_length'; [done|].
    destruct Hstack as [Hlen _]. by rewrite length_map, length_drop, Hlen.
Qed.


(** X11. [make_env] succeeds exactly on a simulator with at least three
    actions of which the second is FIRE; the environment it returns
    declares the space [Box(0.0, 1.0, (4, 84, 84))], repeats each action
    4 times, and holds no stack of frames until it is reset. *)
Theorem make_env_spec (action_meanings : list string) (e : env_state) :
  (is_Ok (MakeEnv.make_env action_meanings e) <->
     action_meanings !! 1%nat = Some "FIRE" /\ (3 <= length action_meanings)%nat) /\
  (forall self, MakeEnv.make_env action_meanings e = Ok self ->
     MakeEnv.env self = MaxAndSkipEnv.init e 4 /\
     BufferWrapper.buffer (MakeEnv.frames self) = None /\
     MakeEnv.observation_space self = unit_box /\
     Box.shape (MakeEnv.observation_space self) = [4; 84; 84]%nat /\
     forall s, built s self).
Proof.
  assert (Hmake : forall env,
            FireResetEnv.init action_meanings (MaxAndSkipEnv.init e 4) = Ok env ->
            MakeEnv.make_env action_meanings e =
              Ok (MakeEnv.mk env Pipeline.init unit_box)).
  { intros env Henv. unfold MakeEnv.make_env. rewrite Henv, bind_Ok_l.
    vm_compute. reflexivity. }
  assert (Hinit : forall self, MakeEnv.make_env action_meanings e = Ok self ->
            FireResetEnv.init action_meanings (MaxAndSkipEnv.init e 4) =
              Ok (MaxAndSkipEnv.init e 4) /\
            action_meanings !! 1%nat = Some "FIRE" /\ (3 <= length action_meanings)%nat).
  { intros self Hself. unfold MakeEnv.make_env in Hself.
    apply bind_Ok in Hself as (env & Henv & _).
    destruct (FireResetEnv_init_Ok _ _ _ Henv) as (-> & Hfire & Hlen). done. }
  split.
  - split.
    + intros [self Hself]. by destruct (Hinit self Hself) as (_ & ? & ?).
    + intros [Hfire Hlen].
      assert (Henv : FireResetEnv.init action_meanings (MaxAndSkipEnv.init e 4)
                     = Ok (MaxAndSkipEnv.init e 4)).
      { unfold FireResetEnv.init. rewrite Hfire.
        replace (String.eqb "FIRE" "FIRE") with true by reflexivity. cbn [negb].
        by replace (3 <=? Z.of_nat (length action_meanings)) with true
          by (symmetry; apply Z.leb_le; lia). }
      rewrite (Hmake _ Henv). by eexists.
  - intros self Hself.
    destruct (Hinit self Hself) as (Henv & _).
    rewrite (Hmake _ Henv) in Hself. injection Hself as <-.
    cbn [MakeEnv.env MakeEnv.frames MakeEnv.observation_space].
    split; [reflexivity|]. split; [reflexivity|]. split; [reflexivity|].
    split; [vm_compute; reflexivity|].
    intros s. split; [apply made_init | split; reflexivity].
Qed.

End MakeEnvFacts.

Lemma black_resolution : known_resolution [210; 160; 3]%nat.
Proof. left. unfold foldr. lia. Qed.

Lemma black_made_built : @built black_env [210; 160; 3]%nat black_made.
Proof. split; [apply (@made_init black_env) | split; reflexivity]. Qed.

Lemma black_live_live : @live black_env [210; 160; 3]%nat black_heap black_live.
Proof.
  split; [split; [apply (@made_init black_env) | split; reflexivity]|].
  exists 0%nat, (replicate 4 zero_plane).
  split; [reflexivity|]. split; [apply lookup_insert_eq|].
  split; [reflexivity|]. apply Forall_replicate, byte_plane_zero.
Qed.

Lemma make_env_reset_spec_witness :
  @frames_of_shape black_env [210; 160; 3]%nat /\
  known_resolution [210; 160; 3]%nat /\
  @built black_env [210; 160; 3]%nat black_made /\
  is_Ok (@MakeEnv.reset black_env flat_lib ∅ black_made).
Proof.
  split; [exact black_frames|]. split; [exact black_resolution|].
  split; [exact black_made_built|].
  destruct (@make_env_reset_spec black_env flat_lib flat_lib_spec [210; 160; 3]%nat ∅ black_made
              black_frames black_resolution black_made_built)
    as (h' & self' & l & _ & Hreset & _).
  eexists. exact Hreset.
Defined.

Lemma make_env_step_spec_witness :
  @frames_of_shape black_env [210; 160; 3]%nat /\
  known_resolution [210; 160; 3]%nat /\
  @live black_env [210; 160; 3]%nat black_heap black_live /\
  is_Ok (@MakeEnv.step black_env flat_lib black_heap black_live 0).
Proof.
  split; [exact black_frames|]. split; [exact black_resolution|].
  split; [exact black_live_live|].
  destruct (@make_env_step_spec black_env flat_lib flat_lib_spec [210; 160; 3]%nat
              black_heap black_live 0 black_frames black_resolution black_live_live)
    as (h' & self' & l & _ & reward & done & info & _ & _ & Hstep & _).
  eexists. exact Hstep.
Defined.


(** ** The training loop: setup, warm-up, frame count and stored transitions *)

Section NewValues.
Context {T : Type}.

(** A new network holds the values it was initialized with. *)
Lemma new_values (vs : list T) : forall (st st' : gmap loc T) (ls : list loc),
  Net.new st vs = (st', ls) -> Net.values st' ls = vs.
Proof.
  induction vs as [|v vs IH]; intros st st' ls Hnew; cbn [Net.new] in Hnew.
  - by injection Hnew as <- <-.
  - destruct (Net.new (<[fresh (dom st) := v]> st) vs) as [st1 ls1] eqn:Hrec.
    injection Hnew as <- <-.
    destruct (new_spec vs _ _ _ Hrec) as (_ & _ & _ & Hold).
    unfold Net.values. cbn [omap list_omap].
    rewrite (Hold (fresh (dom st))) by (rewrite dom_insert_L; apply elem_of_union_l, elem_of_singleton_2; reflexivity).
    rewrite lookup_insert_eq. f_equal. exact (IH _ _ _ Hrec).
Qed.

End NewValues.

Section SetupFacts.
Context {T Obs : Type} `{Backend T Obs} `{GymEnv Obs}.
Implicit Types (g : TrainingLoop.globals) (o : Oracle).

(** X17. Cell 21 and the first [env.reset()]. With two networks of one
    architecture the setup succeeds: the target network's own initial
    values are overwritten with the online network's, which are the ones it
    was created with; the two networks share no tensor; the store is empty
    and no frame has been counted. With different numbers of tensors
    [load_state_dict] refuses the copy. *)
Theorem setup_spec (e0 : gym_state) (q_init target_init : list T) (adam0 : adam_state) :
  (length target_init = length q_init ->
   forall e s, gym_reset e0 = Ok (e, s) ->
   exists g, TrainingLoop.setup e0 q_init target_init adam0 = Ok g /\
     q_values g = q_init /\ target_values g = q_init /\
     (forall l, l ∈ TrainingLoop.target_network g -> l ∉ TrainingLoop.q_network g) /\
     Net.opt_params (TrainingLoop.optimizer g) = TrainingLoop.q_network g /\
     buffer_len g = 0 /\ TrainingLoop.frame_idx g = 0 /\
     TrainingLoop.total_rewards g = [] /\
     TrainingLoop.env g = e /\ TrainingLoop.state g = s) /\
  (length target_init <> length q_init ->
   TrainingLoop.setup e0 q_init target_init adam0 = Raise RuntimeError).
Proof.
  unfold TrainingLoop.setup.
  destruct (Net.new ∅ q_init) as [st1 q] eqn:Hq.
  destruct (Net.new st1 target_init) as [st2 tgt] eqn:Ht.
  destruct (new_spec _ _ _ _ Hq) as (Hndq & Hlq & Hnewq & _).
  destruct (new_spec _ _ _ _ Ht) as (Hndt & Hlt & Hnewt & Holdt).
  assert (Hdisj : forall l, l ∈ tgt -> l ∉ q).
  { intros l Hl Hlq'. destruct (Hnewt l Hl) as [Hnd _]. apply Hnd.
    apply elem_of_dom. by destruct (Hnewq l Hlq'). }
  assert (Halloc : Forall (fun l => is_Some (st2 !! l)) q).
  { apply Forall_forall. intros l Hl. destruct (Hnewq l Hl) as [_ Hsome].
    rewrite Holdt; [exact Hsome | by apply elem_of_dom]. }
  assert (Hq2 : Net.values st2 q = q_init).
  { rewrite <- (new_values _ _ _ _ Hq). apply values_same.
    intros l Hl. apply Holdt. apply elem_of_dom. by destruct (Hnewq l Hl). }
  split.
  - intros Hlen e s Hreset.
    assert (Hlen' : length tgt = length q) by congruence.
    destruct (load_state_dict_spec st2 tgt q Hndt Hdisj Hlen' Halloc)
      as (st3 & Hload & Hvals & Hother & Hkeep).
    rewrite Hload, bind_Ok_l.
    unfold ReplayBuffer.init, Deque.new.
    replace (REPLAY_MEMORY <? 0) with false by reflexivity.
    rewrite !bind_Ok_l, Hreset, bind_Ok_l.
    eexists. split; [reflexivity|].
    unfold q_values, target_values, buffer_len.
    cbn [TrainingLoop.params TrainingLoop.q_network TrainingLoop.target_network
         TrainingLoop.optimizer TrainingLoop.replay_buffer TrainingLoop.frame_idx
         TrainingLoop.total_rewards TrainingLoop.env TrainingLoop.state Net.opt_params].
    assert (Hq3 : Net.values st3 q = q_init).
    { rewrite <- Hq2. apply values_same.
      intros l Hl. apply Hother. intros Hl'. by apply (Hdisj l). }
    split_and!; try done. by rewrite Hvals.
  - intros Hlen. unfold Net.load_state_dict.
    rewrite bool_decide_false by congruence. reflexivity.
Qed.

End SetupFacts.

Lemma Deque_append_len_succ {A} (d : Deque.deque A) (x : A) :
  Deque.len (Deque.append d x) <= Deque.len d + 1.
Proof.
  unfold Deque.len, Deque.append; simpl.
  destruct (_ <? _); [rewrite length_drop|]; rewrite length_app; simpl; lia.
Qed.

Section RunFacts.
Context {T Obs : Type} `{Backend T Obs} `{GymEnv Obs}.
Implicit Types (g : TrainingLoop.globals) (o : Oracle).

Lemma sync_target_frame g g2 :
  TrainingLoop.sync_target g = Ok g2 ->
  TrainingLoop.frame_idx g2 = TrainingLoop.frame_idx g /\
  TrainingLoop.state g2 = TrainingLoop.state g.
Proof.
  unfold TrainingLoop.sync_target.
  destruct (_ =? _); [|by intros [= <-]].
  intros Hs. inv_bind Hs. by injection Hs as <-.
Qed.

Lemma learn_frame g o g3 :
  TrainingLoop.learn g o = Ok g3 ->
  TrainingLoop.frame_idx g3 = TrainingLoop.frame_idx g /\
  TrainingLoop.state g3 = TrainingLoop.state g.
Proof.
  unfold TrainingLoop.learn. intros Hl. inv_bind Hl. inv_bind Hl.
  destruct (Net.step _ _ _). by injection Hl as <-.
Qed.

(** A pass counts one frame. *)
Lemma iteration_frame g o g' fl :
  TrainingLoop.iteration g o = Ok (g', fl) ->
  TrainingLoop.frame_idx g' = TrainingLoop.frame_idx g + 1.
Proof.
  intros Hi. destruct (iteration_cases g o g' fl Hi) as (g1 & fl1 & Hc & Hcases).
  destruct (collect_spec g o g1 fl1 Hc) as (_ & _ & _ & _ & _ & Hf & _).
  destruct Hcases as [(_ & -> & _)|[(_ & _ & -> & _)|(_ & _ & _ & g2 & Hs & Hl)]];
    try exact Hf.
  destruct (learn_frame _ _ _ Hl) as [-> _]. destruct (sync_target_frame _ _ Hs) as [-> _].
  exact Hf.
Qed.

(** A pass in the warm-up is its collection phase and nothing more. *)
Lemma iteration_warmup g o g' fl :
  TrainingLoop.iteration g o = Ok (g', fl) ->
  buffer_len g + 1 < INITIAL_MEMORY ->
  TrainingLoop.collect g o = Ok (g', fl) /\ buffer_len g' <= buffer_len g + 1.
Proof.
  intros Hi Hlen. destruct (iteration_cases g o g' fl Hi) as (g1 & fl1 & Hc & Hcases).
  destruct (collect_spec g o g1 fl1 Hc) as (_ & _ & _ & _ & _ & _ & exp & Hrb).
  assert (Hlen1 : buffer_len g1 <= buffer_len g + 1).
  { unfold buffer_len, ReplayBuffer.len. rewrite Hrb. apply Deque_append_len_succ. }
  destruct Hcases as [(-> & -> & ->)|[(-> & _ & -> & ->)|(_ & Hge & _)]]; [done | done | lia].
Qed.

Lemma run_warmup (os : list Oracle) : forall g g',
  TrainingLoop.run os g = Ok g' ->
  buffer_len g + Z.of_nat (length os) < INITIAL_MEMORY ->
  TrainingLoop.params g' = TrainingLoop.params g /\
  TrainingLoop.q_network g' = TrainingLoop.q_network g /\
  TrainingLoop.target_network g' = TrainingLoop.target_network g /\
  TrainingLoop.optimizer g' = TrainingLoop.optimizer g /\
  TrainingLoop.trace g' = TrainingLoop.trace g.
Proof.
  induction os as [|o os IH]; intros g g' Hrun Hlen; cbn [TrainingLoop.run] in Hrun.
  - by injection Hrun as <-.
  - destruct (TrainingLoop.frame_idx g <? total_frames); [|by injection Hrun as <-].
    inv_bind Hrun. destruct a as [g1 fl].
    cbn [length] in Hlen.
    destruct (iteration_warmup g o g1 fl E ltac:(lia)) as [Hc Hlen1].
    destruct (collect_spec g o g1 fl Hc) as (Hp & Hq & Ht & Ho & Htr & _ & _).
    destruct fl.
    + destruct (IH g1 g' Hrun ltac:(lia)) as (-> & -> & -> & -> & ->). done.
    + by injection Hrun as <-.
Qed.

(** X18. While the store cannot reach the warm-up threshold, the loop only
    collects: after any number of passes that leaves the store below
    [INITIAL_MEMORY], both networks hold the parameter values they had, the
    optimizer is untouched, and no synchronization or learning step has been
    recorded. *)
Theorem warmup_changes_no_parameter (os : list Oracle) g g' :
  TrainingLoop.run os g = Ok g' ->
  buffer_len g + Z.of_nat (length os) < INITIAL_MEMORY ->
  q_values g' = q_values g /\ target_values g' = target_values g /\
  TrainingLoop.optimizer g' = TrainingLoop.optimizer g /\
  TrainingLoop.trace g' = TrainingLoop.trace g.
Proof.
  intros Hrun Hlen.
  destruct (run_warmup os g g' Hrun Hlen) as (Hp & Hq & Ht & Ho & Htr).
  unfold q_values, target_values. by rewrite Hp, Hq, Ht.
Qed.

(** X19. The loop counts one frame per pass and never passes [total_frames]:
    after a run, the frame count has grown by at most the number of draws
    supplied, and it is at most [total_frames] if it was before. *)
Theorem run_frame_idx (os : list Oracle) g g' :
  TrainingLoop.run os g = Ok g' ->
  TrainingLoop.frame_idx g <= TrainingLoop.frame_idx g' <=
    TrainingLoop.frame_idx g + Z.of_nat (length os) /\
  (TrainingLoop.frame_idx g <= total_frames -> TrainingLoop.frame_idx g' <= total_frames).
Proof.
  revert g g'. induction os as [|o os IH]; intros g g' Hrun; cbn [TrainingLoop.run] in Hrun.
  - injection Hrun as <-. cbn [length]. lia.
  - destruct (Z.ltb_spec (TrainingLoop.frame_idx g) total_frames) as [Hlt|Hge];
      [|injection Hrun as <-; cbn [length]; lia].
    inv_bind Hrun. destruct a as [g1 fl].
    pose proof (iteration_frame g o g1 fl E) as Hf.
    cbn [length]. destruct fl.
    + destruct (IH g1 g' Hrun) as [Hb Ht]. lia.
    + injection Hrun as <-. lia.
Qed.

End RunFacts.

(** A pass of the warm-up on the toy instances, run. *)
Lemma toy_run_warmup :
  TrainingLoop.run [toy_oracle []] (toy_globals false empty_buffer 999)
    = Ok (toy_collected empty_buffer).
Proof.
  cbn [TrainingLoop.run].
  replace (TrainingLoop.frame_idx (toy_globals false empty_buffer 999) <? total_frames)
    with true by reflexivity.
  unfold TrainingLoop.iteration. rewrite toy_collect, bind_Ok_l. reflexivity.
Qed.

Lemma warmup_changes_no_parameter_witness :
  TrainingLoop.run [toy_oracle []] (toy_globals false empty_buffer 999)
    = Ok (toy_collected empty_buffer) /\
  buffer_len (toy_globals false empty_buffer 999) + Z.of_nat (length [toy_oracle []])
    < INITIAL_MEMORY /\
  q_values (toy_collected empty_buffer) = q_values (toy_globals false empty_buffer 999).
Proof.
  assert (Hlen : buffer_len (toy_globals false empty_buffer 999)
                 + Z.of_nat (length [toy_oracle []]) < INITIAL_MEMORY)
    by (vm_compute; reflexivity).
  split; [exact toy_run_warmup|]. split; [exact Hlen|].
  exact (proj1 (@warmup_changes_no_parameter Z unit toy_backend toy_env
                  [toy_oracle []] (toy_globals false empty_buffer 999)
                  (toy_collected empty_buffer) toy_run_warmup Hlen)).
Defined.

Lemma run_frame_idx_witness :
  TrainingLoop.run [toy_oracle []] (toy_globals false empty_buffer 999)
    = Ok (toy_collected empty_buffer) /\
  TrainingLoop.frame_idx (toy_globals false empty_buffer 999)
    <= TrainingLoop.frame_idx (toy_collected empty_buffer)
    <= TrainingLoop.frame_idx (toy_globals false empty_buffer 999)
       + Z.of_nat (length [toy_oracle []]).
Proof.
  split; [exact toy_run_warmup|].
  exact (proj1 (@run_frame_idx Z unit toy_backend toy_env
                  [toy_oracle []] (toy_globals false empty_buffer 999)
                  (toy_collected empty_buffer) toy_run_warmup)).
Defined.

(** *** Stored transitions form chains *)

Section ChainFacts.
Context {Obs : Type}.
Implicit Types (es : list (Experience.t Obs)) (e : Experience.t Obs).

Lemma chained_snoc es e :
  chained es -> follows es (Experience.state e) -> chained (es ++ [e]).
Proof.
  intros Hch Hfol i e1 e2 H1 H2 Hd.
  destruct (decide (S i < length es)%nat) as [Hlt|Hge].
  - rewrite lookup_app_l in H1 by lia. rewrite lookup_app_l in H2 by lia.
    by apply (Hch i).
  - pose proof (lookup_lt_Some _ _ _ H2) as Hlen. rewrite length_app in Hlen. simpl in Hlen.
    assert (Hi : S i = length es) by lia.
    rewrite lookup_app_l in H1 by lia.
    rewrite lookup_app_r in H2 by lia.
    replace (S i - length es)%nat with 0%nat in H2 by lia. injection H2 as <-.
    unfold follows in Hfol.
    assert (Hlast : last es = Some e1).
    { rewrite last_lookup. rewrite <- H1. f_equal. lia. }
    rewrite Hlast in Hfol. by apply Hfol.
Qed.

Lemma chained_drop es (n : nat) : chained es -> chained (drop n es).
Proof.
  intros Hch i e1 e2 H1 H2 Hd. rewrite lookup_drop in H1, H2.
  apply (Hch (n + i)%nat); [done | | done].
  by replace (S (n + i)) with (n + S i)%nat by lia.
Qed.

Lemma follows_append (d : Deque.deque (Experience.t Obs)) e (s : Obs) :
  (Experience.done e = false -> s = Experience.new_state e) ->
  follows (Deque.items (Deque.append d e)) s.
Proof.
  intros Hs. unfold follows, Deque.append; cbn [Deque.items].
  destruct (_ <? _).
  - destruct (Deque.items d) as [|x l]; [done|].
    cbn [app]. rewrite skipn_cons, drop_0, last_snoc. exact Hs.
  - rewrite last_snoc. exact Hs.
Qed.

Lemma chained_append (d : Deque.deque (Experience.t Obs)) e :
  chained (Deque.items d) -> follows (Deque.items d) (Experience.state e) ->
  chained (Deque.items (Deque.append d e)).
Proof.
  intros Hch Hfol. unfold Deque.append; cbn [Deque.items].
  destruct (_ <? _); [apply chained_drop|]; by apply chained_snoc.
Qed.

End ChainFacts.

Section ChainLoop.
Context {T Obs : Type} `{Backend T Obs} `{GymEnv Obs}.
Implicit Types (g : TrainingLoop.globals) (o : Oracle).

(** The invariant: the store is chained and the current observation
    follows its newest transition. *)
Lemma collect_chained g o g1 fl :
  TrainingLoop.collect g o = Ok (g1, fl) ->
  chained (Deque.items (ReplayBuffer.buffer (TrainingLoop.replay_buffer g))) ->
  follows (Deque.items (ReplayBuffer.buffer (TrainingLoop.replay_buffer g)))
          (TrainingLoop.state g) ->
  chained (Deque.items (ReplayBuffer.buffer (TrainingLoop.replay_buffer g1))) /\
  follows (Deque.items (ReplayBuffer.buffer (TrainingLoop.replay_buffer g1)))
          (TrainingLoop.state g1).
Proof.
  unfold TrainingLoop.collect. intros Hc Hch Hfol. inv_bind Hc.
  destruct a as [e [[next_state reward] done]].
  destruct done.
  - inv_bind Hc. destruct a as [e' s]. injection Hc as <- <-.
    cbn [TrainingLoop.replay_buffer TrainingLoop.state ReplayBuffer.append ReplayBuffer.buffer].
    split; [by apply chained_append | by apply follows_append].
  - injection Hc as <- <-.
    cbn [TrainingLoop.replay_buffer TrainingLoop.state ReplayBuffer.append ReplayBuffer.buffer].
    split; [by apply chained_append | by apply follows_append].
Qed.

Lemma iteration_chained g o g' fl :
  TrainingLoop.iteration g o = Ok (g', fl) ->
  chained (Deque.items (ReplayBuffer.buffer (TrainingLoop.replay_buffer g))) ->
  follows (Deque.items (ReplayBuffer.buffer (TrainingLoop.replay_buffer g)))
          (TrainingLoop.state g) ->
  chained (Deque.items (ReplayBuffer.buffer (TrainingLoop.replay_buffer g'))) /\
  follows (Deque.items (ReplayBuffer.buffer (TrainingLoop.replay_buffer g')))
          (TrainingLoop.state g').
Proof.
  intros Hi Hch Hfol.
  destruct (iteration_cases g o g' fl Hi) as (g1 & fl1 & Hc & Hcases).
  pose proof (collect_chained g o g1 fl1 Hc Hch Hfol) as H1.
  destruct Hcases as [(_ & -> & _)|[(_ & _ & -> & _)|(_ & _ & _ & g2 & Hs & Hl)]];
    try exact H1.
  rewrite (learn_keeps _ _ _ Hl), (sync_target_keeps _ _ Hs).
  destruct (learn_frame _ _ _ Hl) as [_ ->]. destruct (sync_target_frame _ _ Hs) as [_ ->].
  exact H1.
Qed.

(** X20. Every transition the loop stores starts at the observation the
    previous one arrived at, unless the previous one ended an episode:
    within an episode the stored transitions form a chain, through any
    number of passes and evictions, and the loop's current observation
    continues the newest one. *)
Theorem run_keeps_transitions_chained (os : list Oracle) g g' :
  TrainingLoop.run os g = Ok g' ->
  chained (Deque.items (ReplayBuffer.buffer (TrainingLoop.replay_buffer g))) ->
  follows (Deque.items (ReplayBuffer.buffer (TrainingLoop.replay_buffer g)))
          (TrainingLoop.state g) ->
  chained (Deque.items (ReplayBuffer.buffer (TrainingLoop.replay_buffer g'))) /\
  follows (Deque.items (ReplayBuffer.buffer (TrainingLoop.replay_buffer g')))
          (TrainingLoop.state g').
Proof.
  revert g g'. induction os as [|o os IH]; intros g g' Hrun Hch Hfol;
    cbn [TrainingLoop.run] in Hrun.
  - by injection Hrun as <-.
  - destruct (_ <? _); [|by injection Hrun as <-].
    inv_bind Hrun. destruct a as [g1 fl].
    destruct (iteration_chained g o g1 fl E Hch Hfol) as [Hch1 Hfol1].
    destruct fl; [by apply (IH g1) | by injection Hrun as <-].
Qed.

End ChainLoop.

Lemma run_keeps_transitions_chained_witness :
  TrainingLoop.run [toy_oracle []] (toy_globals false empty_buffer 999)
    = Ok (toy_collected empty_buffer) /\
  chained (Deque.items (ReplayBuffer.buffer (TrainingLoop.replay_buffer
             (toy_collected empty_buffer)))).
Proof.
  split; [exact toy_run_warmup|].
  refine (proj1 (@run_keeps_transitions_chained Z unit toy_backend toy_env
                   [toy_oracle []] (toy_globals false empty_buffer 999)
                   (toy_collected empty_buffer) toy_run_warmup _ _)).
  - intros i e e' Hi. discriminate.
  - exact I.
Defined.

(** *** The schedule of learning steps and synchronizations *)

Lemma Deque_append_len_min {A} (d : Deque.deque A) (x : A) :
  Deque.len d <= Deque.maxlen d ->
  Deque.len (Deque.append d x) = Z.min (Deque.len d + 1) (Deque.maxlen d).
Proof.
  unfold Deque.len, Deque.append; simpl. intros Hle.
  destruct (Z.ltb_spec (Deque.maxlen d) (Z.of_nat (length (Deque.items d ++ [x]))));
    [rewrite length_drop|]; rewrite length_app in *; simpl in *; lia.
Qed.

Section ScheduleFacts.
Context {T Obs : Type} `{Backend T Obs} `{GymEnv Obs}.
Implicit Types (g : TrainingLoop.globals) (o : Oracle).

Lemma sync_target_trace g g2 :
  TrainingLoop.sync_target g = Ok g2 ->
  TrainingLoop.trace g2 = TrainingLoop.trace g \/
  (TrainingLoop.frame_idx g mod TARGET_UPDATE = 0 /\
   TrainingLoop.trace g2 = TrainingLoop.trace g ++ [TargetSync (TrainingLoop.frame_idx g)]).
Proof.
  unfold TrainingLoop.sync_target.
  destruct (Z.eqb_spec (TrainingLoop.frame_idx g mod TARGET_UPDATE) 0) as [Hm|Hm];
    [|intros [= <-]; by left].
  intros Hs. inv_bind Hs. injection Hs as <-. right. done.
Qed.

Lemma learn_trace g o g3 :
  TrainingLoop.learn g o = Ok g3 ->
  TrainingLoop.trace g3 = TrainingLoop.trace g ++ [LearnStep (TrainingLoop.frame_idx g)].
Proof.
  unfold TrainingLoop.learn. intros Hl. inv_bind Hl. inv_bind Hl.
  destruct (Net.step _ _ _). by injection Hl as <-.
Qed.

(** The store holds one transition per frame counted, up to its
    capacity. *)
Lemma iteration_store g o g' fl :
  TrainingLoop.iteration g o = Ok (g', fl) ->
  Deque.maxlen (ReplayBuffer.buffer (TrainingLoop.replay_buffer g)) = REPLAY_MEMORY ->
  0 <= TrainingLoop.frame_idx g ->
  buffer_len g = Z.min (TrainingLoop.frame_idx g) REPLAY_MEMORY ->
  Deque.maxlen (ReplayBuffer.buffer (TrainingLoop.replay_buffer g')) = REPLAY_MEMORY /\
  0 <= TrainingLoop.frame_idx g' /\
  buffer_len g' = Z.min (TrainingLoop.frame_idx g') REPLAY_MEMORY.
Proof.
  intros Hi Hmax Hf Hlen.
  pose proof (iteration_frame g o g' fl Hi) as Hf'.
  destruct (iteration_appends g o g' fl Hi) as (exp & Hrb).
  split; [|split; [lia|]].
  - rewrite Hrb. cbn [ReplayBuffer.append ReplayBuffer.buffer].
    by rewrite Deque_append_maxlen.
  - unfold buffer_len, ReplayBuffer.len in *. rewrite Hrb.
    cbn [ReplayBuffer.append ReplayBuffer.buffer].
    rewrite Deque_append_len_min by (rewrite Hmax, Hlen; lia).
    rewrite Hmax, Hlen, Hf'. lia.
Qed.

(** Every recorded event is allowed by the loop's conditions. *)
Lemma iteration_schedule g o g' fl :
  TrainingLoop.iteration g o = Ok (g', fl) ->
  Deque.maxlen (ReplayBuffer.buffer (TrainingLoop.replay_buffer g)) = REPLAY_MEMORY ->
  0 <= TrainingLoop.frame_idx g ->
  buffer_len g = Z.min (TrainingLoop.frame_idx g) REPLAY_MEMORY ->
  Forall event_ok (TrainingLoop.trace g) ->
  Forall event_ok (TrainingLoop.trace g').
Proof.
  intros Hi Hmax Hf Hlen Hev.
  destruct (iteration_store g o g' fl Hi Hmax Hf Hlen) as (_ & _ & Hlen').
  pose proof (iteration_frame g o g' fl Hi) as Hf'.
  destruct (iteration_cases g o g' fl Hi) as (g1 & fl1 & Hc & Hcases).
  destruct (collect_spec g o g1 fl1 Hc) as (_ & _ & _ & _ & Htr & Hf1 & _).
  assert (Hev1 : Forall event_ok (TrainingLoop.trace g1)) by (by rewrite Htr).
  destruct Hcases as [(_ & -> & _)|[(_ & _ & -> & _)|(_ & Hge & _ & g2 & Hs & Hl)]];
    [done | done |].
  pose proof (sync_target_keeps _ _ Hs) as Hrb2.
  pose proof (learn_keeps _ _ _ Hl) as Hrb3.
  destruct (sync_target_frame _ _ Hs) as [Hf2 _].
  destruct (learn_frame _ _ _ Hl) as [Hf3 _].
  pose proof (learn_trace _ _ _ Hl) as Htr3.
  assert (Hframe : INITIAL_MEMORY <= TrainingLoop.frame_idx g1).
  { unfold buffer_len in *. rewrite <- Hrb2, <- Hrb3, Hlen', Hf' in Hge.
    unfold INITIAL_MEMORY, REPLAY_MEMORY in *. lia. }
  rewrite Htr3, Hf2. apply Forall_app. split; [|by repeat constructor].
  destruct (sync_target_trace _ _ Hs) as [->|[Hm ->]]; [exact Hev1|].
  apply Forall_app. split; [exact Hev1|]. by repeat constructor.
Qed.

Lemma run_store (os : list Oracle) : forall g g',
  TrainingLoop.run os g = Ok g' ->
  Deque.maxlen (ReplayBuffer.buffer (TrainingLoop.replay_buffer g)) = REPLAY_MEMORY ->
  0 <= TrainingLoop.frame_idx g ->
  buffer_len g = Z.min (TrainingLoop.frame_idx g) REPLAY_MEMORY ->
  buffer_len g' = Z.min (TrainingLoop.frame_idx g') REPLAY_MEMORY.
Proof.
  induction os as [|o os IH]; intros g g' Hrun Hmax Hf Hlen;
    cbn [TrainingLoop.run] in Hrun.
  - by injection Hrun as <-.
  - destruct (_ <? _); [|by injection Hrun as <-].
    inv_bind Hrun. destruct a as [g1 fl].
    destruct (iteration_store g o g1 fl E Hmax Hf Hlen) as (Hmax1 & Hf1 & Hlen1).
    destruct fl; [by apply (IH g1) | by injection Hrun as <-].
Qed.

Lemma run_schedule (os : list Oracle) : forall g g',
  TrainingLoop.run os g = Ok g' ->
  Deque.maxlen (ReplayBuffer.buffer (TrainingLoop.replay_buffer g)) = REPLAY_MEMORY ->
  0 <= TrainingLoop.frame_idx g ->
  buffer_len g = Z.min (TrainingLoop.frame_idx g) REPLAY_MEMORY ->
  Forall event_ok (TrainingLoop.trace g) ->
  Forall event_ok (TrainingLoop.trace g').
Proof.
  induction os as [|o os IH]; intros g g' Hrun Hmax Hf Hlen Hev;
    cbn [TrainingLoop.run] in Hrun.
  - by injection Hrun as <-.
  - destruct (_ <? _); [|by injection Hrun as <-].
    inv_bind Hrun. destruct a as [g1 fl].
    destruct (iteration_store g o g1 fl E Hmax Hf Hlen) as (Hmax1 & Hf1 & Hlen1).
    pose proof (iteration_schedule g o g1 fl E Hmax Hf Hlen Hev) as Hev1.
    destruct fl; [by apply (IH g1) | by injection Hrun as <-].
Qed.

(** X21. From the setup of cell 21 on, through any number of passes: the store
    holds as many transitions as frames have been counted, up to its
    capacity; no learning step runs before the frame count reaches
    [INITIAL_MEMORY]; and the loop synchronizes the target only at frame
    counts that are multiples of [TARGET_UPDATE] and at least
    [INITIAL_MEMORY]. *)
Theorem schedule_from_setup (e0 : gym_state) (q_init target_init : list T)
    (adam0 : adam_state) (os : list Oracle) g0 g' :
  TrainingLoop.setup e0 q_init target_init adam0 = Ok g0 ->
  TrainingLoop.run os g0 = Ok g' ->
  buffer_len g' = Z.min (TrainingLoop.frame_idx g') REPLAY_MEMORY /\
  Forall event_ok (TrainingLoop.trace g').
Proof.
  intros Hsetup Hrun.
  destruct (setup_wf _ _ _ _ _ Hsetup) as (_ & _ & Hlen & Hf & Htr).
  assert (Hmax : Deque.maxlen (ReplayBuffer.buffer (TrainingLoop.replay_buffer g0))
                 = REPLAY_MEMORY).
  { unfold TrainingLoop.setup in Hsetup.
    destruct (Net.new ∅ q_init) as [st1 q]. destruct (Net.new st1 target_init) as [st2 tgt].
    inv_bind Hsetup. inv_bind Hsetup. inv_bind Hsetup. destruct a1 as [e s].
    injection Hsetup as <-. cbn [TrainingLoop.replay_buffer].
    by apply ReplayBuffer_init_inv in E0 as [_ ->]. }
  assert (Hlen0 : buffer_len g0 = Z.min (TrainingLoop.frame_idx g0) REPLAY_MEMORY)
    by (rewrite Hlen, Hf; reflexivity).
  split.
  - apply (run_store os g0 g' Hrun Hmax); [lia | exact Hlen0].
  - apply (run_schedule os g0 g' Hrun Hmax); [lia | exact Hlen0 |].
    rewrite Htr. constructor.
Qed.

End ScheduleFacts.

Lemma schedule_from_setup_witness :
  exists g0 g',
    @TrainingLoop.setup Z unit toy_backend toy_env false [10; 11] [20; 21] tt = Ok g0 /\
    TrainingLoop.run [toy_oracle []] g0 = Ok g' /\
    buffer_len g' = Z.min (TrainingLoop.frame_idx g') REPLAY_MEMORY /\
    Forall event_ok (TrainingLoop.trace g').
Proof.
  eexists _, _. split; [reflexivity|]. split; [reflexivity|].
  eapply (@schedule_from_setup Z unit toy_backend toy_env false [10; 11] [20; 21] tt
           [toy_oracle []]); reflexivity.
Defined.

(** ** [ProcessFrame84]: which frames are refused *)

Section ProcessErrors.
Context `{ImageLibSpec}.

(** X4. [process] looks at the number of items of the frame, not at its shape:
    it succeeds exactly on the arrays of 210 * 160 * 3 or 250 * 160 * 3
    items, and on every other array it fails on its assertion. *)
Theorem ProcessFrame84_process_refuses (frame : ndarray) :
  (is_Ok (ProcessFrame84.process frame) <->
     ndarray_size frame = 210 * 160 * 3 \/ ndarray_size frame = 250 * 160 * 3) /\
  (ProcessFrame84.process frame = Raise AssertionError <->
     ndarray_size frame <> 210 * 160 * 3 /\ ndarray_size frame <> 250 * 160 * 3).
Proof.
  destruct (Z.eq_dec (ndarray_size frame) (210 * 160 * 3)) as [H210|H210];
    [|destruct (Z.eq_dec (ndarray_size frame) (250 * 160 * 3)) as [H250|H250]].
  - pose proof (process_ok frame 210 (or_introl (conj H210 eq_refl))) as Hok.
    split; split.
    + by left.
    + intros _. rewrite Hok. by eexists.
    + rewrite Hok. discriminate.
    + intros [? _]. done.
  - pose proof (process_ok frame 250 (or_intror (conj H250 eq_refl))) as Hok.
    split; split.
    + by right.
    + intros _. rewrite Hok. by eexists.
    + rewrite Hok. discriminate.
    + intros [_ ?]. done.
  - assert (Hraise : ProcessFrame84.process frame = Raise AssertionError).
    { unfold ProcessFrame84.process.
      destruct (Z.eqb_spec (ndarray_size frame) (210 * 160 * 3)); [done|].
      destruct (Z.eqb_spec (ndarray_size frame) (250 * 160 * 3)); [done|]. reflexivity. }
    split; split.
    + rewrite Hraise. intros [x Hx]. discriminate.
    + intros [?|?]; done.
    + done.
    + done.
Qed.

End ProcessErrors.

Lemma ProcessFrame84_process_refuses_witness :
  ndarray_size black_frame = 210 * 160 * 3 /\
  is_Ok (@ProcessFrame84.process flat_lib black_frame).
Proof.
  split; [exact black_frame_size|].
  apply (proj1 (@ProcessFrame84_process_refuses flat_lib flat_lib_spec black_frame)).
  left. exact black_frame_size.
Defined.

(** ** [ReplayBuffer]: capacities at the edge *)

(** X16. A negative capacity is refused when the store is created. A store of
    capacity 0 is created, takes every [append] without complaint and
    never holds a transition, so that sampling from it always fails. *)
Theorem ReplayBuffer_capacity_edge {Obs : Type} :
  (forall C, C < 0 -> @ReplayBuffer.init Obs C = Raise ValueError) /\
  exists rb0 : ReplayBuffer.t Obs,
    ReplayBuffer.init 0 = Ok rb0 /\
    forall (xs : list (Experience.t Obs)) (perm : list nat) (batch_size : Z),
      ReplayBuffer.len (foldl ReplayBuffer.append rb0 xs) = 0 /\
      ReplayBuffer.sample (foldl ReplayBuffer.append rb0 xs) perm batch_size
        = Raise ValueError.
Proof.
  split.
  - intros C HC. unfold ReplayBuffer.init, Deque.new.
    by replace (C <? 0) with true by (symmetry; apply Z.ltb_lt; lia).
  - eexists. split; [reflexivity|]. intros xs perm batch_size.
    assert (Hitems : forall rb : ReplayBuffer.t Obs,
              Deque.maxlen (ReplayBuffer.buffer rb) = 0 ->
              Deque.items (ReplayBuffer.buffer rb) = [] ->
              Deque.maxlen (ReplayBuffer.buffer (foldl ReplayBuffer.append rb xs)) = 0 /\
              Deque.items (ReplayBuffer.buffer (foldl ReplayBuffer.append rb xs)) = []).
    { induction xs as [|x xs IH]; intros rb Hmax Hnil; [done|].
      cbn [foldl]. apply IH.
      - cbn [ReplayBuffer.append ReplayBuffer.buffer]. by rewrite Deque_append_maxlen.
      - unfold ReplayBuffer.append, Deque.append; cbn [ReplayBuffer.buffer Deque.items].
        by rewrite Hmax, Hnil. }
    destruct (Hitems (ReplayBuffer.mk (Deque.mk [] 0)) eq_refl eq_refl) as [_ Hnil].
    assert (Hlen : ReplayBuffer.len (foldl ReplayBuffer.append (ReplayBuffer.mk (Deque.mk [] 0)) xs) = 0)
      by (unfold ReplayBuffer.len, Deque.len; by rewrite Hnil).
    split; [exact Hlen|].
    unfold ReplayBuffer.sample, np_random_choice. rewrite Hlen.
    destruct (Z.eqb_spec batch_size 0) as [->|Hne]; [reflexivity|].
    reflexivity.
Qed.

(** ** [BufferWrapper]: the stack at any time *)

(** X10. After [reset] and any number of observations, the stack holds the last
    four frames seen since the reset, oldest first, with planes of zeros
    standing for the frames before the reset's. *)
Theorem BufferWrapper_sliding_window (h : heap) (f0 : list (list (list Z)))
    (fs : list (list (list (list Z)))) :
  is_frame f0 -> Forall is_frame fs ->
  exists (h0 : heap) (bw : BufferWrapper.t) (l : loc) (h' : heap),
    BufferWrapper.reset h Pipeline.init f0 = Ok (h0, bw, l) /\
    push_all h0 bw fs = Ok h' /\
    h' !! l = Some (drop (length fs)
                      (replicate 3 zero_plane ++ map plane_of (f0 :: fs))) /\
    length (drop (length fs) (replicate 3 zero_plane ++ map plane_of (f0 :: fs))) = 4%nat.
Proof.
  intros H0 Hfs.
  pose proof (BufferWrapper_reset_ok h f0 H0) as Hreset. cbv zeta in Hreset.
  set (l := fresh (dom h)) in *.
  set (bw := BufferWrapper.mk (BufferWrapper.observation_space_low Pipeline.init) (Some l)) in *.
  set (buf0 := replicate 3 zero_plane ++ [plane_of f0]) in *.
  assert (Hok0 : stack_ok buf0) by (apply byte_stack_ok; by apply byte_stack_reset).
  destruct (push_all_ok fs (<[l := buf0]> h) bw l buf0
              eq_refl (lookup_insert_eq _ _ _) Hok0 Hfs)
    as (h' & Hpush & Hl').
  exists (<[l := buf0]> h), bw, l, h'.
  split; [exact Hreset|]. split; [exact Hpush|].
  assert (Heq : buf0 ++ map plane_of fs = replicate 3 zero_plane ++ map plane_of (f0 :: fs)).
  { unfold buf0. cbn [map]. by rewrite <- app_assoc. }
  rewrite <- Heq. split; [exact Hl'|].
  rewrite length_drop, length_app, length_map. unfold buf0.
  rewrite length_app, length_replicate. cbn [length]. lia.
Qed.

Lemma BufferWrapper_sliding_window_witness :
  is_frame (constant_frame 1) /\
  Forall is_frame [constant_frame 2; constant_frame 3] /\
  exists (h0 : heap) (bw : BufferWrapper.t) (l : loc) (h' : heap),
    BufferWrapper.reset ∅ Pipeline.init (constant_frame 1) = Ok (h0, bw, l) /\
    push_all h0 bw [constant_frame 2; constant_frame 3] = Ok h' /\
    h' !! l = Some (drop 2 (replicate 3 zero_plane ++
                              map plane_of [constant_frame 1; constant_frame 2; constant_frame 3])).
Proof.
  assert (H1 : is_frame (constant_frame 1)) by (apply constant_frame_is_frame; lia).
  assert (H23 : Forall is_frame [constant_frame 2; constant_frame 3])
    by (repeat constructor; apply constant_frame_is_frame; lia).
  split; [exact H1|]. split; [exact H23|].
  destruct (BufferWrapper_sliding_window ∅ (constant_frame 1)
              [constant_frame 2; constant_frame 3] H1 H23)
    as (h0 & bw & l & h' & Hreset & Hpush & Hl & _).
  exists h0, bw, l, h'. split; [exact Hreset|]. split; [exact Hpush | exact Hl].
Defined.

(** ** [DQN]: the architecture fits the observations *)

Lemma conv2d_Ok (c_in c_out k s n h w : Z) :
  k <= h -> k <= w ->
  DQN.conv2d c_in c_out k s [n; c_in; h; w] =
    Ok [n; c_out; (h - k) / s + 1; (w - k) / s + 1].
Proof.
  intros Hh Hw. unfold DQN.conv2d. rewrite Z.eqb_refl. cbn [negb].
  replace (h <? k) with false by (symmetry; apply Z.ltb_ge; lia).
  replace (w <? k) with false by (symmetry; apply Z.ltb_ge; lia).
  reflexivity.
Qed.

(** The shapes through [DQN.forward] on a batch of images with
    [in_channels] channels, of at least 36 rows and columns: a row of
    [n_actions] values per image when the last convolution leaves 49
    positions per channel, as 7 * 7 * 64 input features of [fc4] ask for,
    and [RuntimeError] otherwise. *)
Lemma forward_shape (self : DQN.t) (n h w : Z) :
  1 <= n -> 36 <= h -> 36 <= w ->
  DQN.forward self [n; DQN.in_channels self; h; w] =
    if ((((h - 8) / 4 + 1 - 4) / 2 + 1 - 3) / 1 + 1) *
       ((((w - 8) / 4 + 1 - 4) / 2 + 1 - 3) / 1 + 1) =? 49
    then Ok [n; DQN.n_actions self] else Raise RuntimeError.
Proof.
  intros Hn Hh Hw. unfold DQN.forward.
  rewrite conv2d_Ok, bind_Ok_l by lia.
  rewrite conv2d_Ok, bind_Ok_l by (Z.to_euclidean_division_equations; lia).
  rewrite conv2d_Ok, bind_Ok_l by (Z.to_euclidean_division_equations; lia).
  unfold DQN.view_rows.
  replace (n =? 0) with false by (symmetry; apply Z.eqb_neq; lia).
  rewrite bind_Ok_l. cbn [foldr]. unfold DQN.linear at 2.
  set (h3 := ((((h - 8) / 4 + 1 - 4) / 2 + 1 - 3) / 1 + 1)).
  set (w3 := ((((w - 8) / 4 + 1 - 4) / 2 + 1 - 3) / 1 + 1)).
  replace (64 * (h3 * (w3 * 1)) =? 7 * 7 * 64) with (h3 * w3 =? 49).
  - destruct (h3 * w3 =? 49); [|reflexivity].
    rewrite bind_Ok_l. unfold DQN.linear. by rewrite Z.eqb_refl.
  - destruct (Z.eqb_spec (h3 * w3) 49) as [Heq|Hne]; symmetry.
    + apply Z.eqb_eq. lia.
    + apply Z.eqb_neq. lia.
Qed.

(** X15. [DQN] and the environment fit: on a batch of observations of
    [make_env], of shape [(n, 4, 84, 84)], the three convolutions leave
    7 by 7 positions in 64 channels, the 7 * 7 * 64 features [fc4] takes, and
    [forward] returns one row of [n_actions] values per observation. The
    same holds for images of 84 to 91 rows and columns; square images of
    other sizes, and images with another number of channels, are refused
    with [RuntimeError]. *)
Theorem DQN_forward_shape (self : DQN.t) :
  (forall n, 1 <= n -> DQN.in_channels self = 4 ->
     DQN.forward self [n; 4; 84; 84] = Ok [n; DQN.n_actions self]) /\
  (forall n h w, 1 <= n -> 84 <= h <= 91 -> 84 <= w <= 91 ->
     DQN.forward self [n; DQN.in_channels self; h; w] = Ok [n; DQN.n_actions self]) /\
  (forall n h, 1 <= n -> 36 <= h -> ~ (84 <= h <= 91) ->
     DQN.forward self [n; DQN.in_channels self; h; h] = Raise RuntimeError) /\
  (forall n c h w, c <> DQN.in_channels self ->
     DQN.forward self [n; c; h; w] = Raise RuntimeError).
Proof.
  assert (Hfit : forall n h w, 1 <= n -> 84 <= h <= 91 -> 84 <= w <= 91 ->
            DQN.forward self [n; DQN.in_channels self; h; w] = Ok [n; DQN.n_actions self]).
  { intros n h w Hn Hh Hw. rewrite forward_shape by lia.
    replace ((((h - 8) / 4 + 1 - 4) / 2 + 1 - 3) / 1 + 1) with 7
      by (rewrite Z.div_1_r; Z.to_euclidean_division_equations; lia).
    replace ((((w - 8) / 4 + 1 - 4) / 2 + 1 - 3) / 1 + 1) with 7
      by (rewrite Z.div_1_r; Z.to_euclidean_division_equations; lia).
    reflexivity. }
  split; [|split; [exact Hfit|split]].
  - intros n Hn Hc. rewrite <- Hc. apply Hfit; lia.
  - intros n h Hn Hh Hout. rewrite forward_shape by lia.
    rewrite Z.div_1_r.
    set (h3 := ((h - 8) / 4 + 1 - 4) / 2 + 1 - 3 + 1).
    assert (Hh3 : 1 <= h3 <= 6 \/ 8 <= h3)
      by (unfold h3; Z.to_euclidean_division_equations; lia).
    clearbody h3.
    replace (h3 * h3 =? 49) with false; [reflexivity|].
    symmetry. apply Z.eqb_neq. nia.
  - intros n c h w Hc. unfold DQN.forward, DQN.conv2d.
    replace (c =? DQN.in_channels self) with false by (symmetry; by apply Z.eqb_neq).
    reflexivity.
Qed.

(** *** The loop raises nothing *)

Section TotalFacts.
Context {T Obs : Type} `{Backend T Obs} `{GymEnv Obs} `{!BackendSpec}.
Implicit Types (g : TrainingLoop.globals) (o : Oracle).

Variable Inv : gym_state -> Prop.
Hypothesis reset_ok : forall e, Inv e -> exists e' s, gym_reset e = Ok (e', s) /\ Inv e'.
Hypothesis step_ok : forall e a, Inv e -> exists e' r, gym_step e a = Ok (e', r) /\ Inv e'.

Lemma collect_total g o :
  Inv (TrainingLoop.env g) ->
  exists g1 fl, TrainingLoop.collect g o = Ok (g1, fl) /\ Inv (TrainingLoop.env g1).
Proof.
  intros Hinv. unfold TrainingLoop.collect.
  destruct (step_ok (TrainingLoop.env g)
              (TrainingLoop.select_action g o (TrainingLoop.frame_idx g + 1)) Hinv)
    as (e' & [[next_state reward] done] & Hstep & Hinv').
  rewrite Hstep, bind_Ok_l. cbv beta iota.
  destruct done.
  - destruct (reset_ok e' Hinv') as (e'' & s & Hreset & Hinv'').
    rewrite Hreset, bind_Ok_l. cbv beta iota. eexists _, _. split; [reflexivity | exact Hinv''].
  - eexists _, _. split; [reflexivity | exact Hinv'].
Qed.

Lemma iteration_total g o :
  wf g -> Inv (TrainingLoop.env g) ->
  Deque.maxlen (ReplayBuffer.buffer (TrainingLoop.replay_buffer g)) = REPLAY_MEMORY ->
  0 <= TrainingLoop.frame_idx g ->
  buffer_len g = Z.min (TrainingLoop.frame_idx g) REPLAY_MEMORY ->
  rnd_permutation o ≡ₚ
    seq 0 (Z.to_nat (Z.min (TrainingLoop.frame_idx g + 1) REPLAY_MEMORY)) ->
  exists g' fl, TrainingLoop.iteration g o = Ok (g', fl) /\
    wf g' /\ Inv (TrainingLoop.env g').
Proof.
  intros Hwf Hinv Hmax Hf Hlen Hperm.
  destruct (collect_total g o Hinv) as (g1 & fl1 & Hc & Hinv1).
  pose proof (collect_wf g o g1 fl1 Hwf Hc) as Hwf1.
  destruct (collect_spec g o g1 fl1 Hc) as (_ & _ & _ & _ & _ & Hf1 & exp & Hrb).
  assert (Hlen1 : buffer_len g1 = Z.min (TrainingLoop.frame_idx g + 1) REPLAY_MEMORY).
  { unfold buffer_len, ReplayBuffer.len in *. rewrite Hrb.
    cbn [ReplayBuffer.append ReplayBuffer.buffer].
    rewrite Deque_append_len_min by (rewrite Hmax, Hlen; lia).
    rewrite Hmax, Hlen. lia. }
  unfold TrainingLoop.iteration. rewrite Hc, bind_Ok_l. cbv beta iota.
  destruct fl1; [|eexists _, _; split; [reflexivity | done]].
  fold (buffer_len g1).
  destruct (Z.ltb_spec (buffer_len g1) INITIAL_MEMORY) as [Hlt|Hge];
    [eexists _, _; split; [reflexivity | done]|].
  destruct (sync_target_spec g1 Hwf1)
    as (g2 & Hs & Hwf2 & _ & _ & _ & Hrb2 & _ & _ & _ & _).
  rewrite Hs, bind_Ok_l.
  assert (Henv2 : TrainingLoop.env g2 = TrainingLoop.env g1).
  { revert Hs. unfold TrainingLoop.sync_target.
    destruct (_ =? _); [|by intros [= <-]].
    intros Hs. inv_bind Hs. by injection Hs as <-. }
  destruct (learn_total g2 o) as [g3 Hl].
  - unfold buffer_len in *. rewrite Hrb2. unfold BATCH_SIZE, INITIAL_MEMORY in *. lia.
  - rewrite Hrb2. unfold buffer_len, ReplayBuffer.len, Deque.len in Hlen1.
    replace (length (Deque.items (ReplayBuffer.buffer (TrainingLoop.replay_buffer g1))))
      with (Z.to_nat (Z.min (TrainingLoop.frame_idx g + 1) REPLAY_MEMORY)) by lia.
    exact Hperm.
  - rewrite Hl, bind_Ok_l. eexists _, _. split; [reflexivity|].
    destruct (learn_spec g2 o g3 Hwf2 Hl) as (Hwf3 & _).
    split; [exact Hwf3|].
    revert Hl. unfold TrainingLoop.learn. intros Hl. inv_bind Hl. inv_bind Hl.
    destruct (Net.step _ _ _). injection Hl as <-. cbn [TrainingLoop.env].
    by rewrite Henv2.
Qed.

Lemma run_total (os : list Oracle) : forall g,
  wf g -> Inv (TrainingLoop.env g) ->
  Deque.maxlen (ReplayBuffer.buffer (TrainingLoop.replay_buffer g)) = REPLAY_MEMORY ->
  0 <= TrainingLoop.frame_idx g ->
  buffer_len g = Z.min (TrainingLoop.frame_idx g) REPLAY_MEMORY ->
  draws_ok (TrainingLoop.frame_idx g) os ->
  exists g', TrainingLoop.run os g = Ok g' /\ Inv (TrainingLoop.env g').
Proof.
  induction os as [|o os IH]; intros g Hwf Hinv Hmax Hf Hlen Hdraws;
    cbn [TrainingLoop.run].
  - by eexists.
  - destruct (_ <? _); [|by eexists].
    destruct Hdraws as [Hperm Hdraws].
    destruct (iteration_total g o Hwf Hinv Hmax Hf Hlen Hperm) as (g1 & fl & Hi & Hwf1 & Hinv1).
    destruct (iteration_store g o g1 fl Hi Hmax Hf Hlen) as (Hmax1 & Hf1 & Hlen1).
    rewrite Hi, bind_Ok_l. cbv beta iota.
    destruct fl; [|by eexists].
    apply IH; try done.
    by rewrite (iteration_frame g o g1 Continue Hi).
Qed.

End TotalFacts.

(** X22. The loop raises nothing. Over an environment whose [reset] and [step]
    succeed on the states it reaches (the states of [Inv]), with a network
    of at least one action and draws that rearrange the stored positions,
    from globals as cell 21 leaves them (well formed, one stored transition
    per counted frame up to the capacity), any number of passes runs to its
    end: no sampling, indexing, masking or copying step of the loop fails,
    and the globals it ends with are again such globals. *)
Theorem run_never_raises {T Obs : Type} `{Backend T Obs} `{GymEnv Obs} `{!BackendSpec}
    (Inv : gym_state -> Prop) (os : list Oracle) (g : TrainingLoop.globals) :
  (forall e, Inv e -> exists e' s, gym_reset e = Ok (e', s) /\ Inv e') ->
  (forall e a, Inv e -> exists e' r, gym_step e a = Ok (e', r) /\ Inv e') ->
  wf g -> Inv (TrainingLoop.env g) ->
  Deque.maxlen (ReplayBuffer.buffer (TrainingLoop.replay_buffer g)) = REPLAY_MEMORY ->
  0 <= TrainingLoop.frame_idx g ->
  buffer_len g = Z.min (TrainingLoop.frame_idx g) REPLAY_MEMORY ->
  draws_ok (TrainingLoop.frame_idx g) os ->
  exists g', TrainingLoop.run os g = Ok g' /\
    wf g' /\ Inv (TrainingLoop.env g') /\
    buffer_len g' = Z.min (TrainingLoop.frame_idx g') REPLAY_MEMORY.
Proof.
  intros Hreset Hstep Hwf Hinv Hmax Hf Hlen Hdraws.
  destruct (run_total Inv Hreset Hstep os g Hwf Hinv Hmax Hf Hlen Hdraws) as (g' & Hrun & Hinv').
  exists g'. split; [exact Hrun|].
  split; [exact (run_wf os g g' Hwf Hrun)|]. split; [exact Hinv'|].
  exact (run_store os g g' Hrun Hmax Hf Hlen).
Qed.

Lemma run_never_raises_witness :
  @wf Z unit toy_backend toy_env toy_start /\
  draws_ok (TrainingLoop.frame_idx toy_start) [toy_oracle [0%nat]] /\
  is_Ok (TrainingLoop.run [toy_oracle [0%nat]] toy_start).
Proof.
  assert (Hdraws : draws_ok (TrainingLoop.frame_idx toy_start) [toy_oracle [0%nat]])
    by (split; [exact (Permutation_refl [0%nat]) | exact I]).
  split; [apply toy_globals_wf|]. split; [exact Hdraws|].
  destruct (@run_never_raises Z unit toy_backend toy_env toy_backend_spec (fun _ => True)
              [toy_oracle [0%nat]] toy_start) as (g' & Hrun & _); [| | | | | | | |by exists g'].
  - intros e _. by exists e, tt.
  - intros e a _. by eexists e, _.
  - apply toy_globals_wf.
  - exact I.
  - reflexivity.
  - reflexivity.
  - reflexivity.
  - exact Hdraws.
Defined.

(** *** The loop over the environment of [make_env] *)

Section EndToEnd.
Context `{RawEnv} `{ImageLibSpec}.

Lemma make_env_gym_reset (s : list nat) (e : heap * MakeEnv.t) :
  frames_of_shape s -> known_resolution s -> live s e.1 e.2 ->
  exists e' obs, @gym_reset _ make_env_gym e = Ok (e', obs) /\ live s e'.1 e'.2.
Proof.
  intros Hframes Hres [Hbuilt _]. destruct e as [h self]. cbn [fst snd] in *.
  destruct (make_env_reset_eq s h self Hframes Hres Hbuilt)
    as (env' & obs & Hmade & Hobs & Hreset). cbv zeta in Hreset.
  destruct Hbuilt as (_ & _ & Hspace).
  destruct (scaled_store h (fresh (dom h)) (replicate 3 zero_plane ++ [plane_of obs]))
    as (_ & _ & _ & Hnew & Hkept & _). cbv zeta in Hnew, Hkept.
  eexists (_, _), _. split.
  - cbn [gym_reset make_env_gym]. unfold make_env_reset; cbn [fst snd].
    rewrite Hreset, bind_Ok_l. cbv beta iota. by rewrite Hnew.
  - cbn [fst snd].
    split; [split; [exact Hmade | split; [reflexivity | exact Hspace]]|].
    eexists _, _. split; [reflexivity|]. split; [exact Hkept|]. by apply byte_stack_reset.
Qed.

Lemma make_env_gym_step (s : list nat) (e : heap * MakeEnv.t) (action : Z) :
  frames_of_shape s -> known_resolution s -> live s e.1 e.2 ->
  exists e' r, @gym_step _ make_env_gym e action = Ok (e', r) /\ live s e'.1 e'.2.
Proof.
  intros Hframes Hres Hlive. destruct e as [h self]. cbn [fst snd] in *.
  destruct Hlive as ((Hmade & Hlow & Hspace) & l & buf & Hbuf & Hh & Hstack).
  destruct (make_env_step_eq s h self action l buf Hframes Hres Hmade Hbuf Hh Hstack)
    as (env' & obs & reward & done & info & Hmade' & Hobs & Hstep). cbv zeta in Hstep.
  destruct (scaled_store h l (drop 1 buf ++ [plane_of obs]))
    as (_ & _ & _ & Hnew & Hkept & _). cbv zeta in Hnew, Hkept.
  eexists (_, _), (_, reward, done). split.
  - cbn [gym_step make_env_gym]. unfold make_env_step; cbn [fst snd].
    rewrite Hstep, bind_Ok_l. cbv beta iota. by rewrite Hnew.
  - cbn [fst snd].
    split; [split; [exact Hmade' | split; [exact Hlow | exact Hspace]]|].
    eexists _, _. split; [exact Hbuf|]. split; [exact Hkept|]. by apply byte_stack_push.
Qed.

(** X23. The training cell over the environment of [make_env] raises nothing:
    on a simulator whose frames have one of the two known resolutions,
    once the environment has been reset, with a network of at least one
    action and draws that rearrange the stored positions, from globals as
    cell 21 leaves them, any number of passes of the loop runs to its end.
    Every [env.step], [env.reset], [sample], target computation and
    parameter copy on the way succeeds, and the environment is left ready
    for the next [step]. *)
Theorem training_on_make_env_never_raises {T : Type} `{Backend T planes} `{!BackendSpec}
    (s : list nat) (os : list Oracle)
    (g : @TrainingLoop.globals T planes _ make_env_gym) :
  frames_of_shape s -> known_resolution s ->
  wf g ->
  live s (TrainingLoop.env g).1 (TrainingLoop.env g).2 ->
  Deque.maxlen (ReplayBuffer.buffer (TrainingLoop.replay_buffer g)) = REPLAY_MEMORY ->
  0 <= TrainingLoop.frame_idx g ->
  buffer_len g = Z.min (TrainingLoop.frame_idx g) REPLAY_MEMORY ->
  draws_ok (TrainingLoop.frame_idx g) os ->
  exists g', TrainingLoop.run os g = Ok g' /\
    live s (TrainingLoop.env g').1 (TrainingLoop.env g').2.
Proof.
  intros Hframes Hres Hwf Hlive Hmax Hf Hlen Hdraws.
  apply (run_total (fun e : @gym_state _ make_env_gym => live s e.1 e.2)); try done.
  - intros e He. by apply make_env_gym_reset.
  - intros e a He. by apply make_env_gym_step.
Qed.

End EndToEnd.

Lemma toy_backend_planes_spec : @BackendSpec Z planes toy_backend_planes.
Proof. split. intros ps s. discriminate. Qed.

Lemma black_start_wf : wf black_start.
Proof.
  unfold wf, black_start; cbn. split_and!.
  - apply NoDup_cons. split; [|apply NoDup_singleton].
    rewrite list_elem_of_singleton. lia.
  - intros l Hl Hq.
    rewrite !elem_of_cons, elem_of_nil in Hl. rewrite !elem_of_cons, elem_of_nil in Hq. lia.
  - reflexivity.
  - repeat constructor; eexists; reflexivity.
  - reflexivity.
Qed.

Lemma training_on_make_env_never_raises_witness :
  @frames_of_shape black_env [210; 160; 3]%nat /\
  known_resolution [210; 160; 3]%nat /\
  wf black_start /\
  draws_ok (TrainingLoop.frame_idx black_start) [toy_oracle [0%nat]] /\
  is_Ok (TrainingLoop.run [toy_oracle [0%nat]] black_start).
Proof.
  assert (Hdraws : draws_ok (TrainingLoop.frame_idx black_start) [toy_oracle [0%nat]])
    by (split; [exact (Permutation_refl [0%nat]) | exact I]).
  split; [exact black_frames|]. split; [exact black_resolution|].
  split; [exact black_start_wf|]. split; [exact Hdraws|].
  destruct (@training_on_make_env_never_raises black_env flat_lib flat_lib_spec
              Z toy_backend_planes toy_backend_planes_spec [210; 160; 3]%nat
              [toy_oracle [0%nat]] black_start) as (g' & Hrun & _);
    [| | | | | | | |by exists g'].
  - exact black_frames.
  - exact black_resolution.
  - exact black_start_wf.
  - exact black_live_live.
  - reflexivity.
  - reflexivity.
  - reflexivity.
  - exact Hdraws.
Defined.

(** ** The exploration rate *)

Lemma all_from_spec (k : nat) (p : Z -> bool) : forall lo,
  all_from k p lo = true -> forall z, lo <= z < lo + Z.of_nat k -> p z = true.
Proof.
  induction k as [|k IH]; intros lo Hall z Hz; [lia|].
  cbn [all_from] in Hall. destruct (p lo) eqn:Hp; [|discriminate].
  destruct (Z.eq_dec z lo) as [->|Hne]; [exact Hp|].
  apply (IH (lo + 1) Hall). lia.
Qed.

(** The check holds at every frame count from 1 to [total_frames]: a
    thousand blocks of a thousand, evaluated. *)
Lemma decay_ok :
  all_from 1000 (fun block => all_from 1000 decay_step_ok (1000 * block + 1)) 0 = true.
Proof. vm_compute. reflexivity. Qed.

Lemma decay_step_ok_all (frame_idx : Z) :
  1 <= frame_idx <= total_frames -> decay_step_ok frame_idx = true.
Proof.
  intros Hf. unfold total_frames in Hf.
  set (block := (frame_idx - 1) / 1000).
  assert (Hblock : 0 <= block < 0 + 1000)
    by (subst block; Z.to_euclidean_division_equations; lia).
  assert (Hidx : 1000 * block + 1 <= frame_idx < 1000 * block + 1 + 1000)
    by (subst block; Z.to_euclidean_division_equations; lia).
  clearbody block.
  exact (all_from_spec 1000 decay_step_ok (1000 * block + 1)
           (all_from_spec 1000 (fun block => all_from 1000 decay_step_ok (1000 * block + 1)) 0
              decay_ok block Hblock)
           frame_idx Hidx).
Qed.

(** The machine's number for [frame_idx], read by [SpecFloat]. *)
Lemma of_uint63_of_Z (z : Z) :
  0 <= z < 2 ^ 53 ->
  FloatOps.Prim2SF (PrimFloat.of_uint63 (Uint63.of_Z z)) = Float64.of_Z z.
Proof.
  intros Hz. rewrite FloatAxioms.of_uint63_spec, Uint63.of_Z_spec.
  rewrite Z.mod_small; [reflexivity|].
  split; [lia|]. apply Z.lt_trans with (2 ^ 53); [lia | reflexivity].
Qed.

Lemma decayed_spec (frame_idx : Z) :
  0 <= frame_idx < 2 ^ 53 ->
  FloatOps.Prim2SF (decayed frame_idx) =
    SFsub Float64.prec Float64.emax EPS_START
      (SFdiv Float64.prec Float64.emax (Float64.of_Z frame_idx) (Float64.of_Z EPS_DECAY)).
Proof.
  intros Hf. unfold decayed.
  rewrite FloatAxioms.sub_spec, FloatAxioms.div_spec.
  rewrite !of_uint63_of_Z; [reflexivity | unfold EPS_DECAY; lia | exact Hf | lia].
Qed.

Lemma eps_end_spec : FloatOps.Prim2SF eps_end = EPS_END.
Proof.
  unfold eps_end. rewrite FloatAxioms.div_spec, !of_uint63_of_Z by lia. reflexivity.
Qed.

(** X24. The exploration rate over the frames of the loop. At every frame count
    from 1 to [total_frames] the rate is at least [EPS_END] and below
    [EPS_START], and it is not larger at the next frame; it is above
    [EPS_END] up to frame 98000 (where [1.0 - 0.98] is still above [0.02] in
    binary64) and it is [EPS_END] itself from frame 98001 on. *)
Theorem epsilon_schedule (frame_idx : Z) :
  1 <= frame_idx <= total_frames ->
  SFleb EPS_END (TrainingLoop.epsilon frame_idx) = true /\
  SFltb (TrainingLoop.epsilon frame_idx) EPS_START = true /\
  SFleb (TrainingLoop.epsilon (frame_idx + 1)) (TrainingLoop.epsilon frame_idx) = true /\
  (frame_idx < EPS_FLOOR_FRAME -> SFltb EPS_END (TrainingLoop.epsilon frame_idx) = true) /\
  (EPS_FLOOR_FRAME <= frame_idx -> TrainingLoop.epsilon frame_idx = EPS_END).
Proof.
  intros Hf.
  pose proof (decay_step_ok_all frame_idx Hf) as Hok.
  unfold total_frames in Hf.
  unfold decay_step_ok in Hok. cbv zeta in Hok.
  apply andb_true_iff in Hok as [Hok Hfloor]. apply andb_true_iff in Hok as [Hlt Hmono].
  rewrite FloatAxioms.ltb_spec in Hlt. rewrite FloatAxioms.leb_spec in Hmono.
  rewrite of_uint63_of_Z in Hlt by lia.
  rewrite (decayed_spec frame_idx) in Hlt, Hmono by lia.
  rewrite (decayed_spec (frame_idx + 1)) in Hmono by lia.
  unfold TrainingLoop.epsilon, Float64.ltb. cbv zeta.
  set (x := SFsub Float64.prec Float64.emax EPS_START
              (SFdiv Float64.prec Float64.emax (Float64.of_Z frame_idx)
                 (Float64.of_Z EPS_DECAY))) in *.
  set (x' := SFsub Float64.prec Float64.emax EPS_START
               (SFdiv Float64.prec Float64.emax (Float64.of_Z (frame_idx + 1))
                  (Float64.of_Z EPS_DECAY))) in *.
  assert (Hend : SFleb EPS_END EPS_END = true) by (vm_compute; reflexivity).
  assert (Hend1 : SFltb EPS_END EPS_START = true) by (vm_compute; reflexivity).
  destruct (Z.ltb_spec frame_idx EPS_FLOOR_FRAME) as [Hbefore|Hafter].
  - rewrite FloatAxioms.ltb_spec, eps_end_spec, decayed_spec in Hfloor by lia.
    fold x in Hfloor. rewrite Hfloor.
    assert (Hle : SFleb EPS_END x = true).
    { revert Hfloor. unfold SFltb, SFleb. by destruct (SFcompare EPS_END x) as [[]|]. }
    split; [exact Hle|]. split; [exact Hlt|]. split.
    + destruct (SFltb EPS_END x') eqn:Hx'; [exact Hmono|].
      exact Hle.
    + split; [done | unfold EPS_FLOOR_FRAME in *; lia].
  - apply andb_true_iff in Hfloor as [Hfloor Hfloor'].
    apply negb_true_iff in Hfloor, Hfloor'.
    rewrite FloatAxioms.ltb_spec, eps_end_spec, decayed_spec in Hfloor, Hfloor' by lia.
    fold x in Hfloor. fold x' in Hfloor'. rewrite Hfloor, Hfloor'.
    split; [exact Hend|]. split; [exact Hend1|]. split; [exact Hend|].
    split; [unfold EPS_FLOOR_FRAME in *; lia | done].
Qed.

Lemma epsilon_schedule_witness :
  1 <= 98000 <= total_frames /\
  SFltb EPS_END (TrainingLoop.epsilon 98000) = true /\
  TrainingLoop.epsilon 98001 = EPS_END.
Proof.
  assert (H0 : 1 <= 98000 <= total_frames) by (unfold total_frames; lia).
  assert (H1 : 1 <= 98001 <= total_frames) by (unfold total_frames; lia).
  split; [exact H0|]. split.
  - apply (proj1 (proj2 (proj2 (proj2 (epsilon_schedule 98000 H0))))).
    unfold EPS_FLOOR_FRAME. lia.
  - apply (proj2 (proj2 (proj2 (proj2 (epsilon_schedule 98001 H1))))).
    unfold EPS_FLOOR_FRAME. lia.
Defined.
